(** * Health-Connect backend: authentication and session lifecycle

    A shallow embedding of the identity layer of the backend:

    - [models/OTP.js]      (module [OTP])
    - [models/Session.js]  (module [Session])
    - [models/AuthLog.js]  (module [AuthLog])
    - [lib/utils.js]       (module [Utils]: [generateToken], [logAuthEvent])
    - [controllers/authController.js] (module [AuthController]:
      [register], [verifyOTP], [forgotPassword], [resetPassword])

    MongoDB collections are lists of documents, dates are milliseconds
    since the epoch, and every [async] function is a computation in a
    state-and-exception monad over the database.  A thrown exception does
    not roll back the writes made before it, exactly as with [await]ed
    Mongoose calls.

    Conventions: one request reads the clock once; reads always
    succeed, and a write fails when the environment says so.  An
    address is stored lower-cased and trimmed, as the schemas have it.
    The validators of [register], [login] and [adminLogin] normalise
    the address of the body; the other endpoints are modelled for an
    address written in the body as it is stored, and compare it as a
    string.  [resetPassword], whose [email] and [otp] no validator
    looks at, is modelled for every value the body can carry. *)

From Stdlib Require Import String List ZArith Bool Lia PeanoNat DecimalString.
Import ListNotations.
Local Open Scope string_scope.
Local Open Scope list_scope.

Set Implicit Arguments.

(* ------------------------------------------------------------------ *)
(** * Documents *)

Definition ObjectId := nat.

(** [Date]: milliseconds since the epoch, as [Date.getTime()]. *)
Definition Date := Z.

(** The three account collections, which are also the values of
    [Session.userType] and [AuthLog.userType]. *)
Inductive UserType := Doctor | Patient | Admin.

Definition UserType_eqb (a b : UserType) : bool :=
  match a, b with
  | Doctor, Doctor | Patient, Patient | Admin, Admin => true
  | _, _ => false
  end.

(** The value the [pre('save')] hook stores in [password]:
    [bcrypt.hash(plain, rounds)].  The hash is kept symbolic; the only
    operation on it is [comparePassword]. *)
Inductive PasswordHash := Bcrypt (rounds : nat) (plain : string).

Definition bcrypt_compare (candidate : string) (h : PasswordHash) : bool :=
  match h with Bcrypt _ plain => String.eqb candidate plain end.

(** The fields of [doctorSchema] and [patientSchema] that the
    authentication flows read or write.  Both schemas declare them
    alike. *)
Record UserDoc := mkUser {
  u_id : ObjectId;
  u_name : string;
  u_email : string;
  u_password : PasswordHash;
  u_isEmailVerified : bool;
  u_emailVerifiedAt : option Date;
  u_passwordResetToken : option string;
  u_passwordResetExpires : option Date;
  u_passwordChangedAt : option Date;
  u_passwordResetCount : nat;
  u_passwordResetUsedAt : option Date;
  u_isActive : bool;
  u_lastLogin : option Date;
  u_lastLogout : option Date
}.

(** [adminSchema]: name, email, password, role, isActive, lastlogin,
    lastLogout, createdBy.  The schema declares none of the
    password-reset paths. *)
Record AdminDoc := mkAdmin {
  a_id : ObjectId;
  a_name : string;
  a_email : string;
  a_password : PasswordHash;
  a_role : string;
  a_isActive : bool;
  a_lastlogin : option Date;
  a_lastLogout : option Date
}.

(** [otpSchema], with the [createdAt] timestamp. *)
Record OtpDoc := mkOtp {
  o_id : ObjectId;
  o_email : string;
  o_otp : string;
  o_role : string;
  o_purpose : string;
  o_verified : bool;
  o_attempts : nat;
  o_expiresAt : Date;
  o_createdAt : Date
}.

Record DeviceInfo := mkDevice {
  browser : string;
  os : string;
  device : string
}.

(** [sessionSchema], with both timestamps. *)
Record SessionDoc := mkSession {
  s_id : ObjectId;
  s_userId : ObjectId;
  s_userType : UserType;
  s_token : string;
  s_deviceInfo : DeviceInfo;
  s_ipAddress : string;
  s_lastActivity : Date;
  s_expiresAt : Date;
  s_isActive : bool;
  s_revokedReason : option string;
  s_createdAt : Date;
  s_updatedAt : Date
}.

(** [authLogSchema]. *)
Record AuthLogDoc := mkAuthLog {
  l_userId : option ObjectId;
  l_userType : option UserType;
  l_email : string;
  l_action : string;
  l_success : bool;
  l_failureReason : option string
}.

(** The database: one list per collection. *)
Record Db := mkDb {
  doctors : list UserDoc;
  patients : list UserDoc;
  admins : list AdminDoc;
  otps : list OtpDoc;
  sessions : list SessionDoc;
  authlogs : list AuthLogDoc
}.

Definition with_doctors (f : list UserDoc -> list UserDoc) (d : Db) : Db :=
  mkDb (f (doctors d)) (patients d) (admins d) (otps d) (sessions d) (authlogs d).
Definition with_patients (f : list UserDoc -> list UserDoc) (d : Db) : Db :=
  mkDb (doctors d) (f (patients d)) (admins d) (otps d) (sessions d) (authlogs d).
Definition with_admins (f : list AdminDoc -> list AdminDoc) (d : Db) : Db :=
  mkDb (doctors d) (patients d) (f (admins d)) (otps d) (sessions d) (authlogs d).
Definition with_otps (f : list OtpDoc -> list OtpDoc) (d : Db) : Db :=
  mkDb (doctors d) (patients d) (admins d) (f (otps d)) (sessions d) (authlogs d).
Definition with_sessions (f : list SessionDoc -> list SessionDoc) (d : Db) : Db :=
  mkDb (doctors d) (patients d) (admins d) (otps d) (f (sessions d)) (authlogs d).
Definition with_authlogs (f : list AuthLogDoc -> list AuthLogDoc) (d : Db) : Db :=
  mkDb (doctors d) (patients d) (admins d) (otps d) (sessions d) (f (authlogs d)).

(* ------------------------------------------------------------------ *)
(** * Persistence writes and the request environment *)

(** The writes the modelled code sends to MongoDB. *)
Inductive Op :=
| OtpInsert (email purpose : string)
| OtpSave (doc : OtpDoc)
| OtpDeleteOne (id : ObjectId)
| OtpDeleteMany (email purpose : string)
| UserInsert (c : UserType) (email : string)
| UserSave (c : UserType) (id : ObjectId)
| SessionInsert (token : string)
| SessionUpdateMany (userId : ObjectId) (userType : UserType)
| SessionCleanup
| SessionDeleteOld
| AuthLogInsert (action : string).

(** The journal keeps every attempted write, in program order. *)
Inductive Event := Wrote (op : Op) | Failed (op : Op).

(** A cookie set on the response by [res.cookie]. *)
Record Cookie := mkCookie {
  c_name : string;
  c_value : string;
  c_maxAge : Z;
  c_httpOnly : bool;
  c_sameSite : string;
  c_secure : bool
}.

Record World := mkWorld {
  db : Db;
  journal : list Event;
  cookies : list Cookie
}.

(** What one request takes from outside the code: the clock, the draw
    of [Math.random] rendered as the six-digit code, the string
    [jwt.sign] returns, the verdict of the mail transport, whether
    [NODE_ENV] is production, and which writes the persistence layer
    rejects (connection loss and the like). *)
Record Env := mkEnv {
  now : Date;
  random_otp : string;
  jwt_sign : string;
  mail_ok : bool;
  production : bool;
  fails : Op -> bool
}.

(* ------------------------------------------------------------------ *)
(** * The monad of [async] functions *)

Inductive Result (A : Type) := Ok (a : A) | Throw (err : string).
Arguments Ok {A} a.
Arguments Throw {A} err.

Definition M (A : Type) := World -> Result A * World.

Definition ret {A} (a : A) : M A := fun w => (Ok a, w).

Definition bind {A B} (m : M A) (k : A -> M B) : M B :=
  fun w => match m w with
           | (Ok a, w') => k a w'
           | (Throw e, w') => (Throw e, w')
           end.

Definition throw {A} (e : string) : M A := fun w => (Throw e, w).

(** [try { m } catch (error) { h error }] *)
Definition tryCatch {A} (m : M A) (h : string -> M A) : M A :=
  fun w => match m w with
           | (Ok a, w') => (Ok a, w')
           | (Throw e, w') => h e w'
           end.

Declare Scope async_scope.
Delimit Scope async_scope with async.
Notation "x <- c ;; k" := (bind c (fun x => k))
  (at level 61, c at next level, right associativity) : async_scope.
Notation "c ;; k" := (bind c (fun _ => k))
  (at level 61, right associativity) : async_scope.
Local Open Scope async_scope.

Definition getDb : M Db := fun w => (Ok (db w), w).

Definition record_event (e : Event) (w : World) : World :=
  mkWorld (db w) (journal w ++ [e]) (cookies w).

Definition set_cookie (c : Cookie) : M unit :=
  fun w => (Ok tt, mkWorld (db w) (journal w) (cookies w ++ [c])).

Section Persistence.
Variable env : Env.

(** A write either reaches the store, or is rejected and throws. *)
Definition write (op : Op) (f : Db -> Db) : M unit :=
  fun w =>
    if fails env op
    then (Throw "MongoError", record_event (Failed op) w)
    else (Ok tt, mkWorld (f (db w)) (journal w ++ [Wrote op]) (cookies w)).

(** A write refused by schema validation or by a unique index. *)
Definition reject {A} (op : Op) (err : string) : M A :=
  fun w => (Throw err, record_event (Failed op) w).
End Persistence.

(** A fresh [_id]. *)
Definition fresh_id (ids : list ObjectId) : ObjectId := S (list_max ids).

Definition nat_to_string (n : nat) : string :=
  NilZero.string_of_uint (Nat.to_uint n).

(* ------------------------------------------------------------------ *)
(** * Strings and filter values

    A [string] is a JavaScript string of code units below U+0100. *)

Module JsString.

(** White space of [String.prototype.trim] below U+0100: tab, line
    feed, vertical tab, form feed, carriage return, space, no-break
    space. *)
Definition is_space (c : Ascii.ascii) : bool :=
  let n := Ascii.nat_of_ascii c in
  ((9 <=? n) && (n <=? 13))%nat || Nat.eqb n 32 || Nat.eqb n 160.

Fixpoint trim_start (s : string) : string :=
  match s with
  | String c tl => if is_space c then trim_start tl else s
  | EmptyString => EmptyString
  end.

(** Drops the white space at the end: a character stays when it is not
    a space or something stays after it. *)
Fixpoint trim_end (s : string) : string :=
  match s with
  | String c tl =>
      match trim_end tl with
      | EmptyString => if is_space c then EmptyString else String c EmptyString
      | rest => String c rest
      end
  | EmptyString => EmptyString
  end.

Definition trim (s : string) : string := trim_end (trim_start s).

(** [toLowerCase] on code units below U+0100: A-Z, and U+00C0 to U+00DE
    without the multiplication sign. *)
Definition lower_char (c : Ascii.ascii) : Ascii.ascii :=
  let n := Ascii.nat_of_ascii c in
  if ((65 <=? n) && (n <=? 90))%nat
     || ((192 <=? n) && (n <=? 222) && negb (Nat.eqb n 215))%nat
  then Ascii.ascii_of_nat (n + 32)
  else c.

Fixpoint toLowerCase (s : string) : string :=
  match s with
  | String c tl => String (lower_char c) (toLowerCase tl)
  | EmptyString => EmptyString
  end.

End JsString.

(** The setters a schema declares on a string path, which Mongoose
    applies to a string of a filter as it does to a stored one:
    none ([OTP.otp]), [lowercase] ([Admin.email]), or [lowercase] and
    [trim] ([OTP.email], [Doctor.email], [Patient.email]). *)
Inductive Path := Plain | Lowercase | LowercaseTrim.

Definition apply_setters (p : Path) (s : string) : string :=
  match p with
  | Plain => s
  | Lowercase => JsString.toLowerCase s
  | LowercaseTrim => JsString.trim (JsString.toLowerCase s)
  end.

(** A value of the request body that a handler puts, unvalidated, into
    a filter on a string path: a string ([Text]; a number is cast to
    its text); an object of query operators such as [{ $ne: ... }],
    [{ $gt: ... }] or [{ $regex: ... }], and likewise [null] or a
    missing key, each selecting the stored values it selects on the
    path it is used on ([Operator]); or a value the cast refuses with a
    [CastError] ([Uncastable]). *)
Inductive Sent :=
| Text (s : string)
| Operator (selects : Path -> string -> bool)
| Uncastable.

Coercion Text : string >-> Sent.

Definition castable (x : Sent) : bool :=
  match x with
  | Uncastable => false
  | _ => true
  end.

(** Does the filter value select a document whose path holds
    [stored]? *)
Definition selects (p : Path) (x : Sent) (stored : string) : bool :=
  match x with
  | Text s => String.eqb stored (apply_setters p s)
  | Operator sel => sel p stored
  | Uncastable => false
  end.

(** The value as the [email] of an [AuthLog] entry: a string as it
    is; anything else fails the cast of the entry, as the empty string
    fails [required]. *)
Definition audit_email (x : Sent) : string :=
  match x with
  | Text s => s
  | _ => ""
  end.

(* ------------------------------------------------------------------ *)
(** * models/OTP.js *)

Module OTP.

Record Verification := mkVerification {
  success : bool;
  message : string;
  otpDoc : option OtpDoc
}.

Definition msg_not_found : string :=
  "OTP not found or already verified. Please request a new OTP.".
Definition msg_expired : string :=
  "OTP has expired. Please request a new OTP.".
Definition msg_exhausted : string :=
  "Maximum verification attempts exceeded. Please request a new OTP.".
Definition msg_invalid (attemptsLeft : nat) : string :=
  String.append "Invalid OTP. "
    (String.append (nat_to_string attemptsLeft) " attempt(s) remaining.").
Definition msg_verified : string := "OTP verified successfully".

Definition role_enum : list string := ["doctor"; "patient"].
Definition purpose_enum : list string :=
  ["registration"; "login"; "password-reset"].

Definition in_enum (x : string) (l : list string) : bool :=
  existsb (String.eqb x) l.

Definition set_attempts (n : nat) (o : OtpDoc) : OtpDoc :=
  mkOtp (o_id o) (o_email o) (o_otp o) (o_role o) (o_purpose o)
        (o_verified o) n (o_expiresAt o) (o_createdAt o).
Definition set_verified (b : bool) (o : OtpDoc) : OtpDoc :=
  mkOtp (o_id o) (o_email o) (o_otp o) (o_role o) (o_purpose o)
        b (o_attempts o) (o_expiresAt o) (o_createdAt o).

(** Replace the stored document that has the id of [o]. *)
Definition replace_doc (o : OtpDoc) (l : list OtpDoc) : list OtpDoc :=
  map (fun x => if Nat.eqb (o_id x) (o_id o) then o else x) l.

Definition remove_id (id : ObjectId) (l : list OtpDoc) : list OtpDoc :=
  filter (fun x => negb (Nat.eqb (o_id x) id)) l.

(** [sort({ createdAt: -1 })] then take the head: the newest document,
    the earliest stored among equally new ones. *)
Fixpoint newest (l : list OtpDoc) : option OtpDoc :=
  match l with
  | [] => None
  | x :: tl =>
      match newest tl with
      | Some y => if (o_createdAt x <? o_createdAt y)%Z then Some y else Some x
      | None => Some x
      end
  end.

(** The filter [{ email, purpose, verified: false }]. *)
Definition unverified_for (email purpose : string) (o : OtpDoc) : bool :=
  String.eqb (o_email o) email && String.eqb (o_purpose o) purpose
  && negb (o_verified o).

(** The filter [{ email, purpose }]. *)
Definition any_for (email purpose : string) (o : OtpDoc) : bool :=
  String.eqb (o_email o) email && String.eqb (o_purpose o) purpose.

Section WithEnv.
Variable env : Env.

(** [Date.now() > this.expiresAt.getTime()] *)
Definition isExpired (o : OtpDoc) : bool := (o_expiresAt o <? now env)%Z.

(** [this.attempts < 3] *)
Definition canAttempt (o : OtpDoc) : bool := (o_attempts o <? 3)%nat.

(** [doc.save()], with the schema validator [attempts: { max: 3 }]. *)
Definition save (o : OtpDoc) : M unit :=
  if (3 <? o_attempts o)%nat
  then reject (OtpSave o) "ValidationError"
  else write env (OtpSave o) (with_otps (replace_doc o)).

Definition incrementAttempts (o : OtpDoc) : M OtpDoc :=
  let o' := set_attempts (o_attempts o + 1) o in
  save o' ;; ret o'.

Definition markAsVerified (o : OtpDoc) : M OtpDoc :=
  let o' := set_verified true o in
  save o' ;; ret o'.

(** [otpDoc.deleteOne()] and [OTP.deleteOne({ _id })] *)
Definition deleteOne (id : ObjectId) : M unit :=
  write env (OtpDeleteOne id) (with_otps (remove_id id)).

(** [OTP.deleteMany(filter)] *)
Definition deleteMany (email purpose : string)
           (matches : OtpDoc -> bool) : M unit :=
  write env (OtpDeleteMany email purpose)
        (with_otps (filter (fun o => negb (matches o)))).

(** [OTP.create({ email, role, otp, purpose, expiresAt })]: the
    enums of [role] and [purpose] are validated before the insert. *)
Definition create (email role otp purpose : string) (expiresAt : Date)
  : M OtpDoc :=
  if in_enum role role_enum && in_enum purpose purpose_enum
  then
    d <- getDb ;;
    let doc := mkOtp (fresh_id (map o_id (otps d))) email otp role purpose
                     false 0 expiresAt (now env) in
    write env (OtpInsert email purpose) (with_otps (fun l => l ++ [doc])) ;;
    ret doc
  else reject (OtpInsert email purpose) "ValidationError".

(** [Math.floor(100000 + Math.random() * 900000).toString()] *)
Definition generateOTP : string := random_otp env.

Definition createOTP (email role purpose : string) : M (string * OtpDoc) :=
  deleteMany email purpose (unverified_for email purpose) ;;
  let otp := generateOTP in
  doc <- create email role otp purpose (now env + 10 * 60 * 1000)%Z ;;
  ret (otp, doc).

Definition findOne_unverified (email purpose : string) (d : Db)
  : option OtpDoc :=
  newest (filter (unverified_for email purpose) (otps d)).

Definition verifyOTP (email otp purpose : string) : M Verification :=
  d <- getDb ;;
  match findOne_unverified email purpose d with
  | None => ret (mkVerification false msg_not_found None)
  | Some otpDoc =>
      if isExpired otpDoc then
        deleteOne (o_id otpDoc) ;;
        ret (mkVerification false msg_expired None)
      else if negb (canAttempt otpDoc) then
        deleteOne (o_id otpDoc) ;;
        ret (mkVerification false msg_exhausted None)
      else if negb (String.eqb (o_otp otpDoc) otp) then
        otpDoc' <- incrementAttempts otpDoc ;;
        let attemptsLeft := 3 - o_attempts otpDoc' in
        ret (mkVerification false (msg_invalid attemptsLeft) None)
      else
        otpDoc' <- markAsVerified otpDoc ;;
        ret (mkVerification true msg_verified (Some otpDoc'))
  end.
End WithEnv.

End OTP.

(* ------------------------------------------------------------------ *)
(** * models/Session.js *)

Module Session.

Definition revoked_by_enforcement : string :=
  "New device login - single device enforcement".

Record SessionData := mkSessionData {
  sd_userId : ObjectId;
  sd_userType : UserType;
  sd_token : string;
  sd_deviceInfo : DeviceInfo;
  sd_ipAddress : string;
  sd_lastActivity : Date;
  sd_expiresAt : Date
}.

Record Enforcement := mkEnforcement {
  revokedCount : nat;
  previousDeviceLoggedOut : bool
}.

Definition deactivate (reason : option string) (t : Date) (s : SessionDoc)
  : SessionDoc :=
  mkSession (s_id s) (s_userId s) (s_userType s) (s_token s)
            (s_deviceInfo s) (s_ipAddress s) (s_lastActivity s)
            (s_expiresAt s) false reason (s_createdAt s) t.

(** The filter [{ userId, userType, isActive: true }]. *)
Definition active_of (userId : ObjectId) (userType : UserType)
           (s : SessionDoc) : bool :=
  Nat.eqb (s_userId s) userId && UserType_eqb (s_userType s) userType
  && s_isActive s.

Section WithEnv.
Variable env : Env.

(** The filter
    [{ userId, userType, isActive: true, expiresAt: { $gt: new Date() } }]. *)
Definition live_of (userId : ObjectId) (userType : UserType)
           (s : SessionDoc) : bool :=
  active_of userId userType s && (now env <? s_expiresAt s)%Z.

(** The filter [{ token, isActive: true, expiresAt: { $gt: new Date() } }]. *)
Definition authenticates (token : string) (s : SessionDoc) : bool :=
  String.eqb (s_token s) token && s_isActive s
  && (now env <? s_expiresAt s)%Z.

(** [new this(sessionData).save()]: [ipAddress] is a required
    string, which an empty one does not satisfy, and [token] carries
    a unique index.  The [catch] block of the source logs and
    rethrows. *)
Definition createSession (sd : SessionData) : M SessionDoc :=
  d <- getDb ;;
  if String.eqb (sd_ipAddress sd) ""
  then reject (SessionInsert (sd_token sd)) "ValidationError"
  else if existsb (fun s => String.eqb (s_token s) (sd_token sd)) (sessions d)
  then reject (SessionInsert (sd_token sd)) "E11000 duplicate key"
  else
    let doc := mkSession (fresh_id (map s_id (sessions d)))
                         (sd_userId sd) (sd_userType sd) (sd_token sd)
                         (sd_deviceInfo sd) (sd_ipAddress sd)
                         (sd_lastActivity sd) (sd_expiresAt sd)
                         true None (now env) (now env) in
    write env (SessionInsert (sd_token sd))
          (with_sessions (fun l => l ++ [doc])) ;;
    ret doc.

(** [find(...)] of [getUserSessions], before the sort on
    [lastActivity]; also the documents [countDocuments] counts in
    [enforceSingleDevice]. *)
Definition liveSessions (userId : ObjectId) (userType : UserType) (d : Db)
  : list SessionDoc :=
  filter (live_of userId userType) (sessions d).

Definition findByToken (token : string) : M (option SessionDoc) :=
  d <- getDb ;;
  ret (find (authenticates token) (sessions d)).

Definition enforceSingleDevice (userId : ObjectId) (userType : UserType)
  : M Enforcement :=
  d <- getDb ;;
  let activeSessionsCount := length (liveSessions userId userType d) in
  let modifiedCount :=
    length (filter (active_of userId userType) (sessions d)) in
  write env (SessionUpdateMany userId userType)
        (with_sessions
           (map (fun s => if active_of userId userType s
                          then deactivate (Some revoked_by_enforcement)
                                          (now env) s
                          else s))) ;;
  ret (mkEnforcement modifiedCount (0 <? activeSessionsCount)%nat).

(** The filter [{ expiresAt: { $lt: new Date() }, isActive: true }]. *)
Definition expired_active (s : SessionDoc) : bool :=
  (s_expiresAt s <? now env)%Z && s_isActive s.

(** [updateMany(filter, { isActive: false })] leaves [revokedReason]
    as it is; the result is [modifiedCount]. *)
Definition cleanupExpired : M nat :=
  d <- getDb ;;
  let modifiedCount := length (filter expired_active (sessions d)) in
  write env SessionCleanup
        (with_sessions
           (map (fun s => if expired_active s
                          then deactivate (s_revokedReason s) (now env) s
                          else s))) ;;
  ret modifiedCount.

(** [cutoffDate.setDate(cutoffDate.getDate() - daysOld)], days of
    24 hours. *)
Definition cutoffDate (daysOld : Z) : Date :=
  (now env - daysOld * (24 * 60 * 60 * 1000))%Z.

(** The filter [{ isActive: false, updatedAt: { $lt: cutoffDate } }]. *)
Definition old_inactive (daysOld : Z) (s : SessionDoc) : bool :=
  negb (s_isActive s) && (s_updatedAt s <? cutoffDate daysOld)%Z.

Definition deleteOldSessions (daysOld : Z) : M nat :=
  d <- getDb ;;
  let deletedCount := length (filter (old_inactive daysOld) (sessions d)) in
  write env SessionDeleteOld
        (with_sessions (filter (fun s => negb (old_inactive daysOld s)))) ;;
  ret deletedCount.
End WithEnv.

End Session.

(* ------------------------------------------------------------------ *)
(** * models/AuthLog.js *)

Module AuthLog.

Definition action_enum : list string :=
  ["login"; "logout"; "register"; "failed_login"; "otp_verification";
   "failed_otp"; "otp_resend"; "password_reset_request";
   "password_reset_success"; "password_reset_failed"; "password_change";
   "admin_login"; "failed_admin_login"].

Section WithEnv.
Variable env : Env.

(** [new this(eventData).save()] inside a [try] whose [catch]
    returns [null]: [action] must be in the enum and [email] is
    required. *)
Definition logEvent (e : AuthLogDoc) : M (option AuthLogDoc) :=
  tryCatch
    (if OTP.in_enum (l_action e) action_enum
        && negb (String.eqb (l_email e) "")
     then write env (AuthLogInsert (l_action e))
                (with_authlogs (fun l => l ++ [e])) ;;
          ret (Some e)
     else reject (AuthLogInsert (l_action e)) "ValidationError")
    (fun _ => ret None).
End WithEnv.

End AuthLog.

(* ------------------------------------------------------------------ *)
(** * lib/utils.js *)

(** The parts of an Express request the modelled code reads:
    [getClientIp(req)], [parseUserAgent(getUserAgent(req))] and the
    [user-agent] header. *)
Record Request := mkRequest {
  clientIp : string;
  userAgentInfo : DeviceInfo
}.

Module Utils.

Definition seven_days : Z := 7 * 24 * 60 * 60 * 1000.

(** [let userType = 'Patient'; if (role === 'doctor') ...] *)
Definition userTypeOfRole (role : string) : UserType :=
  if String.eqb role "doctor" then Doctor
  else if String.eqb role "super_admin" || String.eqb role "user_management"
       then Admin
       else Patient.

Section WithEnv.
Variable env : Env.

(** [generateToken], given what [jwt.sign] does: it returns the token
    or throws, as it does when no secret is configured, and then the
    outer [catch] rethrows.  [req = null] is [None].
    [expiresAt.setDate(getDate() + 7)] adds seven days of 24 hours. *)
Definition generateToken_signed (signed : Result string) (userId : ObjectId)
           (role : string) (req : option Request) : M string :=
  tryCatch
    (token <- (fun w => (signed, w)) ;;
     set_cookie (mkCookie "token" token seven_days true "strict"
                          (production env)) ;;
     match req with
     | Some r =>
         tryCatch
           (let ipAddress := clientIp r in
            let deviceInfo := userAgentInfo r in
            let userType := userTypeOfRole role in
            _ <- Session.enforceSingleDevice env userId userType ;;
            let expiresAt := (now env + seven_days)%Z in
            _ <- Session.createSession env
                   (Session.mkSessionData userId userType token deviceInfo
                                          ipAddress (now env) expiresAt) ;;
            ret tt)
           (fun _ => ret tt)
     | None => ret tt
     end ;;
     ret token)
    (fun _ => throw "Failed to generate authentication token").

(** [generateToken] with a [jwt.sign] that returns, [jwt_sign env]
    being the token it returns. *)
Definition generateToken (userId : ObjectId) (role : string)
           (req : option Request) : M string :=
  generateToken_signed (Ok (jwt_sign env)) userId role req.

(** [logAuthEvent]: builds the entry and hands it to
    [AuthLog.logEvent]; never throws. *)
Definition logAuthEvent (action email : string) (success : bool)
           (userId : option ObjectId) (userType : option UserType)
           (failureReason : option string) : M (option AuthLogDoc) :=
  tryCatch
    (AuthLog.logEvent env
       (mkAuthLog userId userType email action success failureReason))
    (fun _ => ret None).
End WithEnv.

End Utils.

(* ------------------------------------------------------------------ *)
(** * controllers/authController.js *)

(** [res.status(n).json(body)]: the status, the [success] and [message]
    keys of the body, and in [fields] the further keys the statements
    below look at.  The profile ([data]), [sessionInfo] and [loginInfo]
    objects and the keys sent only in development are left out. *)
Record Response := mkResponse {
  status : nat;
  success : bool;
  message : string;
  fields : list (string * string)
}.

(** A document loaded through [getUserModel(role)]. *)
Inductive Account :=
| DoctorAcc (u : UserDoc)
| PatientAcc (u : UserDoc)
| AdminAcc (a : AdminDoc).

(** What [register] finds in the body besides [name], [email],
    [password] and [role], and spreads into the new document:
    [validateRegister] strips nothing.  Mongoose drops the keys that
    are no path of the schema; of the others the record holds the cast
    values of the paths that [UserDoc] has ([None]: key not sent; a
    count is a natural number here), and [ad_valid] tells whether every
    key sent, and every required path of the role's schema, passes
    casting and validation. *)
Record Additional := mkAdditional {
  ad_id : option ObjectId;
  ad_isEmailVerified : option bool;
  ad_emailVerifiedAt : option Date;
  ad_passwordResetToken : option string;
  ad_passwordResetExpires : option Date;
  ad_passwordChangedAt : option Date;
  ad_passwordResetCount : option nat;
  ad_passwordResetUsedAt : option Date;
  ad_isActive : option bool;
  ad_lastLogin : option Date;
  ad_lastLogout : option Date;
  ad_valid : bool
}.

Module AuthController.

Definition getUserModel (role : string) : UserType :=
  if String.eqb role "doctor" then Doctor
  else if String.eqb role "patient" then Patient
  else Admin.

Definition getUserType (role : string) : UserType := getUserModel role.

(** [role === 'doctor' ? Doctor : Patient], in [register], [login],
    [verifyOTP] and [resendOTP]. *)
Definition doctorOrPatient (role : string) : UserType :=
  if String.eqb role "doctor" then Doctor else Patient.

Definition has_email (email : string) (u : UserDoc) : bool :=
  String.eqb (u_email u) email.

Definition collection (c : UserType) (d : Db) : list UserDoc :=
  match c with
  | Doctor => doctors d
  | Patient => patients d
  | Admin => []
  end.

(** [UserModel.findOne({ email })] *)
Definition findOne (c : UserType) (email : string) (d : Db) : option Account :=
  match c with
  | Doctor => option_map DoctorAcc (find (has_email email) (doctors d))
  | Patient => option_map PatientAcc (find (has_email email) (patients d))
  | Admin => option_map AdminAcc
               (find (fun a => String.eqb (a_email a) email) (admins d))
  end.

Definition acc_id (x : Account) : ObjectId :=
  match x with DoctorAcc u | PatientAcc u => u_id u | AdminAcc a => a_id a end.
Definition acc_email (x : Account) : string :=
  match x with DoctorAcc u | PatientAcc u => u_email u | AdminAcc a => a_email a end.
Definition acc_model (x : Account) : UserType :=
  match x with DoctorAcc _ => Doctor | PatientAcc _ => Patient | AdminAcc _ => Admin end.

(** [user.passwordResetCount]: [undefined] on a document whose schema
    has no such path. *)
Definition acc_passwordResetCount (x : Account) : option nat :=
  match x with
  | DoctorAcc u | PatientAcc u => Some (u_passwordResetCount u)
  | AdminAcc _ => None
  end.

(** [user.passwordResetCount && user.passwordResetCount >= 1] *)
Definition resetLimitReached (x : Account) : bool :=
  match acc_passwordResetCount x with
  | Some n => negb (Nat.eqb n 0) && (1 <=? n)%nat
  | None => false
  end.

Definition replace_user (u : UserDoc) (l : list UserDoc) : list UserDoc :=
  map (fun x => if Nat.eqb (u_id x) (u_id u) then u else x) l.
Definition replace_admin (a : AdminDoc) (l : list AdminDoc) : list AdminDoc :=
  map (fun x => if Nat.eqb (a_id x) (a_id a) then a else x) l.

Definition msg_duplicate : string := "User already exists with this email".
Definition msg_generic_reset : string :=
  "If an account exists with this email, a password reset OTP has been sent.".
Definition msg_reset_sent : string :=
  "Password reset OTP sent to your email. Please check your inbox.".
Definition msg_reset_limit : string :=
  "Your 1 attempt for password reset has been completed. You cannot reset your password again. Please contact support if you need assistance.".
Definition msg_bad_reset_otp : string :=
  "Invalid, expired, or already used OTP. Please request a new password reset.".
Definition msg_reset_done : string :=
  "Password reset successful! You can now login with your new password.".

(** [if (user.passwordResetToken)]: set and not the empty string. *)
Definition has_reset_token (u : UserDoc) : bool :=
  match u_passwordResetToken u with
  | Some t => negb (String.eqb t "")
  | None => false
  end.

(** The assignments of [resetPassword] on a Doctor or Patient document. *)
Definition apply_reset (rounds : nat) (password : string) (t : Date)
           (u : UserDoc) : UserDoc :=
  mkUser (u_id u) (u_name u) (u_email u) (Bcrypt rounds password)
         (u_isEmailVerified u) (u_emailVerifiedAt u)
         (if has_reset_token u then None else u_passwordResetToken u)
         (if has_reset_token u then None else u_passwordResetExpires u)
         (Some t) (u_passwordResetCount u + 1) (Some t)
         (u_isActive u) (u_lastLogin u) (u_lastLogout u).

(** The same assignments on an Admin document: [save()] persists the
    paths of [adminSchema] only, which is [password] here. *)
Definition apply_reset_admin (password : string) (a : AdminDoc) : AdminDoc :=
  mkAdmin (a_id a) (a_name a) (a_email a) (Bcrypt 12 password) (a_role a)
          (a_isActive a) (a_lastlogin a) (a_lastLogout a).

Definition reset_account (password : string) (t : Date) (x : Account)
  : Account :=
  match x with
  | DoctorAcc u => DoctorAcc (apply_reset 14 password t u)
  | PatientAcc u => PatientAcc (apply_reset 12 password t u)
  | AdminAcc a => AdminAcc (apply_reset_admin password a)
  end.

Definition set_emailVerified (t : Date) (u : UserDoc) : UserDoc :=
  mkUser (u_id u) (u_name u) (u_email u) (u_password u) true (Some t)
         (u_passwordResetToken u) (u_passwordResetExpires u)
         (u_passwordChangedAt u) (u_passwordResetCount u)
         (u_passwordResetUsedAt u) (u_isActive u) (u_lastLogin u)
         (u_lastLogout u).

Definition set_lastLogin (t : Date) (u : UserDoc) : UserDoc :=
  mkUser (u_id u) (u_name u) (u_email u) (u_password u)
         (u_isEmailVerified u) (u_emailVerifiedAt u)
         (u_passwordResetToken u) (u_passwordResetExpires u)
         (u_passwordChangedAt u) (u_passwordResetCount u)
         (u_passwordResetUsedAt u) (u_isActive u) (Some t)
         (u_lastLogout u).

Section WithEnv.
Variable env : Env.

(** [user.save()] on an existing document. *)
Definition save (x : Account) : M unit :=
  match x with
  | DoctorAcc u => write env (UserSave Doctor (u_id u))
                         (with_doctors (replace_user u))
  | PatientAcc u => write env (UserSave Patient (u_id u))
                          (with_patients (replace_user u))
  | AdminAcc a => write env (UserSave Admin (a_id a))
                        (with_admins (replace_admin a))
  end.

Definition saveUser (c : UserType) (u : UserDoc) : M unit :=
  match c with
  | Doctor => save (DoctorAcc u)
  | _ => save (PatientAcc u)
  end.

(** [new UserModel({ name, email, password, isEmailVerified: false,
    ...additionalData }).save()]: the keys spread last win.  Validation
    comes first, then the unique indexes on [_id] and [email]; the hook
    hashes with 14 rounds for doctors and 12 for patients. *)
Definition insertUser (c : UserType) (name email password : string)
           (additionalData : Additional) : M UserDoc :=
  d <- getDb ;;
  if negb (ad_valid additionalData)
  then reject (UserInsert c email) "ValidationError"
  else if existsb (has_email email) (collection c d)
  then reject (UserInsert c email) "E11000 duplicate key"
  else if match ad_id additionalData with
          | Some i => existsb (fun u => Nat.eqb (u_id u) i) (collection c d)
          | None => false
          end
  then reject (UserInsert c email) "E11000 duplicate key"
  else
    let rounds := match c with Doctor => 14 | _ => 12 end in
    let u := mkUser (match ad_id additionalData with
                     | Some i => i
                     | None => fresh_id (map u_id (collection c d))
                     end)
                    name email (Bcrypt rounds password)
                    (match ad_isEmailVerified additionalData with
                     | Some b => b
                     | None => false
                     end)
                    (ad_emailVerifiedAt additionalData)
                    (ad_passwordResetToken additionalData)
                    (ad_passwordResetExpires additionalData)
                    (ad_passwordChangedAt additionalData)
                    (match ad_passwordResetCount additionalData with
                     | Some n => n
                     | None => 0
                     end)
                    (ad_passwordResetUsedAt additionalData)
                    (match ad_isActive additionalData with
                     | Some b => b
                     | None => true
                     end)
                    (ad_lastLogin additionalData)
                    (ad_lastLogout additionalData) in
    write env (UserInsert c email)
          (match c with
           | Doctor => with_doctors (fun l => l ++ [u])
           | _ => with_patients (fun l => l ++ [u])
           end) ;;
    ret u.

(** [register]: [additionalData] is the rest of the body.
    [sendOTPEmail] reports its outcome in [success] and never throws;
    [mail_ok] is that outcome. *)
Definition register (name email password role : string)
           (additionalData : Additional) : M Response :=
  tryCatch
    (d <- getDb ;;
     let existingDoctor := find (has_email email) (doctors d) in
     let existingPatient := find (has_email email) (patients d) in
     match existingDoctor, existingPatient with
     | None, None =>
         let UserModel := doctorOrPatient role in
         user <- insertUser UserModel name email password additionalData ;;
         _ <- OTP.createOTP env email role "registration" ;;
         if negb (mail_ok env) then
           ret (mkResponse 201 true
                  "Registration successful. Email service temporarily unavailable. Please contact support for OTP."
                  [("email", email); ("role", role);
                   ("requiresVerification", "true")])
         else
           Utils.logAuthEvent env "register" email true (Some (u_id user))
                              (Some UserModel) None ;;
           ret (mkResponse 201 true
                  "Registration successful! Please check your email for the OTP to verify your account."
                  [("email", email); ("role", role);
                   ("requiresVerification", "true")])
     | _, _ =>
         Utils.logAuthEvent env "register" email false None None
                            (Some "Email already registered") ;;
         ret (mkResponse 400 false msg_duplicate [])
     end)
    (fun _ => ret (mkResponse 500 false "Error in registration process" [])).

(** [verifyOTP].  The welcome mail is sent inside its own
    [try]/[catch] and touches nothing modelled here.  The server is
    taken to have its signing secret, so that [jwt.sign] returns and
    [generateToken] with it. *)
Definition verifyOTP (req : Request) (email otp role purpose : string)
  : M Response :=
  tryCatch
    (verification <- OTP.verifyOTP env email otp purpose ;;
     if negb (OTP.success verification) then
       Utils.logAuthEvent env "failed_otp" email false None None
                          (Some (OTP.message verification)) ;;
       ret (mkResponse 400 false (OTP.message verification) [])
     else
       d <- getDb ;;
       let UserModel := doctorOrPatient role in
       match find (has_email email) (collection UserModel d) with
       | None => ret (mkResponse 404 false "User not found" [])
       | Some user =>
           if String.eqb purpose "registration" then
             saveUser UserModel (set_emailVerified (now env) user) ;;
             Utils.logAuthEvent env "otp_verification" email true
                                (Some (u_id user)) (Some UserModel) None ;;
             ret (mkResponse 200 true
                    "Email verified successfully! You can now login." [])
           else if String.eqb purpose "login" then
             saveUser UserModel (set_lastLogin (now env) user) ;;
             _ <- Utils.generateToken env (u_id user) role (Some req) ;;
             Utils.logAuthEvent env "otp_verification" email true
                                (Some (u_id user)) (Some UserModel) None ;;
             ret (mkResponse 200 true "Login successful" [])
           else
             ret (mkResponse 400 false "Invalid OTP purpose" [])
       end)
    (fun _ => ret (mkResponse 500 false "Error verifying OTP" [])).

(** The result of [sendOTPEmail] is not read here, and it never
    throws, so the inner [catch] is reached only through
    [logAuthEvent]. *)
Definition forgotPassword (email role : string) : M Response :=
  tryCatch
    (d <- getDb ;;
     let UserModel := getUserModel role in
     match findOne UserModel email d with
     | None =>
         Utils.logAuthEvent env "password_reset_request" email false
                            None None (Some "User not found") ;;
         ret (mkResponse 400 false msg_generic_reset [])
     | Some user =>
         if resetLimitReached user then
           Utils.logAuthEvent env "password_reset_request" email false
             (Some (acc_id user)) (Some (getUserType role))
             (Some "Password reset limit exceeded (lifetime limit: 1)") ;;
           ret (mkResponse 403 false msg_reset_limit
                  [("resetLimitReached", "true")])
         else
           let otp := random_otp env in
           OTP.deleteMany env email "password-reset"
                          (OTP.any_for email "password-reset") ;;
           otpDoc <- OTP.create env email role otp "password-reset"
                                (now env + 10 * 60 * 1000)%Z ;;
           tryCatch
             (Utils.logAuthEvent env "password_reset_otp_sent" email true
                (Some (acc_id user)) (Some (getUserType role)) None ;;
              ret (mkResponse 200 true msg_reset_sent
                     [("email", acc_email user)]))
             (fun _ =>
                OTP.deleteOne env (o_id otpDoc) ;;
                throw "Failed to send OTP email. Please try again later.")
     end)
    (fun e =>
       ret (mkResponse 500 false
              (if String.eqb e ""
               then "Error processing password reset request" else e)
              [])).

(** The filter
    [{ email, otp, purpose: 'password-reset', verified: false }], with
    [email] and [otp] as the body has them. *)
Definition reset_otp_matches (email otp : Sent) (o : OtpDoc) : bool :=
  selects LowercaseTrim email (o_email o) && selects Plain otp (o_otp o)
  && String.eqb (o_purpose o) "password-reset" && negb (o_verified o).

(** [UserModel.findOne({ email })] with the address as the body has
    it. *)
Definition findOneSent (c : UserType) (email : Sent) (d : Db)
  : option Account :=
  match c with
  | Doctor =>
      option_map DoctorAcc
        (find (fun u => selects LowercaseTrim email (u_email u)) (doctors d))
  | Patient =>
      option_map PatientAcc
        (find (fun u => selects LowercaseTrim email (u_email u)) (patients d))
  | Admin =>
      option_map AdminAcc
        (find (fun a => selects Lowercase email (a_email a)) (admins d))
  end.

(** [resetPassword]: [validateResetPassword] checks [password],
    [confirmPassword] and [role] only, so [email] and [otp] reach the
    filters as sent; a value that cannot be cast makes [OTP.findOne]
    throw.  [sendPasswordChangedEmail] may throw; it is called inside
    its own [try]/[catch] and touches nothing modelled here. *)
Definition resetPassword (email otp : Sent)
           (password confirmPassword role : string) : M Response :=
  tryCatch
    (if negb (String.eqb password confirmPassword) then
       ret (mkResponse 400 false "Passwords do not match" [])
     else if negb (castable email && castable otp) then
       throw "CastError"
     else
       d <- getDb ;;
       match find (reset_otp_matches email otp) (otps d) with
       | None =>
           Utils.logAuthEvent env "password_reset_failed" (audit_email email)
             false None None (Some "Invalid or already used OTP") ;;
           ret (mkResponse 400 false msg_bad_reset_otp [])
       | Some otpDoc =>
           if (o_expiresAt otpDoc <? now env)%Z then
             OTP.deleteOne env (o_id otpDoc) ;;
             Utils.logAuthEvent env "password_reset_failed"
               (audit_email email) false None None (Some "OTP expired") ;;
             ret (mkResponse 400 false
                    "OTP has expired. Please request a new password reset."
                    [])
           else
             match findOneSent (getUserModel role) email d with
             | None =>
                 OTP.deleteOne env (o_id otpDoc) ;;
                 ret (mkResponse 400 false "User not found" [])
             | Some user =>
                 _ <- OTP.markAsVerified env otpDoc ;;
                 let user' := reset_account password (now env) user in
                 save user' ;;
                 OTP.deleteOne env (o_id otpDoc) ;;
                 Utils.logAuthEvent env "password_reset_success"
                   (acc_email user') true (Some (acc_id user'))
                   (Some (getUserType role)) None ;;
                 ret (mkResponse 200 true msg_reset_done [])
             end
       end)
    (fun _ => ret (mkResponse 500 false "Error resetting password" [])).
End WithEnv.

End AuthController.

Unset Implicit Arguments.

(* ------------------------------------------------------------------ *)
(** * Vocabulary of the statements *)

(** The unique index on [Session.token]. *)
Definition unique_tokens (l : list SessionDoc) : Prop := NoDup (map s_token l).

Definition token_free (token : string) (l : list SessionDoc) : bool :=
  negb (existsb (fun s => String.eqb (s_token s) token) l).

(** The update of [enforceSingleDevice]. *)
Definition enforce (env : Env) (userId : ObjectId) (userType : UserType)
           (s : SessionDoc) : SessionDoc :=
  if Session.active_of userId userType s
  then Session.deactivate (Some Session.revoked_by_enforcement) (now env) s
  else s.

(** The session [createSession] stores for [generateToken]. *)
Definition issued_session (env : Env) (w : World) (userId : ObjectId)
           (role : string) (r : Request) : SessionDoc :=
  mkSession (fresh_id (map s_id (sessions (db w))))
            userId (Utils.userTypeOfRole role) (jwt_sign env)
            (userAgentInfo r) (clientIp r) (now env)
            (now env + Utils.seven_days)%Z true None (now env) (now env).

Definition token_cookie (env : Env) : Cookie :=
  mkCookie "token" (jwt_sign env) Utils.seven_days true "strict"
           (production env).

(** The writes a run adds to the journal. *)
Definition new_events (w w' : World) : list Event :=
  skipn (length (journal w)) (journal w').

(** An attempt to write an account document. *)
Definition attempts_user_save (e : Event) : bool :=
  match e with
  | Wrote (UserSave _ _) | Failed (UserSave _ _) => true
  | _ => false
  end.

(** An attempt to write an audit entry. *)
Definition is_audit_write (e : Event) : bool :=
  match e with
  | Wrote (AuthLogInsert _) | Failed (AuthLogInsert _) => true
  | _ => false
  end.

(** What [logAuthEvent] leaves in the journal for entry [e]. *)
Definition log_event (env : Env) (e : AuthLogDoc) : Event :=
  if OTP.in_enum (l_action e) AuthLog.action_enum
     && negb (String.eqb (l_email e) "")
  then if fails env (AuthLogInsert (l_action e))
       then Failed (AuthLogInsert (l_action e))
       else Wrote (AuthLogInsert (l_action e))
  else Failed (AuthLogInsert (l_action e)).

(** The world after [logAuthEvent] was called for entry [e]. *)
Definition logged (env : Env) (e : AuthLogDoc) (w : World) : World :=
  mkWorld (match log_event env e with
           | Wrote _ => with_authlogs (fun l => l ++ [e]) (db w)
           | Failed _ => db w
           end)
          (journal w ++ [log_event env e]) (cookies w).

(** The effect of [user.save()] on the database. *)
Definition save_db (x : Account) : Db -> Db :=
  match x with
  | DoctorAcc u => with_doctors (AuthController.replace_user u)
  | PatientAcc u => with_patients (AuthController.replace_user u)
  | AdminAcc a => with_admins (AuthController.replace_admin a)
  end.

(** Everything but the audit log. *)
Definition same_trust_state (w w' : World) : Prop :=
  doctors (db w') = doctors (db w)
  /\ patients (db w') = patients (db w)
  /\ admins (db w') = admins (db w)
  /\ otps (db w') = otps (db w)
  /\ sessions (db w') = sessions (db w)
  /\ cookies w' = cookies w.

(** The document [register] inserts into collection [c] of [d]: the
    keys of [additionalData] override the defaults of the schema and
    [isEmailVerified: false]. *)
Definition inserted_user (c : UserType) (name email password : string)
           (additionalData : Additional) (d : Db) : UserDoc :=
  mkUser (match ad_id additionalData with
          | Some i => i
          | None => fresh_id (map u_id (AuthController.collection c d))
          end)
         name email
         (Bcrypt (match c with Doctor => 14 | _ => 12 end) password)
         (match ad_isEmailVerified additionalData with
          | Some b => b
          | None => false
          end)
         (ad_emailVerifiedAt additionalData)
         (ad_passwordResetToken additionalData)
         (ad_passwordResetExpires additionalData)
         (ad_passwordChangedAt additionalData)
         (match ad_passwordResetCount additionalData with
          | Some n => n
          | None => 0
          end)
         (ad_passwordResetUsedAt additionalData)
         (match ad_isActive additionalData with
          | Some b => b
          | None => true
          end)
         (ad_lastLogin additionalData)
         (ad_lastLogout additionalData).

(** The body value [{ "$ne": v }]: selects the documents whose field
    differs from [v] as the path casts it. *)
Definition not_equal (v : string) : Sent :=
  Operator (fun p stored => negb (String.eqb stored (apply_setters p v))).

(** A series of [POST /reset-password] requests for one address, each
    with its own environment and submitted code; the statuses of the
    responses are collected. *)
Fixpoint resetPassword_series (email password role : string)
         (tries : list (Env * string)) (w : World) : list nat * World :=
  match tries with
  | [] => ([], w)
  | (env, otp) :: tl =>
      match AuthController.resetPassword env email otp password password role w with
      | (Ok resp, w1) =>
          let (sts, w2) := resetPassword_series email password role tl w1 in
          (status resp :: sts, w2)
      | (Throw _, w1) =>
          let (sts, w2) := resetPassword_series email password role tl w1 in
          (0 :: sts, w2)
      end
  end.

(* ------------------------------------------------------------------ *)
(** * Sample data *)

Definition no_faults : Op -> bool := fun _ => false.

(** A request served at [t] with code draw ["482913"] and a working
    persistence layer. *)
Definition env_at (t : Date) (token : string) : Env :=
  mkEnv t "482913" token true false no_faults.

(** The persistence layer refuses the insert into the sessions
    collection and accepts every other write. *)
Definition session_insert_down : Op -> bool :=
  fun op => match op with SessionInsert _ => true | _ => false end.

(** The persistence layer refuses writes to account documents. *)
Definition user_save_down : Op -> bool :=
  fun op => match op with UserSave _ _ => true | _ => false end.

Definition empty_db : Db := mkDb [] [] [] [] [] [].

(** A registration body with nothing besides [name], [email],
    [password] and [role] that is a path of the schema, apart from the
    profile the role requires. *)
Definition no_additional : Additional :=
  mkAdditional None None None None None None None None None None None true.

(** A body that carries [isEmailVerified: true] besides the four
    fields of the form. *)
Definition verified_in_body : Additional :=
  mkAdditional None (Some true) None None None None None None None None None
               true.

Definition world_of (d : Db) : World := mkWorld d [] [].

Definition chrome_on_linux : Request :=
  mkRequest "203.0.113.7" (mkDevice "Chrome" "Linux" "Desktop").

Definition alice : UserDoc :=
  mkUser 1 "Alice" "alice@example.com" (Bcrypt 12 "Str0ng!Pw") true (Some 500%Z)
         None None None 0 None true None None.

(** An administrator, and a patient account registered under the
    administrator's address. *)
Definition root_admin : AdminDoc :=
  mkAdmin 1 "Root" "root@hc.io" (Bcrypt 12 "Adm1n!Pass") "super_admin" true
          None None.

Definition mallory : UserDoc :=
  mkUser 2 "Mallory" "root@hc.io" (Bcrypt 12 "Str0ng!Pw") true (Some 700%Z)
         None None None 0 None true None None.

(** An OTP issued at [t = 1000] for Alice's login that has already
    collected three wrong guesses. *)
Definition exhausted_otp : OtpDoc :=
  mkOtp 7 "alice@example.com" "482913" "patient" "login" false 3
        601000%Z 1000%Z.

(** A pending login code for an address that has no account. *)
Definition orphan_otp : OtpDoc :=
  mkOtp 3 "ghost@example.com" "482913" "patient" "login" false 0
        601000%Z 1000%Z.

(** A pending password-reset code for Alice. *)
Definition alice_reset_otp : OtpDoc :=
  mkOtp 4 "alice@example.com" "482913" "patient" "password-reset" false 0
        601000%Z 1000%Z.

Definition live_session : SessionDoc :=
  mkSession 1 1 Patient "jwt-1" (mkDevice "Chrome" "Linux" "Desktop")
            "203.0.113.7" 1000%Z 604801000%Z true None 1000%Z 1000%Z.

(** Alice's session as her login at 62.0 s left it, and the code of
    the login she started right after it. *)
Definition session_of_62s : SessionDoc :=
  mkSession 1 1 Patient "jwt-1" (mkDevice "Chrome" "Linux" "Desktop")
            "203.0.113.7" 62000%Z 604862000%Z true None 62000%Z 62000%Z.

Definition db_second_login_same_second : Db :=
  mkDb [] [alice] []
       [mkOtp 6 "alice@example.com" "482913" "patient" "login" false 0
              662300%Z 62300%Z]
       [session_of_62s] [].

(** Alice is logged in on one device. *)
Definition db_one_session : Db :=
  mkDb [] [alice] [] [] [live_session] [].

Definition db_alice : Db := mkDb [] [alice] [] [] [] [].

Definition db_alice_resetting : Db := mkDb [] [alice] [] [alice_reset_otp] [] [].

Definition db_admin_only : Db := mkDb [] [] [root_admin] [] [] [].

Definition db_shared_address : Db := mkDb [] [mallory] [root_admin] [] [] [].

(* ================================================================== *)
(** * Further code of the same files

    [OTP.checkRateLimit]; the session statics and methods not embedded
    above; the request helpers of [lib/utils.js]; the remaining
    endpoints of the auth controller; the authentication middleware
    and the session controller that call into them. *)

(* ------------------------------------------------------------------ *)
(** * models/OTP.js: rate limiting *)

Module OTPRate.

Record RateLimit := mkRateLimit {
  allowed : bool;
  waitTime : option Z
}.

Definition oneMinute : Z := 60 * 1000.

(** [Math.ceil(x / 1000)] for an integer [x]. *)
Definition ceil_seconds (x : Z) : Z := (- ((- x) / 1000))%Z.

(** [findOne({ email, purpose }).sort({ createdAt: -1 })]: verified
    records count as well. *)
Definition checkRateLimit (env : Env) (email purpose : string) : M RateLimit :=
  (d <- getDb ;;
   match OTP.newest (filter (OTP.any_for email purpose) (otps d)) with
   | None => ret (mkRateLimit true None)
   | Some recentOTP =>
       let timeSinceLastOTP := (now env - o_createdAt recentOTP)%Z in
       if (timeSinceLastOTP <? oneMinute)%Z
       then ret (mkRateLimit false
                   (Some (ceil_seconds (oneMinute - timeSinceLastOTP))))
       else ret (mkRateLimit true None)
   end)%async.

End OTPRate.

(* ------------------------------------------------------------------ *)
(** * The runtime of an authenticated request *)

(** The payload [jwt.verify] hands back: [id], [role] and [exp] in
    seconds. *)
Record Claims := mkClaims {
  jwt_id : ObjectId;
  jwt_role : string;
  jwt_exp : Z
}.

(** The session writes of the management paths. *)
Inductive SessionWrite :=
| TouchByToken (token : string)
| RevokeById (sessionId userId : ObjectId)
| RevokeAllOf (userId : ObjectId) (exceptToken : option string)
| RevokeByToken (token : string).

(** The request environment, what [jwt.verify] answers for a token
    ([None] when it throws), and which of the session writes the store
    refuses. *)
Record Runtime := mkRuntime {
  rt_env : Env;
  rt_jwt_verify : string -> option Claims;
  rt_session_fails : SessionWrite -> bool
}.

Definition session_write (rt : Runtime) (op : SessionWrite) (f : Db -> Db)
  : M unit :=
  fun w =>
    if rt_session_fails rt op
    then (Throw "MongoError", w)
    else (Ok tt, mkWorld (f (db w)) (journal w) (cookies w)).

(** A string as a JavaScript condition: set and not empty. *)
Definition truthy (o : option string) : bool :=
  match o with
  | Some s => negb (String.eqb s "")
  | None => false
  end.

(* ------------------------------------------------------------------ *)
(** * models/Session.js: the remaining statics and methods *)

Module SessionStatics.

Definition touch (t : Date) (s : SessionDoc) : SessionDoc :=
  mkSession (s_id s) (s_userId s) (s_userType s) (s_token s)
            (s_deviceInfo s) (s_ipAddress s) t
            (s_expiresAt s) (s_isActive s) (s_revokedReason s)
            (s_createdAt s) t.

(** [findOneAndUpdate] and [updateOne]: the first document that
    matches is updated. *)
Fixpoint update_first (p : SessionDoc -> bool) (f : SessionDoc -> SessionDoc)
         (l : list SessionDoc) : list SessionDoc :=
  match l with
  | [] => []
  | s :: tl => if p s then f s :: tl else s :: update_first p f tl
  end.

(** [sort({ lastActivity: -1 })] *)
Fixpoint insert_by_activity (s : SessionDoc) (l : list SessionDoc)
  : list SessionDoc :=
  match l with
  | [] => [s]
  | x :: tl =>
      if (s_lastActivity x <? s_lastActivity s)%Z
      then s :: x :: tl
      else x :: insert_by_activity s tl
  end.

Definition sort_by_activity (l : list SessionDoc) : list SessionDoc :=
  fold_right insert_by_activity [] l.

(** The filter [{ token, isActive: true }]. *)
Definition active_token (token : string) (s : SessionDoc) : bool :=
  String.eqb (s_token s) token && s_isActive s.

(** The filter [{ _id: sessionId, userId, isActive: true }]. *)
Definition owned_active (sessionId userId : ObjectId) (s : SessionDoc) : bool :=
  Nat.eqb (s_id s) sessionId && Nat.eqb (s_userId s) userId && s_isActive s.

(** The query of [revokeAllSessions]: [{ userId, isActive: true }], with
    [token: { $ne: exceptToken }] when [exceptToken] is truthy. *)
Definition others_of (userId : ObjectId) (exceptToken : option string)
           (s : SessionDoc) : bool :=
  Nat.eqb (s_userId s) userId && s_isActive s
  && (if truthy exceptToken
      then negb (String.eqb (s_token s)
                            (match exceptToken with Some t => t | None => "" end))
      else true).

Definition pluralS (n : Z) : string := if (1 <? n)%Z then "s" else "".

(** A number as a template literal prints it. *)
Definition Z_to_string (n : Z) : string :=
  match n with
  | Z0 => "0"
  | Zpos p => nat_to_string (Pos.to_nat p)
  | Zneg p => String.append "-" (nat_to_string (Pos.to_nat p))
  end.

Definition ago (n : Z) (unit : string) : string :=
  String.append (Z_to_string n)
    (String.append " " (String.append unit (String.append (pluralS n) " ago"))).

Section WithRuntime.
Variable rt : Runtime.

Definition getUserSessions (userId : ObjectId) (userType : UserType)
  : M (list SessionDoc) :=
  (d <- getDb ;;
   ret (sort_by_activity (Session.liveSessions (rt_env rt) userId userType d)))%async.

(** [updateActivity]: the [catch] block only logs. *)
Definition updateActivity (token : string) : M unit :=
  tryCatch
    (session_write rt (TouchByToken token)
       (with_sessions (update_first (active_token token)
                                    (touch (now (rt_env rt))))))
    (fun _ => ret tt).

(** [revokeSession]: the updated document, or [null]; the [catch]
    block rethrows. *)
Definition revokeSession (sessionId userId : ObjectId)
  : M (option SessionDoc) :=
  (d <- getDb ;;
   session_write rt (RevokeById sessionId userId)
     (with_sessions
        (update_first (owned_active sessionId userId)
           (fun s => Session.deactivate (s_revokedReason s)
                                        (now (rt_env rt)) s))) ;;
   ret (option_map
          (fun s => Session.deactivate (s_revokedReason s) (now (rt_env rt)) s)
          (find (owned_active sessionId userId) (sessions d))))%async.

(** [revokeAllSessions]: the result is [modifiedCount]. *)
Definition revokeAllSessions (userId : ObjectId) (exceptToken : option string)
  : M nat :=
  (d <- getDb ;;
   session_write rt (RevokeAllOf userId exceptToken)
     (with_sessions
        (map (fun s => if others_of userId exceptToken s
                       then Session.deactivate (s_revokedReason s)
                                               (now (rt_env rt)) s
                       else s))) ;;
   ret (length (filter (others_of userId exceptToken) (sessions d))))%async.

(** [this.isActive && this.expiresAt > new Date()] *)
Definition isValid (s : SessionDoc) : bool :=
  s_isActive s && (now (rt_env rt) <? s_expiresAt s)%Z.

(** [getDuration] *)
Definition getDuration (s : SessionDoc) : string :=
  let durationMs := (now (rt_env rt) - s_createdAt s)%Z in
  let durationHours := (durationMs / (1000 * 60 * 60))%Z in
  let durationDays := (durationHours / 24)%Z in
  if (0 <? durationDays)%Z then ago durationDays "day"
  else if (0 <? durationHours)%Z then ago durationHours "hour"
  else ago (durationMs / (1000 * 60))%Z "minute".
End WithRuntime.

End SessionStatics.

(* ------------------------------------------------------------------ *)
(** * lib/utils.js: what is read from the request

    Header values reach the code as strings of Latin-1 code units, which
    is what a [string] is here. *)

Record RawRequest := mkRawRequest {
  h_x_forwarded_for : option string;
  h_x_real_ip : option string;
  h_user_agent : option string;
  r_ip : option string;
  r_connection_remoteAddress : option string;
  r_socket_remoteAddress : option string
}.

Module RequestInfo.

Definition is_space := JsString.is_space.
Definition trim_start := JsString.trim_start.
Definition trim_end := JsString.trim_end.
Definition trim := JsString.trim.

(** The comma, code unit 44. *)
Definition comma : Ascii.ascii := Ascii.ascii_of_nat 44.

(** [s.split(',')[0]] *)
Fixpoint before_comma (s : string) : string :=
  match s with
  | String c tl =>
      if Ascii.eqb c comma then EmptyString else String c (before_comma tl)
  | EmptyString => EmptyString
  end.

Definition lower_char := JsString.lower_char.
Definition toLowerCase := JsString.toLowerCase.

(** [s.includes(pat)] *)
Fixpoint includes (pat s : string) : bool :=
  String.prefix pat s
  || match s with
     | String _ tl => includes pat tl
     | EmptyString => false
     end.

(** [a || b] on strings that may be missing. *)
Definition or_else (a : option string) (b : string) : string :=
  match a with
  | Some s => if String.eqb s "" then b else s
  | None => b
  end.

Definition getClientIp (req : RawRequest) : string :=
  if truthy (h_x_forwarded_for req)
  then trim (before_comma (or_else (h_x_forwarded_for req) ""))
  else if truthy (h_x_real_ip req)
  then or_else (h_x_real_ip req) ""
  else or_else (r_ip req)
         (or_else (r_connection_remoteAddress req)
            (or_else (r_socket_remoteAddress req) "unknown")).

Definition getUserAgent (req : RawRequest) : string :=
  or_else (h_user_agent req) "unknown".

Definition parseUserAgent (userAgent : string) : DeviceInfo :=
  if String.eqb userAgent "" || String.eqb userAgent "unknown"
  then mkDevice "Unknown" "Unknown" "Unknown"
  else
    let ua := toLowerCase userAgent in
    let browser :=
      if includes "edg/" ua then "Edge"
      else if includes "chrome" ua then "Chrome"
      else if includes "safari" ua && negb (includes "chrome" ua) then "Safari"
      else if includes "firefox" ua then "Firefox"
      else if includes "opera" ua || includes "opr/" ua then "Opera"
      else "Unknown" in
    let os :=
      if includes "win" ua then "Windows"
      else if includes "mac" ua then "macOS"
      else if includes "linux" ua then "Linux"
      else if includes "android" ua then "Android"
      else if includes "ios" ua || includes "iphone" ua || includes "ipad" ua
      then "iOS"
      else "Unknown" in
    let device :=
      if includes "mobile" ua then "Mobile"
      else if includes "tablet" ua || includes "ipad" ua then "Tablet"
      else "Desktop" in
    mkDevice browser os device.

(** What [generateToken] and [logAuthEvent] take from the request. *)
Definition toRequest (req : RawRequest) : Request :=
  mkRequest (getClientIp req) (parseUserAgent (getUserAgent req)).

End RequestInfo.

(* ------------------------------------------------------------------ *)
(** * controllers/authController.js: the remaining endpoints *)

Module AuthFlows.

Definition msg_invalid_credentials : string := "Invalid credentials".
Definition msg_not_verified : string :=
  "Email not verified. Please verify your email first.".
Definition msg_suspended : string := "Account suspended".
Definition msg_otp_sent : string :=
  "OTP sent to your email. Please verify to complete login.".

(** [`Please wait ${waitTime} seconds before requesting a new OTP`] *)
Definition msg_wait (waitTime : option Z) : string :=
  String.append "Please wait "
    (String.append
       (match waitTime with
        | Some n => SessionStatics.Z_to_string n
        | None => "undefined"
        end)
       " seconds before requesting a new OTP").

Definition wait_fields (waitTime : option Z) : list (string * string) :=
  match waitTime with
  | Some n => [("waitTime", SessionStatics.Z_to_string n)]
  | None => []
  end.

Definition findById (id : ObjectId) (l : list UserDoc) : option UserDoc :=
  find (fun u => Nat.eqb (u_id u) id) l.

Definition findAdminById (id : ObjectId) (l : list AdminDoc) : option AdminDoc :=
  find (fun a => Nat.eqb (a_id a) id) l.

(** [UserModel.findById(id)] *)
Definition findAccountById (c : UserType) (id : ObjectId) (d : Db)
  : option Account :=
  match c with
  | Doctor => option_map DoctorAcc (findById id (doctors d))
  | Patient => option_map PatientAcc (findById id (patients d))
  | Admin => option_map AdminAcc (findAdminById id (admins d))
  end.

(** [user.comparePassword(candidate)] *)
Definition comparePassword (x : Account) (candidate : string) : bool :=
  match x with
  | DoctorAcc u | PatientAcc u => bcrypt_compare candidate (u_password u)
  | AdminAcc a => bcrypt_compare candidate (a_password a)
  end.

Definition set_admin_lastlogin (t : Date) (a : AdminDoc) : AdminDoc :=
  mkAdmin (a_id a) (a_name a) (a_email a) (a_password a) (a_role a)
          (a_isActive a) (Some t) (a_lastLogout a).

Definition set_lastLogout (t : Date) (u : UserDoc) : UserDoc :=
  mkUser (u_id u) (u_name u) (u_email u) (u_password u)
         (u_isEmailVerified u) (u_emailVerifiedAt u)
         (u_passwordResetToken u) (u_passwordResetExpires u)
         (u_passwordChangedAt u) (u_passwordResetCount u)
         (u_passwordResetUsedAt u) (u_isActive u) (u_lastLogin u) (Some t).

Definition set_admin_lastLogout (t : Date) (a : AdminDoc) : AdminDoc :=
  mkAdmin (a_id a) (a_name a) (a_email a) (a_password a) (a_role a)
          (a_isActive a) (a_lastlogin a) (Some t).

(** The assignments of [changePassword]: [password] and
    [passwordChangedAt]; the second is no path of [adminSchema]. *)
Definition change_password (newPassword : string) (t : Date) (x : Account)
  : Account :=
  match x with
  | DoctorAcc u =>
      DoctorAcc (mkUser (u_id u) (u_name u) (u_email u) (Bcrypt 14 newPassword)
                        (u_isEmailVerified u) (u_emailVerifiedAt u)
                        (u_passwordResetToken u) (u_passwordResetExpires u)
                        (Some t) (u_passwordResetCount u)
                        (u_passwordResetUsedAt u) (u_isActive u)
                        (u_lastLogin u) (u_lastLogout u))
  | PatientAcc u =>
      PatientAcc (mkUser (u_id u) (u_name u) (u_email u) (Bcrypt 12 newPassword)
                         (u_isEmailVerified u) (u_emailVerifiedAt u)
                         (u_passwordResetToken u) (u_passwordResetExpires u)
                         (Some t) (u_passwordResetCount u)
                         (u_passwordResetUsedAt u) (u_isActive u)
                         (u_lastLogin u) (u_lastLogout u))
  | AdminAcc a =>
      AdminAcc (mkAdmin (a_id a) (a_name a) (a_email a) (Bcrypt 12 newPassword)
                        (a_role a) (a_isActive a) (a_lastlogin a)
                        (a_lastLogout a))
  end.

(** The cookie of [logout]: empty, [maxAge: 0]. *)
Definition cleared_cookie (secure : bool) : Cookie :=
  mkCookie "token" "" 0 true "strict" secure.

Section WithRuntime.
Variable rt : Runtime.
Let env := rt_env rt.

(** [login]: the suspended branch also looks up the suspending admin
    for the contact shown in the body, a read that changes nothing.
    [sendOTPEmail] never throws and its result is not read. *)
Definition login (email password role : string) : M Response :=
  tryCatch
    (d <- getDb ;;
     let UserModel := AuthController.doctorOrPatient role in
     match find (AuthController.has_email email)
                (AuthController.collection UserModel d) with
     | None =>
         Utils.logAuthEvent env "failed_login" email false None None
                            (Some "User not found") ;;
         ret (mkResponse 400 false msg_invalid_credentials [])
     | Some user =>
         if negb (u_isEmailVerified user) then
           Utils.logAuthEvent env "failed_login" email false
             (Some (u_id user)) (Some UserModel) (Some "Email not verified") ;;
           ret (mkResponse 400 false msg_not_verified
                  [("requiresVerification", "true")])
         else if negb (u_isActive user) then
           Utils.logAuthEvent env "failed_login" email false
             (Some (u_id user)) (Some UserModel) (Some "Account suspended") ;;
           ret (mkResponse 403 false msg_suspended [("suspended", "true")])
         else if negb (bcrypt_compare password (u_password user)) then
           Utils.logAuthEvent env "failed_login" email false
             (Some (u_id user)) (Some UserModel) (Some "Invalid password") ;;
           ret (mkResponse 400 false msg_invalid_credentials [])
         else
           rateLimitCheck <- OTPRate.checkRateLimit env email "login" ;;
           if negb (OTPRate.allowed rateLimitCheck) then
             ret (mkResponse 429 false
                    (msg_wait (OTPRate.waitTime rateLimitCheck))
                    (wait_fields (OTPRate.waitTime rateLimitCheck)))
           else
             _ <- OTP.createOTP env email role "login" ;;
             Utils.logAuthEvent env "login" email true
               (Some (u_id user)) (Some UserModel) None ;;
             ret (mkResponse 200 true msg_otp_sent
                    [("email", u_email user); ("requiresOTP", "true")])
     end)
    (fun _ => ret (mkResponse 500 false "Error in login process" [])).

(** [resendOTP]: [validateResendOTP] lets the purposes [registration]
    and [login] through.  No password is asked for and neither
    [isEmailVerified] nor [isActive] is read.  [sendOTPEmail] never
    throws and its result is not read. *)
Definition resendOTP (email role purpose : string) : M Response :=
  tryCatch
    (d <- getDb ;;
     let UserModel := AuthController.doctorOrPatient role in
     match find (AuthController.has_email email)
                (AuthController.collection UserModel d) with
     | None => ret (mkResponse 404 false "User not found" [])
     | Some user =>
         rateLimitCheck <- OTPRate.checkRateLimit env email purpose ;;
         if negb (OTPRate.allowed rateLimitCheck) then
           ret (mkResponse 429 false
                  (msg_wait (OTPRate.waitTime rateLimitCheck))
                  (wait_fields (OTPRate.waitTime rateLimitCheck)))
         else
           _ <- OTP.createOTP env email role purpose ;;
           Utils.logAuthEvent env "otp_resend" email true
             (Some (u_id user)) (Some UserModel) None ;;
           ret (mkResponse 200 true "New OTP sent to your email"
                  [("email", u_email user)])
     end)
    (fun _ => ret (mkResponse 500 false "Error resending OTP" [])).

(** [UserModel.findByIdAndUpdate(userId, { lastLogout: new Date() })] *)
Definition touch_lastLogout (userRole : string) (userId : ObjectId) : M unit :=
  let t := now env in
  let upd_user :=
    map (fun u => if Nat.eqb (u_id u) userId then set_lastLogout t u else u) in
  if String.eqb userRole "doctor" then
    write env (UserSave Doctor userId) (with_doctors upd_user)
  else if String.eqb userRole "patient" then
    write env (UserSave Patient userId) (with_patients upd_user)
  else
    write env (UserSave Admin userId)
          (with_admins
             (map (fun a => if Nat.eqb (a_id a) userId
                            then set_admin_lastLogout t a else a))).

(** [logout]: [user] and [userRole] are what [protect] put on the
    request, [token] is the cookie. *)
Definition logout (user : option Account) (userRole : string)
           (token : option string) : M Response :=
  tryCatch
    (match user with
     | Some u =>
         if negb (String.eqb userRole "")
         then touch_lastLogout userRole (AuthController.acc_id u)
         else ret tt
     | None => ret tt
     end ;;
     (if truthy token then
        let tk := match token with Some t => t | None => "" end in
        session_write rt (RevokeByToken tk)
          (with_sessions
             (SessionStatics.update_first (SessionStatics.active_token tk)
                (fun s => Session.deactivate (s_revokedReason s) (now env) s)))
      else ret tt) ;;
     set_cookie (cleared_cookie (production env)) ;;
     set_cookie (cleared_cookie (negb (production env))) ;;
     ret (mkResponse 200 true "Logged out successfully" []))
    (fun _ => ret (mkResponse 500 false "Error during logout" [])).

(** [adminLogin]: credentials, then the token at once; no OTP.  The
    server is taken to have its signing secret, so that [jwt.sign]
    returns and [generateToken] with it. *)
Definition adminLogin (req : Request) (email password : string) : M Response :=
  tryCatch
    (if String.eqb email "" || String.eqb password "" then
       ret (mkResponse 400 false "Please provide email and password" [])
     else
       d <- getDb ;;
       match find (fun a => String.eqb (a_email a) email) (admins d) with
       | None =>
           Utils.logAuthEvent env "failed_admin_login" email false None None
                              (Some "Admin not found") ;;
           ret (mkResponse 401 false msg_invalid_credentials [])
       | Some admin =>
           if negb (a_isActive admin) then
             Utils.logAuthEvent env "failed_admin_login" email false
               (Some (a_id admin)) (Some Admin) (Some "Account suspended") ;;
             ret (mkResponse 403 false
                    "Account is suspended. Please contact support." [])
           else if negb (bcrypt_compare password (a_password admin)) then
             Utils.logAuthEvent env "failed_admin_login" email false
               (Some (a_id admin)) (Some Admin) (Some "Invalid password") ;;
             ret (mkResponse 401 false msg_invalid_credentials [])
           else
             AuthController.save env
               (AdminAcc (set_admin_lastlogin (now env) admin)) ;;
             Utils.logAuthEvent env "admin_login" email true
               (Some (a_id admin)) (Some Admin) None ;;
             _ <- Utils.generateToken env (a_id admin) (a_role admin)
                                      (Some req) ;;
             ret (mkResponse 200 true "Login successful" [])
       end)
    (fun _ => ret (mkResponse 500 false "Error logging in" [])).

(** [changePassword]: [userId] and [role] come from [protect].
    [sendPasswordChangedEmail] is called inside its own [try]/[catch]. *)
Definition changePassword (userId : ObjectId) (role : string)
           (currentPassword newPassword : string) : M Response :=
  tryCatch
    (d <- getDb ;;
     match findAccountById (AuthController.getUserModel role) userId d with
     | None => ret (mkResponse 404 false "User not found" [])
     | Some user =>
         if negb (comparePassword user currentPassword) then
           Utils.logAuthEvent env "password_change"
             (AuthController.acc_email user) false
             (Some (AuthController.acc_id user))
             (Some (AuthController.getUserType role))
             (Some "Current password incorrect") ;;
           ret (mkResponse 400 false "Current password is incorrect" [])
         else if comparePassword user newPassword then
           ret (mkResponse 400 false
                  "New password must be different from current password" [])
         else
           AuthController.save env (change_password newPassword (now env) user) ;;
           Utils.logAuthEvent env "password_change"
             (AuthController.acc_email user) true
             (Some (AuthController.acc_id user))
             (Some (AuthController.getUserType role)) None ;;
           ret (mkResponse 200 true "Password changed successfully" [])
     end)
    (fun _ => ret (mkResponse 500 false "Error changing password" [])).
End WithRuntime.

End AuthFlows.

(* ------------------------------------------------------------------ *)
(** * middleware/auth.js *)

(** What [protect] leaves on the request for the handler. *)
Record Authenticated := mkAuthenticated {
  au_token : string;
  au_user : Account;
  au_userRole : string;
  au_session : SessionDoc
}.

(** [protect] either calls [next()] or answers itself. *)
Inductive Guard (A : Type) :=
| Next (a : A)
| Respond (r : Response).
Arguments Next {A} a.
Arguments Respond {A} r.

Module AuthMiddleware.

Section WithRuntime.
Variable rt : Runtime.
Let env := rt_env rt.

(** [verifyToken]: every error, the missing token, a failed
    [jwt.verify] and the expiry test alike, is caught and logged, and
    the function then returns [undefined], here [None]. *)
Definition verifyToken (token : string) : option (ObjectId * string) :=
  if String.eqb token "" then None
  else match rt_jwt_verify rt token with
       | None => None
       | Some decoded =>
           if (jwt_exp decoded * 1000 <=? now env)%Z then None
           else Some (jwt_id decoded, jwt_role decoded)
       end.

(** [protect]: destructuring the [undefined] of [verifyToken] throws,
    and the [catch] block answers 400 with the error as message, which
    JSON renders as an empty object. *)
Definition protect (cookie : option string) : M (Guard Authenticated) :=
  if negb (truthy cookie) then
    ret (Respond (mkResponse 401 false "missing token" []))
  else
    let token := match cookie with Some t => t | None => "" end in
    match verifyToken token with
    | None => ret (Respond (mkResponse 400 false "{}" []))
    | Some (userId, role) =>
        d <- getDb ;;
        let lookup :=
          if String.eqb role "patient"
          then Some (AuthFlows.findAccountById Patient userId d)
          else if String.eqb role "doctor"
          then Some (AuthFlows.findAccountById Doctor userId d)
          else if String.eqb role "admin" || String.eqb role "super_admin"
          then Some (AuthFlows.findAccountById Admin userId d)
          else None in
        match lookup with
        | None => ret (Respond (mkResponse 401 false "Invalid role" []))
        | Some None => ret (Respond (mkResponse 401 false " Invalid" []))
        | Some (Some user) =>
            found <- Session.findByToken env token ;;
            match found with
            | None =>
                ret (Respond
                       (mkResponse 401 false
                          "Session expired or invalid. Please login again." []))
            | Some session =>
                SessionStatics.updateActivity rt token ;;
                ret (Next (mkAuthenticated token user role session))
            end
        end
    end.

(** [doctorOnly], [patientOnly]: [None] is [next()]. *)
Definition doctorOnly (userRole : string) : option Response :=
  if negb (String.eqb userRole "doctor")
  then Some (mkResponse 403 false
               "Access denied. This endpoint is only available to doctors." [])
  else None.

Definition patientOnly (userRole : string) : option Response :=
  if negb (String.eqb userRole "patient")
  then Some (mkResponse 403 false
               "Access denied. This endpoint is only available to patients." [])
  else None.

(** [adminOnly] reads [req.user.role], the stored role of the account,
    which only an admin document has. *)
Definition stored_role (x : Account) : option string :=
  match x with
  | AdminAcc a => Some (a_role a)
  | _ => None
  end.

Definition adminOnly (user : option Account) : option Response :=
  match user with
  | None => Some (mkResponse 401 false "Authentication required" [])
  | Some u =>
      match stored_role u with
      | Some r =>
          if negb (String.eqb r "admin") && negb (String.eqb r "super_admin")
          then Some (mkResponse 403 false "Admin access required" [])
          else None
      | None => Some (mkResponse 403 false "Admin access required" [])
      end
  end.
End WithRuntime.

End AuthMiddleware.

(* ------------------------------------------------------------------ *)
(** * controllers/sessionController.js *)

(** One entry of the list [getSessions] returns; [getCurrentSession]
    shows the same keys without [isCurrent]. *)
Record SessionView := mkSessionView {
  v_id : ObjectId;
  v_deviceInfo : DeviceInfo;
  v_ipAddress : string;
  v_lastActivity : Date;
  v_createdAt : Date;
  v_expiresAt : Date;
  v_isCurrent : option bool;
  v_duration : string
}.

Module SessionController.

Section WithRuntime.
Variable rt : Runtime.
Let env := rt_env rt.

(** [calculateDuration] *)
Definition calculateDuration (createdAt : Date) : string :=
  let durationMs := (now env - createdAt)%Z in
  let durationSeconds := (durationMs / 1000)%Z in
  let durationMinutes := (durationSeconds / 60)%Z in
  let durationHours := (durationMinutes / 60)%Z in
  let durationDays := (durationHours / 24)%Z in
  if (0 <? durationDays)%Z then SessionStatics.ago durationDays "day"
  else if (0 <? durationHours)%Z then SessionStatics.ago durationHours "hour"
  else if (0 <? durationMinutes)%Z then SessionStatics.ago durationMinutes "minute"
  else "Just now".

(** [session.token === currentToken], with a cookie that may be
    missing. *)
Definition is_current (currentToken : option string) (s : SessionDoc) : bool :=
  match currentToken with
  | Some t => String.eqb (s_token s) t
  | None => false
  end.

(** [getSessions]: the body's [data]; [count] is its length. *)
Definition getSessions (userId : ObjectId) (role : string)
           (currentToken : option string) : M (list SessionView) :=
  (let userType := Utils.userTypeOfRole role in
   sessions <- SessionStatics.getUserSessions rt userId userType ;;
   ret (map (fun s => mkSessionView (s_id s) (s_deviceInfo s) (s_ipAddress s)
                                    (s_lastActivity s) (s_createdAt s)
                                    (s_expiresAt s) (Some (is_current currentToken s))
                                    (calculateDuration (s_createdAt s)))
            sessions))%async.

Definition revokeSession (sessionId userId : ObjectId)
           (currentToken : option string) : M Response :=
  tryCatch
    (d <- getDb ;;
     match find (SessionStatics.owned_active sessionId userId) (sessions d) with
     | None =>
         ret (mkResponse 404 false "Session not found or already revoked" [])
     | Some session =>
         if is_current currentToken session then
           ret (mkResponse 400 false
                  "Cannot revoke current session. Please use logout instead." [])
         else
           _ <- SessionStatics.revokeSession rt sessionId userId ;;
           ret (mkResponse 200 true "Session revoked successfully" [])
     end)
    (fun _ => ret (mkResponse 500 false "Error revoking session" [])).

Definition revokeAllSessions (userId : ObjectId) (currentToken : option string)
  : M Response :=
  tryCatch
    (modifiedCount <- SessionStatics.revokeAllSessions rt userId currentToken ;;
     ret (mkResponse 200 true
            (String.append "Successfully revoked "
               (String.append (nat_to_string modifiedCount) " session(s)"))
            [("revokedCount", nat_to_string modifiedCount)]))
    (fun _ => ret (mkResponse 500 false "Error revoking sessions" [])).

(** [getCurrentSession]: the session shown, or the refusal. *)
Definition getCurrentSession (currentToken : option string)
  : M (Guard SessionView) :=
  if negb (truthy currentToken) then
    ret (Respond (mkResponse 401 false "No active session found" []))
  else
    (found <- Session.findByToken env
                (match currentToken with Some t => t | None => "" end) ;;
     match found with
     | None =>
         ret (Respond (mkResponse 404 false "Session not found or expired" []))
     | Some s =>
         ret (Next (mkSessionView (s_id s) (s_deviceInfo s) (s_ipAddress s)
                                  (s_lastActivity s) (s_createdAt s)
                                  (s_expiresAt s) None
                                  (calculateDuration (s_createdAt s))))
     end)%async.
End WithRuntime.

End SessionController.

(* ------------------------------------------------------------------ *)
(** * routes/sessions.js *)

Module SessionRoutes.

Section WithRuntime.
Variable rt : Runtime.

(** [router.use(protect)]: the handler runs with what [protect] put
    on the request, or the answer of [protect] is the answer. *)
Definition behind_protect {A} (cookie : option string)
           (handler : Authenticated -> M (Guard A)) : M (Guard A) :=
  (checked <- AuthMiddleware.protect rt cookie ;;
   match checked with
   | Respond r => ret (Respond r)
   | Next a => handler a
   end)%async.

(** [router.get('/sessions', getSessions)] *)
Definition get_sessions (cookie : option string)
  : M (Guard (list SessionView)) :=
  behind_protect cookie
    (fun a =>
       (views <- SessionController.getSessions
                   rt (AuthController.acc_id (au_user a)) (au_userRole a)
                   cookie ;;
        ret (Next views))%async).

(** [router.get('/sessions/current', getCurrentSession)] *)
Definition get_current (cookie : option string) : M (Guard SessionView) :=
  behind_protect cookie
    (fun _ => SessionController.getCurrentSession rt cookie).
End WithRuntime.

End SessionRoutes.

(* ------------------------------------------------------------------ *)
(** * Vocabulary and sample data for the further code *)

(** The document [createOTP] inserts. *)
Definition issued_otp (env : Env) (w : World) (email role purpose : string)
  : OtpDoc :=
  mkOtp (fresh_id (map o_id
                       (filter (fun o => negb (OTP.unverified_for email purpose o))
                               (otps (db w)))))
        email (random_otp env) role purpose false 0
        (now env + 10 * 60 * 1000)%Z (now env).

(** The world [createOTP] leaves when both writes go through. *)
Definition after_createOTP (env : Env) (w : World) (email role purpose : string)
  : World :=
  mkWorld
    (with_otps
       (fun l => filter (fun o => negb (OTP.unverified_for email purpose o)) l
                 ++ [issued_otp env w email role purpose])
       (db w))
    (journal w ++ [Wrote (OtpDeleteMany email purpose)]
               ++ [Wrote (OtpInsert email purpose)])
    (cookies w).

(** What a session keeps for life: everything but [lastActivity] and
    [updatedAt]. *)
Definition session_core (s : SessionDoc)
  : ObjectId * ObjectId * UserType * string * Date * bool * option string :=
  (s_id s, s_userId s, s_userType s, s_token s, s_expiresAt s, s_isActive s,
   s_revokedReason s).

(** No persistence fault of either kind, and a verifier built from a
    table of tokens. *)
Definition verifier (table : list (string * Claims)) (token : string)
  : option Claims :=
  option_map snd (find (fun e => String.eqb (fst e) token) table).

Definition runtime_at (t : Date) (token : string)
           (table : list (string * Claims)) : Runtime :=
  mkRuntime (env_at t token) (verifier table) (fun _ => false).

(** A second environment with its own code draw. *)
Definition env_with_code (t : Date) (code : string) : Env :=
  mkEnv t code "t" true false no_faults.


Definition carol_suspended : UserDoc :=
  mkUser 5 "Carol" "carol@example.com" (Bcrypt 12 "C4rol!Pw") true (Some 100%Z)
         None None None 0 None false None None.

Definition carol_session : SessionDoc :=
  mkSession 2 5 Patient "jwt-carol" (mkDevice "Firefox" "Linux" "Desktop")
            "198.51.100.4" 1000%Z 604801000%Z true None 1000%Z 1000%Z.

Definition alice_second_session : SessionDoc :=
  mkSession 3 1 Patient "jwt-1b" (mkDevice "Safari" "macOS" "Desktop")
            "203.0.113.9" 2000%Z 604802000%Z true None 2000%Z 2000%Z.

Definition alice_claims : Claims := mkClaims 1 "patient" 604801.
Definition carol_claims : Claims := mkClaims 5 "patient" 604801.

Definition db_two_users : Db :=
  mkDb [] [alice; carol_suspended] [root_admin] []
       [live_session; carol_session; alice_second_session] [].

(** A session of Alice left active past its expiry. *)
Definition stale_session : SessionDoc :=
  mkSession 4 1 Patient "jwt-0" (mkDevice "Chrome" "Linux" "Desktop")
            "203.0.113.7" 5000%Z 604800000%Z true None 0%Z 5000%Z.

Definition db_stale : Db :=
  mkDb [] [alice; carol_suspended] [] [] [stale_session; carol_session] [].

(** The account [protect] loads for the role a token carries: [None]
    when the role is none of the four it knows, [Some None] when no
    document has the id. *)
Definition account_for (role : string) (userId : ObjectId) (d : Db)
  : option (option Account) :=
  if String.eqb role "patient"
  then Some (AuthFlows.findAccountById Patient userId d)
  else if String.eqb role "doctor"
  then Some (AuthFlows.findAccountById Doctor userId d)
  else if String.eqb role "admin" || String.eqb role "super_admin"
  then Some (AuthFlows.findAccountById Admin userId d)
  else None.

Definition msg_session_invalid : string :=
  "Session expired or invalid. Please login again.".

(** An administrator whose stored role is the schema's default. *)
Definition ops_admin : AdminDoc :=
  mkAdmin 2 "Ops" "ops@hc.io" (Bcrypt 12 "0ps!Passw") "admin" true None None.

Definition db_admins : Db := mkDb [] [] [root_admin; ops_admin] [] [] [].

(** The document [forgotPassword] inserts. *)
Definition reset_code (env : Env) (w : World) (email role : string) : OtpDoc :=
  mkOtp (fresh_id (map o_id
                       (filter (fun o => negb (OTP.any_for email "password-reset" o))
                               (otps (db w)))))
        email (random_otp env) role "password-reset" false 0
        (now env + 10 * 60 * 1000)%Z (now env).

(** A request that came through a proxy which left the first entry of
    [x-forwarded-for] blank. *)
Definition blank_forwarded : RawRequest :=
  mkRawRequest (Some " , 10.0.0.1") None (Some "Mozilla/5.0 (X11; Linux x86_64)")
               (Some "10.0.0.1") None None.

(** User agents as browsers send them: Chrome on an Android phone,
    Safari on an iPhone, Opera on Windows. *)
Definition ua_android_chrome : string :=
  "Mozilla/5.0 (Linux; Android 10; K) AppleWebKit/537.36 (KHTML, like Gecko) Chrome/114.0.0.0 Mobile Safari/537.36".

Definition ua_iphone_safari : string :=
  "Mozilla/5.0 (iPhone; CPU iPhone OS 16_5 like Mac OS X) AppleWebKit/605.1.15 (KHTML, like Gecko) Version/16.5 Mobile/15E148 Safari/604.1".

Definition ua_opera_windows : string :=
  "Mozilla/5.0 (Windows NT 10.0; Win64; x64) AppleWebKit/537.36 (KHTML, like Gecko) Chrome/114.0.0.0 Safari/537.36 OPR/100.0.0.0".

(* ------------------------------------------------------------------ *)
(** * Properties of the OTP engine *)
Lemma skipn_app_exact {A} (l d : list A) : skipn (length l) (l ++ d) = d.
Proof. induction l; cbn; auto. Qed.

Lemma remove_id_absent id l o :
  In o (OTP.remove_id id l) -> o_id o <> id.
Proof.
  unfold OTP.remove_id. rewrite filter_In. intros [_ H].
  apply negb_true_iff, Nat.eqb_neq in H. exact H.
Qed.

Lemma canAttempt_false o : 3 <= o_attempts o -> OTP.canAttempt o = false.
Proof. intros H. unfold OTP.canAttempt. now apply Nat.ltb_ge. Qed.

(** C3, as stated, fails for a record that has expired.  Alice's code
    has three failed attempts and ran out at [t = 601000]; the right
    code submitted at [t = 700000] is refused as expired, not as
    exhausted.  The record is deleted all the same. *)
Lemma verifyOTP_exhausted_record_expired :
  exists w',
    OTP.verifyOTP (env_at 700000%Z "t") "alice@example.com" "482913" "login"
                  (world_of (mkDb [] [alice] [] [exhausted_otp] [] []))
    = (Ok (OTP.mkVerification false OTP.msg_expired None), w')
    /\ OTP.msg_expired <> OTP.msg_exhausted
    /\ otps (db w') = [].
Proof.
  eexists. split; [vm_compute; reflexivity|].
  split; [discriminate|reflexivity].
Qed.

(** C3, amended.  When the newest unverified record of (email, purpose)
    already carries three failed attempts and is still within its ten
    minutes, [OTP.verifyOTP] answers with the attempts-exceeded failure
    and deletes the record, whatever code is submitted, the right one
    included: the test on [canAttempt] comes before the comparison of
    the codes. *)
Theorem verifyOTP_exhausted_before_compare :
  forall env w email purpose code rec,
    OTP.findOne_unverified email purpose (db w) = Some rec ->
    3 <= o_attempts rec ->
    OTP.isExpired env rec = false ->
    fails env (OtpDeleteOne (o_id rec)) = false ->
    exists w',
      OTP.verifyOTP env email code purpose w
      = (Ok (OTP.mkVerification false OTP.msg_exhausted None), w')
      /\ otps (db w') = OTP.remove_id (o_id rec) (otps (db w))
      /\ (forall o, In o (otps (db w')) -> o_id o <> o_id rec).
Proof.
  intros env w email purpose code rec Hfind Hatt Hexp Hok.
  unfold OTP.verifyOTP, bind, getDb.
  rewrite Hfind, Hexp, (canAttempt_false _ Hatt). cbn [negb].
  unfold OTP.deleteOne, write, ret. rewrite Hok.
  eexists. split; [reflexivity|]. cbn. split; [reflexivity|].
  intros o. apply remove_id_absent.
Qed.

Lemma verifyOTP_exhausted_before_compare_witness :
  exists w',
    OTP.verifyOTP (env_at 2000%Z "t") "alice@example.com" "482913" "login"
                  (world_of (with_otps (fun _ => [exhausted_otp]) empty_db))
    = (Ok (OTP.mkVerification false OTP.msg_exhausted None), w')
    /\ otps (db w') = []
    /\ (forall o, In o (otps (db w')) -> o_id o <> 7).
Proof.
  apply (@verifyOTP_exhausted_before_compare
           (env_at 2000%Z "t")
           (world_of (with_otps (fun _ => [exhausted_otp]) empty_db))
           "alice@example.com" "login" "482913" exhausted_otp);
    [reflexivity | cbn; lia | reflexivity | reflexivity].
Defined.

(** Expiry is tested first: an expired record is deleted with the
    expired failure, whatever its attempts and whatever the code. *)
Lemma verifyOTP_expired_first :
  forall env w email purpose code rec,
    OTP.findOne_unverified email purpose (db w) = Some rec ->
    OTP.isExpired env rec = true ->
    fails env (OtpDeleteOne (o_id rec)) = false ->
    exists w',
      OTP.verifyOTP env email code purpose w
      = (Ok (OTP.mkVerification false OTP.msg_expired None), w')
      /\ otps (db w') = OTP.remove_id (o_id rec) (otps (db w)).
Proof.
  intros env w email purpose code rec Hfind Hexp Hok.
  unfold OTP.verifyOTP, bind, getDb. rewrite Hfind, Hexp.
  unfold OTP.deleteOne, write, ret. rewrite Hok.
  eexists. split; reflexivity.
Qed.

(** Three wrong guesses, then the right code: the fourth attempt is
    refused as exhausted and the record is gone. *)
Example fourth_attempt_with_the_right_code :
  let fresh := mkOtp 7 "alice@example.com" "482913" "patient" "login" false 0
                     601000%Z 1000%Z in
  let w0 := world_of (mkDb [] [alice] [] [fresh] [] []) in
  let guess t code w :=
    OTP.verifyOTP (env_at t "t") "alice@example.com" code "login" w in
  let r1 := guess 2000%Z "000000" w0 in
  let r2 := guess 3000%Z "111111" (snd r1) in
  let r3 := guess 4000%Z "222222" (snd r2) in
  let r4 := guess 5000%Z "482913" (snd r3) in
  fst r1 = Ok (OTP.mkVerification false "Invalid OTP. 2 attempt(s) remaining." None)
  /\ fst r2 = Ok (OTP.mkVerification false "Invalid OTP. 1 attempt(s) remaining." None)
  /\ fst r3 = Ok (OTP.mkVerification false "Invalid OTP. 0 attempt(s) remaining." None)
  /\ map o_attempts (otps (db (snd r3))) = [3]
  /\ fst r4 = Ok (OTP.mkVerification false OTP.msg_exhausted None)
  /\ otps (db (snd r4)) = [].
Proof. vm_compute. repeat split. Qed.

(* ------------------------------------------------------------------ *)
(** * Properties of the session registry *)
Lemma live_not_expired_active env s :
  (now env < s_expiresAt s)%Z -> Session.expired_active env s = false.
Proof.
  intros H. unfold Session.expired_active.
  apply andb_false_iff. left. apply Z.ltb_ge. lia.
Qed.

Lemma active_not_old_inactive env daysOld s :
  s_isActive s = true -> Session.old_inactive env daysOld s = false.
Proof. intros H. unfold Session.old_inactive. now rewrite H. Qed.

(** C10.  A session with [isActive = true] whose [expiresAt] lies in
    the future is still in the collection, as the same document, after
    [cleanupExpired] and after [deleteOldSessions] with any threshold,
    whether or not the write reaches the store. *)
Theorem sweeps_keep_live_sessions :
  forall env w s,
    In s (sessions (db w)) ->
    s_isActive s = true ->
    (now env < s_expiresAt s)%Z ->
    In s (sessions (db (snd (Session.cleanupExpired env w))))
    /\ (forall daysOld,
           In s (sessions (db (snd (Session.deleteOldSessions env daysOld w))))).
Proof.
  intros env w s Hin Hact Hlive. split.
  - unfold Session.cleanupExpired, bind, getDb, write, ret.
    destruct (fails env SessionCleanup); cbn; [exact Hin|].
    apply in_map_iff. exists s. split; [|exact Hin].
    now rewrite (live_not_expired_active env s Hlive).
  - intros daysOld.
    unfold Session.deleteOldSessions, bind, getDb, write, ret.
    destruct (fails env SessionDeleteOld); cbn; [exact Hin|].
    apply filter_In. split; [exact Hin|].
    now rewrite (active_not_old_inactive env daysOld s Hact).
Qed.

Lemma sweeps_keep_live_sessions_witness :
  In live_session
     (sessions (db (snd (Session.cleanupExpired
                           (env_at 5000%Z "t")
                           (world_of (with_sessions (fun _ => [live_session])
                                                    empty_db))))))
  /\ (forall daysOld,
         In live_session
            (sessions (db (snd (Session.deleteOldSessions
                                  (env_at 5000%Z "t") daysOld
                                  (world_of (with_sessions
                                               (fun _ => [live_session])
                                               empty_db))))))).
Proof.
  apply (@sweeps_keep_live_sessions
           (env_at 5000%Z "t")
           (world_of (with_sessions (fun _ => [live_session]) empty_db))
           live_session);
    [left; reflexivity | reflexivity | cbn; lia].
Defined.

(** What the sweeps do change: [cleanupExpired] rewrites only active
    sessions whose [expiresAt] is past. *)
Lemma cleanupExpired_touches_only_expired env w s' :
  In s' (sessions (db (snd (Session.cleanupExpired env w)))) ->
  In s' (sessions (db w))
  \/ exists s, In s (sessions (db w))
               /\ (s_expiresAt s < now env)%Z /\ s_isActive s = true
               /\ s' = Session.deactivate (s_revokedReason s) (now env) s.
Proof.
  unfold Session.cleanupExpired, bind, getDb, write, ret.
  destruct (fails env SessionCleanup); cbn; [now left|].
  rewrite in_map_iff. intros [s [Hs Hin]].
  destruct (Session.expired_active env s) eqn:E.
  - right. exists s. unfold Session.expired_active in E.
    apply andb_true_iff in E as [E1 E2]. apply Z.ltb_lt in E1.
    repeat split; auto.
  - left. now subst.
Qed.

(** [deleteOldSessions] removes only inactive sessions last updated
    before the cutoff. *)
Lemma deleteOldSessions_removes_only_old env daysOld w s :
  In s (sessions (db w)) ->
  ~ In s (sessions (db (snd (Session.deleteOldSessions env daysOld w)))) ->
  s_isActive s = false /\ (s_updatedAt s < Session.cutoffDate env daysOld)%Z.
Proof.
  unfold Session.deleteOldSessions, bind, getDb, write, ret.
  destruct (fails env SessionDeleteOld); cbn; intros Hin Hout; [contradiction|].
  rewrite filter_In in Hout.
  destruct (Session.old_inactive env daysOld s) eqn:E.
  - unfold Session.old_inactive in E. apply andb_true_iff in E as [E1 E2].
    apply negb_true_iff in E1. apply Z.ltb_lt in E2. now split.
  - exfalso. apply Hout. now split.
Qed.

Lemma UserType_eqb_refl t : UserType_eqb t t = true.
Proof. now destruct t. Qed.

Lemma enforce_token env u t s : s_token (enforce env u t s) = s_token s.
Proof. unfold enforce. now destruct (Session.active_of u t s). Qed.

Lemma enforce_inactive env u t s :
  Session.active_of u t (enforce env u t s) = false.
Proof.
  unfold enforce. destruct (Session.active_of u t s) eqn:E; [|exact E].
  unfold Session.active_of. cbn. apply andb_false_r.
Qed.

Lemma enforce_clears env u t l :
  filter (Session.active_of u t) (map (enforce env u t) l) = [].
Proof.
  induction l as [|s l IH]; cbn; [reflexivity|].
  now rewrite enforce_inactive.
Qed.

Lemma enforce_keeps_tokens env u t l :
  map s_token (map (enforce env u t) l) = map s_token l.
Proof.
  rewrite map_map. apply map_ext. intros s. apply enforce_token.
Qed.

Lemma existsb_token_enforce env u t token l :
  existsb (fun s => String.eqb (s_token s) token) (map (enforce env u t) l)
  = existsb (fun s => String.eqb (s_token s) token) l.
Proof.
  induction l as [|s l IH]; cbn; [reflexivity|].
  now rewrite enforce_token, IH.
Qed.

Lemma find_none_all {A} (p : A -> bool) l :
  (forall x, In x l -> p x = false) -> find p l = None.
Proof.
  induction l as [|a l IH]; cbn; intros H; [reflexivity|].
  rewrite (H a (or_introl eq_refl)). apply IH. intros x Hx. apply H. now right.
Qed.

Lemma unique_tokens_same l a b :
  unique_tokens l -> In a l -> In b l -> s_token a = s_token b -> a = b.
Proof.
  unfold unique_tokens. induction l as [|x l IH]; cbn; intros Hnd Ha Hb Heq.
  - contradiction.
  - inversion Hnd as [|? ? Hnotin Hnd']; subst.
    destruct Ha as [Ha|Ha], Hb as [Hb|Hb]; subst.
    + reflexivity.
    + exfalso. apply Hnotin. rewrite Heq. now apply in_map.
    + exfalso. apply Hnotin. rewrite <- Heq. now apply in_map.
    + now apply IH.
Qed.

Lemma token_free_not_in token l s :
  token_free token l = true -> In s l -> s_token s <> token.
Proof.
  unfold token_free. intros H Hin Heq. apply negb_true_iff in H.
  assert (existsb (fun s => String.eqb (s_token s) token) l = true) as C.
  { apply existsb_exists. exists s. split; [exact Hin|].
    now apply String.eqb_eq. }
  congruence.
Qed.

(** The run of [generateToken] when the request is given, the token is
    not yet in the collection and both session writes go through:
    enforcement first, then the insert. *)
Lemma generateToken_run env w userId role r :
  String.eqb (clientIp r) "" = false ->
  token_free (jwt_sign env) (sessions (db w)) = true ->
  fails env (SessionUpdateMany userId (Utils.userTypeOfRole role)) = false ->
  fails env (SessionInsert (jwt_sign env)) = false ->
  Utils.generateToken env userId role (Some r) w
  = (Ok (jwt_sign env),
     mkWorld
       (with_sessions
          (fun l => map (enforce env userId (Utils.userTypeOfRole role)) l
                    ++ [issued_session env w userId role r])
          (db w))
       (journal w
        ++ [Wrote (SessionUpdateMany userId (Utils.userTypeOfRole role))]
        ++ [Wrote (SessionInsert (jwt_sign env))])
       (cookies w ++ [token_cookie env])).
Proof.
  intros Hip Hfree H1 H2.
  unfold Utils.generateToken, Utils.generateToken_signed, tryCatch, bind, set_cookie, ret.
  unfold Session.enforceSingleDevice, Session.createSession, bind, getDb,
    write, ret.
  cbn. rewrite H1. cbn. rewrite Hip.
  fold (enforce env userId (Utils.userTypeOfRole role)).
  rewrite existsb_token_enforce.
  unfold token_free in Hfree. apply negb_true_iff in Hfree. rewrite Hfree.
  rewrite H2. cbn.
  unfold issued_session, token_cookie, with_sessions. cbn.
  rewrite !map_map. cbn.
  replace (map (fun x => s_id (enforce env userId (Utils.userTypeOfRole role) x))
               (sessions (db w)))
    with (map s_id (sessions (db w))).
  2:{ apply map_ext. intros s. unfold enforce.
      now destruct (Session.active_of userId (Utils.userTypeOfRole role) s). }
  rewrite <- app_assoc. reflexivity.
Qed.

Lemma issued_session_active env w userId role r :
  Session.active_of userId (Utils.userTypeOfRole role)
                    (issued_session env w userId role r) = true.
Proof.
  unfold Session.active_of, issued_session. cbn.
  now rewrite Nat.eqb_refl, UserType_eqb_refl.
Qed.

Lemma revoked_does_not_authenticate env env' u t token s :
  Session.active_of u t s = true ->
  Session.authenticates env' token (enforce env u t s) = false.
Proof.
  intros H. unfold enforce. rewrite H. unfold Session.authenticates. cbn.
  now rewrite andb_false_r.
Qed.

Lemma enforce_clears_live env env' u t l :
  filter (Session.live_of env' u t) (map (enforce env u t) l) = [].
Proof.
  induction l as [|s l IH]; cbn; [reflexivity|].
  unfold Session.live_of at 1. now rewrite enforce_inactive.
Qed.

(** C1, as stated, fails.  Alice has one live session, opened at
    62.0 s under the token [jwt-1].  She completes a second login at
    62.6 s: the payload and the [iat] of the token, which counts
    seconds, are those of the first, so [jwt.sign] returns [jwt-1]
    again.  The enforcement step revokes her session, the insert of
    the new one is refused by the unique index on [token], and
    [generateToken] swallows the error: the login is answered 200
    "Login successful" with the cookie set, and Alice is left with no
    active session, so not even the new cookie authenticates. *)
Lemma second_login_can_leave_no_session :
  Session.liveSessions (env_at 62600%Z "jwt-1") 1 Patient
                       db_second_login_same_second
  = [session_of_62s]
  /\ exists w',
      AuthController.verifyOTP (env_at 62600%Z "jwt-1") chrome_on_linux
                               "alice@example.com" "482913" "patient" "login"
                               (world_of db_second_login_same_second)
      = (Ok (mkResponse 200 true "Login successful" []), w')
      /\ map c_value (cookies w') = ["jwt-1"]
      /\ filter (Session.active_of 1 Patient) (sessions (db w')) = []
      /\ (forall env', Session.findByToken env' "jwt-1" w' = (Ok None, w'))
      /\ existsb (fun e => match e with
                           | Failed (SessionInsert _) => true
                           | _ => false
                           end) (journal w') = true.
Proof.
  split; [reflexivity|].
  eexists. split; [vm_compute; reflexivity|].
  split; [reflexivity|]. split; [reflexivity|]. split; [|reflexivity].
  intros env'. unfold Session.findByToken, bind, getDb, ret.
  cbn [db sessions find Session.authenticates s_token s_isActive
       String.eqb Ascii.eqb Bool.eqb andb]. reflexivity.
Qed.

(** C1, amended.  A user has one live session [old] in a collection
    that respects its unique index on [token]; a further login
    completes and its session step goes through, that is
    [generateToken] runs with the request, the request shows a client
    address, [jwt.sign] returns a token the collection does not hold
    yet and the two session writes are accepted.  Afterwards the user
    has exactly one active session, the new one, it is the only live
    one for the next seven days, and [findByToken] on the token of
    [old] finds nothing at any time: [enforceSingleDevice] deactivated
    it before the insert. *)
Theorem second_login_leaves_one_session :
  forall env w userId role r old,
    unique_tokens (sessions (db w)) ->
    Session.liveSessions env userId (Utils.userTypeOfRole role) (db w) = [old] ->
    String.eqb (clientIp r) "" = false ->
    token_free (jwt_sign env) (sessions (db w)) = true ->
    fails env (SessionUpdateMany userId (Utils.userTypeOfRole role)) = false ->
    fails env (SessionInsert (jwt_sign env)) = false ->
    exists w' new,
      Utils.generateToken env userId role (Some r) w = (Ok (jwt_sign env), w')
      /\ s_token new = jwt_sign env
      /\ new_events w w'
         = [Wrote (SessionUpdateMany userId (Utils.userTypeOfRole role));
            Wrote (SessionInsert (jwt_sign env))]
      /\ filter (Session.active_of userId (Utils.userTypeOfRole role))
                (sessions (db w')) = [new]
      /\ (forall env',
             (now env' < now env + Utils.seven_days)%Z ->
             Session.liveSessions env' userId (Utils.userTypeOfRole role)
                                  (db w') = [new])
      /\ (forall env',
             Session.findByToken env' (s_token old) w' = (Ok None, w')).
Proof.
  intros env w userId role r old Huniq Hone Hip Hfree H1 H2.
  assert (In old (sessions (db w))
          /\ Session.active_of userId (Utils.userTypeOfRole role) old = true)
    as [Hin Hact].
  { assert (In old (Session.liveSessions env userId
                                         (Utils.userTypeOfRole role) (db w)))
      as H by (rewrite Hone; now left).
    unfold Session.liveSessions in H. apply filter_In in H as [Hin H].
    unfold Session.live_of in H. apply andb_true_iff in H as [H _].
    now split. }
  eexists. exists (issued_session env w userId role r).
  split; [apply generateToken_run; assumption|].
  split; [reflexivity|].
  split; [unfold new_events; cbn; apply skipn_app_exact|]. cbn.
  split; [|split].
  - rewrite filter_app, enforce_clears. cbn.
    now rewrite issued_session_active.
  - intros env' Ht. unfold Session.liveSessions. cbn.
    rewrite filter_app.
    rewrite enforce_clears_live. cbn. unfold Session.live_of.
    rewrite issued_session_active. cbn.
    apply Z.ltb_lt in Ht. now rewrite Ht.
  - intros env'. unfold Session.findByToken, bind, getDb, ret. cbn.
    rewrite find_none_all; [reflexivity|].
    intros x Hx. apply in_app_or in Hx as [Hx|Hx].
    + apply in_map_iff in Hx as [s [Hs Hsin]]. subst x.
      destruct (String.eqb
                  (s_token (enforce env userId (Utils.userTypeOfRole role) s))
                  (s_token old)) eqn:E.
      * apply String.eqb_eq in E. rewrite enforce_token in E.
        assert (s = old) by (eapply unique_tokens_same; eauto). subst s.
        now apply revoked_does_not_authenticate.
      * unfold Session.authenticates. now rewrite E.
    + destruct Hx as [Hx|[]]. subst x. unfold Session.authenticates. cbn.
      assert (jwt_sign env <> s_token old) as Hneq.
      { intros C. eapply token_free_not_in; eauto. }
      apply String.eqb_neq in Hneq. now rewrite Hneq.
Qed.

Lemma second_login_leaves_one_session_witness :
  exists w' new,
    Utils.generateToken (env_at 9000%Z "jwt-2") 1 "patient"
                        (Some chrome_on_linux) (world_of db_one_session)
    = (Ok "jwt-2", w')
    /\ s_token new = "jwt-2"
    /\ new_events (world_of db_one_session) w'
       = [Wrote (SessionUpdateMany 1 Patient); Wrote (SessionInsert "jwt-2")]
    /\ filter (Session.active_of 1 Patient) (sessions (db w')) = [new]
    /\ (forall env',
           (now env' < 9000 + Utils.seven_days)%Z ->
           Session.liveSessions env' 1 Patient (db w') = [new])
    /\ (forall env', Session.findByToken env' "jwt-1" w' = (Ok None, w')).
Proof.
  apply (@second_login_leaves_one_session
           (env_at 9000%Z "jwt-2") (world_of db_one_session) 1 "patient"
           chrome_on_linux live_session).
  - unfold unique_tokens. cbn. constructor; [intros []|constructor].
  - reflexivity.
  - reflexivity.
  - reflexivity.
  - reflexivity.
  - reflexivity.
Defined.

(** C7, as stated, fails.  Alice completes a login while the session
    insert is refused: [generateToken] still returns the token and sets
    the cookie, her earlier session has been revoked by the enforcement
    step, and no session carries the returned token. *)
Lemma generateToken_succeeds_without_session :
  exists w',
    Utils.generateToken
      (mkEnv 9000%Z "482913" "jwt-2" true false session_insert_down)
      1 "patient" (Some chrome_on_linux) (world_of db_one_session)
    = (Ok "jwt-2", w')
    /\ map c_value (cookies w') = ["jwt-2"]
    /\ (forall s, In s (sessions (db w')) -> s_token s <> "jwt-2")
    /\ journal w' = [Wrote (SessionUpdateMany 1 Patient);
                     Failed (SessionInsert "jwt-2")].
Proof.
  eexists. split; [vm_compute; reflexivity|]. cbn.
  split; [reflexivity|]. split; [|reflexivity].
  intros s [Hs|[]]. subst s. cbn. discriminate.
Qed.

(** Without a request object no session write is attempted at all. *)
Lemma generateToken_without_request env w userId role :
  Utils.generateToken env userId role None w
  = (Ok (jwt_sign env),
     mkWorld (db w) (journal w) (cookies w ++ [token_cookie env])).
Proof. reflexivity. Qed.

(** A failing [jwt.sign] is the one way [generateToken] fails: the
    outer [catch] rethrows, and neither cookie nor session has been
    written. *)
Lemma generateToken_unsigned env w userId role req e :
  Utils.generateToken_signed env (Throw e) userId role req w
  = (Throw "Failed to generate authentication token", w).
Proof. reflexivity. Qed.

(** Once [jwt.sign] has returned, [generateToken] returns its token,
    whatever the persistence layer does. *)
Lemma generateToken_total env w userId role req :
  exists w',
    Utils.generateToken env userId role req w = (Ok (jwt_sign env), w')
    /\ cookies w' = cookies w ++ [token_cookie env]
    /\ (req = None -> db w' = db w).
Proof.
  destruct req as [r|].
  - unfold Utils.generateToken, Utils.generateToken_signed, tryCatch, bind, set_cookie, ret,
      Session.enforceSingleDevice, Session.createSession, bind,
      getDb, write, reject, ret. cbn.
    destruct (fails env (SessionUpdateMany userId (Utils.userTypeOfRole role)));
      cbn.
    + eexists. split; [reflexivity|]. cbn. split; [reflexivity|discriminate].
    + destruct (String.eqb (clientIp r) ""); cbn.
      { eexists. split; [reflexivity|]. cbn. split; [reflexivity|discriminate]. }
      match goal with
      | |- context [existsb ?f ?l] => destruct (existsb f l)
      end; cbn.
      * eexists. split; [reflexivity|]. cbn. split; [reflexivity|discriminate].
      * destruct (fails env (SessionInsert (jwt_sign env))); cbn;
          (eexists; split; [reflexivity|]; cbn; split; [reflexivity|discriminate]).
  - eexists. split; [apply generateToken_without_request|]. cbn.
    split; reflexivity.
Qed.

(** [generateToken] writes to the sessions collection only. *)
Lemma generateToken_frame env w userId role req :
  doctors (db (snd (Utils.generateToken env userId role req w)))
  = doctors (db w)
  /\ patients (db (snd (Utils.generateToken env userId role req w)))
     = patients (db w)
  /\ admins (db (snd (Utils.generateToken env userId role req w)))
     = admins (db w)
  /\ otps (db (snd (Utils.generateToken env userId role req w)))
     = otps (db w)
  /\ authlogs (db (snd (Utils.generateToken env userId role req w)))
     = authlogs (db w).
Proof.
  destruct req as [r|]; [|cbn; repeat split].
  unfold Utils.generateToken, Utils.generateToken_signed, tryCatch, bind,
    set_cookie, ret, Session.enforceSingleDevice, Session.createSession, bind,
    getDb, write, reject, ret. cbn.
  destruct (fails env (SessionUpdateMany userId (Utils.userTypeOfRole role)));
    cbn; [repeat split|].
  destruct (String.eqb (clientIp r) ""); cbn;
    [destruct (db w); cbn; repeat split|].
  match goal with
  | |- context [existsb ?f ?l] => destruct (existsb f l)
  end; cbn; [destruct (db w); cbn; repeat split|].
  destruct (fails env (SessionInsert (jwt_sign env))); cbn;
    destruct (db w); cbn; repeat split.
Qed.

Lemma find_app_last {A} (p : A -> bool) l x :
  find p l = None -> p x = true -> find p (l ++ [x]) = Some x.
Proof.
  induction l as [|a l IH]; cbn; intros Hn Hx.
  - now rewrite Hx.
  - destruct (p a); [discriminate|]. now apply IH.
Qed.

(** C7, amended.  What [jwt.sign] does decides alone whether a token
    is issued.  When it throws, [generateToken] throws "Failed to
    generate authentication token" and has written neither cookie nor
    session.  When it returns, [generateToken] returns the signed
    token and sets the cookie to it, whatever becomes of the session:
    a session bound to that token is persisted when the request is
    given with a client address, the token is new to the collection
    and both session writes succeed; without a request the database is
    left as it was. *)
Theorem generateToken_issues_token_and_tracks_best_effort :
  forall env w userId role req,
    (forall e,
        Utils.generateToken_signed env (Throw e) userId role req w
        = (Throw "Failed to generate authentication token", w))
    /\ exists w',
        Utils.generateToken_signed env (Ok (jwt_sign env)) userId role req w
        = (Ok (jwt_sign env), w')
        /\ cookies w' = cookies w ++ [token_cookie env]
        /\ (forall r,
               req = Some r ->
               String.eqb (clientIp r) "" = false ->
               token_free (jwt_sign env) (sessions (db w)) = true ->
               fails env (SessionUpdateMany userId (Utils.userTypeOfRole role))
               = false ->
               fails env (SessionInsert (jwt_sign env)) = false ->
               In (issued_session env w userId role r) (sessions (db w'))
               /\ Session.findByToken env (jwt_sign env) w'
                  = (Ok (Some (issued_session env w userId role r)), w'))
        /\ (req = None -> db w' = db w).
Proof.
  intros env w userId role req.
  split; [intros e; apply generateToken_unsigned|].
  fold (Utils.generateToken env userId role req).
  destruct (generateToken_total env w userId role req) as [w' [Hrun [Hck Hnone]]].
  exists w'. split; [exact Hrun|]. split; [exact Hck|]. split; [|exact Hnone].
  intros r -> Hip Hfree H1 H2.
  rewrite (generateToken_run env w userId role r Hip Hfree H1 H2) in Hrun.
  injection Hrun as <-.
  split; [cbn; apply in_or_app; right; now left|].
  unfold Session.findByToken, bind, getDb, ret. cbn.
  rewrite find_app_last with (x := issued_session env w userId role r);
    [reflexivity| |].
  - apply find_none_all. intros x Hx.
    apply in_map_iff in Hx as [s [<- Hs]].
    unfold Session.authenticates. rewrite enforce_token.
    assert (s_token s <> jwt_sign env) as Hneq
        by (eapply token_free_not_in; eauto).
    apply String.eqb_neq in Hneq. now rewrite Hneq.
  - unfold Session.authenticates, issued_session. cbn.
    rewrite String.eqb_refl. cbn. apply Z.ltb_lt. unfold Utils.seven_days. lia.
Qed.

(** Alice's login with no secret configured, and with [jwt.sign]
    returning [jwt-2]. *)
Lemma generateToken_issues_token_and_tracks_best_effort_witness :
  Utils.generateToken_signed (env_at 9000%Z "jwt-2")
                             (Throw "secretOrPrivateKey must have a value")
                             1 "patient" (Some chrome_on_linux)
                             (world_of db_one_session)
  = (Throw "Failed to generate authentication token",
     world_of db_one_session)
  /\ exists w',
      Utils.generateToken_signed (env_at 9000%Z "jwt-2") (Ok "jwt-2")
                                 1 "patient" (Some chrome_on_linux)
                                 (world_of db_one_session)
      = (Ok "jwt-2", w')
      /\ map c_value (cookies w') = ["jwt-2"]
      /\ Session.findByToken (env_at 9000%Z "jwt-2") "jwt-2" w'
         = (Ok (Some (issued_session (env_at 9000%Z "jwt-2")
                                     (world_of db_one_session) 1 "patient"
                                     chrome_on_linux)), w').
Proof.
  destruct (generateToken_issues_token_and_tracks_best_effort
              (env_at 9000%Z "jwt-2") (world_of db_one_session) 1 "patient"
              (Some chrome_on_linux)) as [Hthrow [w' [Hrun [Hck [Hsome _]]]]].
  split; [apply Hthrow|].
  exists w'. split; [exact Hrun|]. split.
  - rewrite Hck. reflexivity.
  - apply (Hsome chrome_on_linux eq_refl); reflexivity.
Defined.

Lemma NoDup_snoc {A} (l : list A) x : NoDup l -> ~ In x l -> NoDup (l ++ [x]).
Proof.
  induction l as [|a l IH]; cbn; intros Hnd Hx.
  - constructor; [intros []|constructor].
  - inversion Hnd as [|? ? Ha Hl]; subst. constructor.
    + intros Hin. apply in_app_or in Hin as [Hin|[Hin|[]]]; [now apply Ha|].
      subst. apply Hx. now left.
    + apply IH; [exact Hl|]. intros Hin. apply Hx. now right.
Qed.

(** The unique index is an invariant of token issuance. *)
Lemma generateToken_keeps_unique_tokens env w userId role req :
  unique_tokens (sessions (db w)) ->
  unique_tokens (sessions (db (snd (Utils.generateToken env userId role req w)))).
Proof.
  intros Huniq. destruct req as [r|]; [|exact Huniq].
  unfold Utils.generateToken, Utils.generateToken_signed, tryCatch, bind, set_cookie, ret,
    Session.enforceSingleDevice, Session.createSession, bind,
    getDb, write, reject, ret. cbn.
  destruct (fails env (SessionUpdateMany userId (Utils.userTypeOfRole role)));
    cbn; [exact Huniq|].
  fold (enforce env userId (Utils.userTypeOfRole role)).
  assert (unique_tokens (map (enforce env userId (Utils.userTypeOfRole role))
                             (sessions (db w)))) as Huniq'
      by (unfold unique_tokens; now rewrite enforce_keeps_tokens).
  destruct (String.eqb (clientIp r) ""); cbn; [exact Huniq'|].
  rewrite existsb_token_enforce.
  destruct (existsb (fun s => String.eqb (s_token s) (jwt_sign env))
                    (sessions (db w))) eqn:E; cbn; [exact Huniq'|].
  destruct (fails env (SessionInsert (jwt_sign env))); cbn; [exact Huniq'|].
  unfold unique_tokens. rewrite map_app. cbn. apply NoDup_snoc; [exact Huniq'|].
  rewrite enforce_keeps_tokens. intros Hin.
  apply in_map_iff in Hin as [s [Hs Hin]].
  assert (existsb (fun s => String.eqb (s_token s) (jwt_sign env))
                  (sessions (db w)) = true) as C.
  { apply existsb_exists. exists s. split; [exact Hin|].
    now apply String.eqb_eq. }
  congruence.
Qed.

(** Alice's second login through the endpoint: the code is accepted,
    the answer is 200, her first session is revoked with the
    enforcement reason and the new one is the only active session. *)
Example second_login_through_verifyOTP :
  exists w',
    AuthController.verifyOTP
      (env_at 9000%Z "jwt-2") chrome_on_linux "alice@example.com" "482913"
      "patient" "login"
      (world_of (mkDb [] [alice] []
                      [mkOtp 5 "alice@example.com" "482913" "patient" "login"
                             false 0 608000%Z 8000%Z]
                      [live_session] []))
    = (Ok (mkResponse 200 true "Login successful" []), w')
    /\ map (fun s => (s_token s, s_isActive s, s_revokedReason s))
           (sessions (db w'))
       = [("jwt-1", false, Some Session.revoked_by_enforcement);
          ("jwt-2", true, None)]
    /\ map c_value (cookies w') = ["jwt-2"].
Proof.
  eexists. split; [vm_compute; reflexivity|]. split; reflexivity.
Qed.

(* ------------------------------------------------------------------ *)
(** * Audit logging is best effort *)

Lemma logAuthEvent_run env action email success userId userType reason w :
  exists o,
    Utils.logAuthEvent env action email success userId userType reason w
    = (Ok o, logged env (mkAuthLog userId userType email action success reason) w).
Proof.
  unfold Utils.logAuthEvent, AuthLog.logEvent, logged, log_event,
    tryCatch, bind, write, reject, record_event, ret.
  cbn [l_action l_email].
  destruct (OTP.in_enum action AuthLog.action_enum
            && negb (String.eqb email ""));
    [destruct (fails env (AuthLogInsert action))|];
    eexists; reflexivity.
Qed.

Lemma bind_logAuthEvent {B} env action email success userId userType reason
      (k : M B) w :
  bind (Utils.logAuthEvent env action email success userId userType reason)
       (fun _ => k) w
  = k (logged env (mkAuthLog userId userType email action success reason) w).
Proof.
  unfold bind.
  destruct (logAuthEvent_run env action email success userId userType reason w)
    as [o ->].
  reflexivity.
Qed.

Lemma logged_same_trust_state env e w : same_trust_state w (logged env e w).
Proof.
  unfold same_trust_state, logged.
  destruct (log_event env e); cbn; repeat split.
Qed.

Lemma logged_journal env e w :
  journal (logged env e w) = journal w ++ [log_event env e].
Proof. reflexivity. Qed.

Lemma logged_otps env e w : otps (db (logged env e w)) = otps (db w).
Proof. apply logged_same_trust_state. Qed.

Lemma log_event_is_audit env e : is_audit_write (log_event env e) = true.
Proof.
  unfold log_event.
  destruct (OTP.in_enum (l_action e) AuthLog.action_enum
            && negb (String.eqb (l_email e) ""));
    [destruct (fails env (AuthLogInsert (l_action e)))|]; reflexivity.
Qed.

Lemma log_event_not_user_save env e :
  attempts_user_save (log_event env e) = false.
Proof.
  unfold log_event.
  destruct (OTP.in_enum (l_action e) AuthLog.action_enum
            && negb (String.eqb (l_email e) ""));
    [destruct (fails env (AuthLogInsert (l_action e)))|]; reflexivity.
Qed.

(* ------------------------------------------------------------------ *)
(** * Password reset *)

Lemma marked_verified_all o l x :
  In x (OTP.replace_doc (OTP.set_verified true o) l) ->
  o_id x = o_id o -> o_verified x = true.
Proof.
  unfold OTP.replace_doc. rewrite in_map_iff. intros [y [Hy _]] Hid.
  cbn in Hy. destruct (Nat.eqb (o_id y) (o_id o)) eqn:E.
  - now subst x.
  - subst y. apply Nat.eqb_neq in E. contradiction.
Qed.

Lemma removed_none id l x : In x (OTP.remove_id id l) -> o_id x = id -> False.
Proof. intros H E. now apply remove_id_absent in H. Qed.

Lemma save_run env x w :
  AuthController.save env x w
  = if fails env (UserSave (AuthController.acc_model x) (AuthController.acc_id x))
    then (Throw "MongoError",
          record_event (Failed (UserSave (AuthController.acc_model x)
                                         (AuthController.acc_id x))) w)
    else (Ok tt,
          mkWorld (save_db x (db w))
                  (journal w ++ [Wrote (UserSave (AuthController.acc_model x)
                                                 (AuthController.acc_id x))])
                  (cookies w)).
Proof. destruct x; reflexivity. Qed.

Lemma save_db_otps x d : otps (save_db x d) = otps d.
Proof. destruct x; reflexivity. Qed.

(** C6.  Whenever a run of [resetPassword] gets as far as trying to
    write the account, the writes of that run begin with the save that
    marks the matched OTP record verified, directly followed by the
    account write.  Whether the account write succeeds or fails, and
    whatever happens after it, no record with the id of the matched one
    is left unverified in the collection. *)
Theorem resetPassword_verifies_otp_before_password_write :
  forall env w email otp password confirmPassword role r w',
    AuthController.resetPassword env email otp password confirmPassword role w
    = (r, w') ->
    existsb attempts_user_save (new_events w w') = true ->
    exists otpDoc e_save rest,
      find (AuthController.reset_otp_matches email otp) (otps (db w))
      = Some otpDoc
      /\ new_events w w'
         = Wrote (OtpSave (OTP.set_verified true otpDoc)) :: e_save :: rest
      /\ attempts_user_save e_save = true
      /\ (forall o, In o (otps (db w')) ->
                    o_id o = o_id otpDoc -> o_verified o = true).
Proof.
  intros env w email otp password confirmPassword role r w' Hrun Hsave.
  unfold new_events in *.
  revert Hrun. unfold AuthController.resetPassword, tryCatch.
  destruct (negb (String.eqb password confirmPassword)).
  { intros [= <- <-]. rewrite skipn_all in Hsave. discriminate. }
  destruct (negb (castable email && castable otp)).
  { unfold throw, ret. intros [= <- <-]. rewrite skipn_all in Hsave.
    discriminate. }
  unfold bind at 1. unfold getDb at 1. cbv beta iota.
  destruct (find (AuthController.reset_otp_matches email otp) (otps (db w)))
    as [otpDoc|] eqn:Hfind.
  2:{ rewrite bind_logAuthEvent. unfold ret. intros [= <- <-].
      cbn in Hsave. rewrite skipn_app_exact in Hsave. cbn in Hsave.
      rewrite log_event_not_user_save in Hsave. discriminate. }
  destruct (o_expiresAt otpDoc <? now env)%Z.
  { unfold bind at 1. unfold OTP.deleteOne, write.
    destruct (fails env (OtpDeleteOne (o_id otpDoc))).
    - unfold ret. intros [= <- <-]. cbn in Hsave.
      rewrite skipn_app_exact in Hsave. discriminate.
    - rewrite bind_logAuthEvent. unfold ret. intros [= <- <-]. cbn in Hsave.
      rewrite <- app_assoc, skipn_app_exact in Hsave. cbn in Hsave.
      rewrite log_event_not_user_save in Hsave. discriminate. }
  destruct (AuthController.findOneSent (AuthController.getUserModel role) email
                                       (db w))
    as [user|] eqn:Huser.
  2:{ unfold bind, OTP.deleteOne, write, ret.
      destruct (fails env (OtpDeleteOne (o_id otpDoc)));
        intros [= <- <-]; cbn in Hsave;
        rewrite skipn_app_exact in Hsave; discriminate. }
  unfold bind at 1. unfold OTP.markAsVerified at 1. unfold bind at 1.
  unfold OTP.save, reject, write, record_event.
  cbn [o_attempts o_id OTP.set_verified].
  destruct (3 <? o_attempts otpDoc)%nat.
  { unfold ret. intros [= <- <-]. cbn in Hsave.
    rewrite skipn_app_exact in Hsave. discriminate. }
  destruct (fails env (OtpSave _)).
  { unfold ret. intros [= <- <-]. cbn in Hsave.
    rewrite skipn_app_exact in Hsave. discriminate. }
  unfold ret at 1. cbv beta iota.
  unfold bind at 1. rewrite save_run. cbn [db journal cookies].
  destruct (fails env (UserSave _ _)).
  { unfold ret. intros [= <- <-]. cbn [db journal cookies record_event].
    exists otpDoc. do 2 eexists. split; [reflexivity|].
    rewrite <- app_assoc, skipn_app_exact. cbn [app].
    split; [reflexivity|]. split; [reflexivity|].
    intros o. cbn. apply marked_verified_all. }
  unfold bind at 1. unfold OTP.deleteOne, write. cbn [db journal cookies].
  destruct (fails env (OtpDeleteOne (o_id otpDoc))).
  { unfold ret. intros [= <- <-]. cbn [db journal cookies record_event].
    exists otpDoc. do 2 eexists. split; [reflexivity|].
    rewrite <- !app_assoc, skipn_app_exact. cbn [app].
    split; [reflexivity|]. split; [reflexivity|].
    intros o. rewrite save_db_otps. cbn. apply marked_verified_all. }
  rewrite bind_logAuthEvent. unfold ret. intros [= <- <-].
  exists otpDoc. do 2 eexists. split; [reflexivity|].
  rewrite logged_journal. cbn [db journal cookies].
  rewrite <- !app_assoc, skipn_app_exact. cbn [app].
  split; [reflexivity|]. split; [reflexivity|].
  intros o. rewrite logged_otps. cbn [db otps with_otps].
  rewrite save_db_otps. cbn. intros Ho Hid. exfalso.
  eapply removed_none; eauto.
Qed.

(** Alice submits the right code while account writes are refused: the
    request ends in a 500, her password is unchanged, and the OTP
    record stays behind verified. *)
Lemma resetPassword_verifies_otp_before_password_write_witness :
  exists otpDoc e_save rest,
    find (AuthController.reset_otp_matches "alice@example.com" "482913")
         [alice_reset_otp] = Some otpDoc
    /\ new_events
         (world_of db_alice_resetting)
         (snd (AuthController.resetPassword
                 (mkEnv 2000%Z "000000" "t" true false user_save_down)
                 "alice@example.com" "482913" "N3w!Passw" "N3w!Passw" "patient"
                 (world_of db_alice_resetting)))
       = Wrote (OtpSave (OTP.set_verified true otpDoc)) :: e_save :: rest
    /\ attempts_user_save e_save = true
    /\ (forall o,
           In o (otps (db (snd (AuthController.resetPassword
                                  (mkEnv 2000%Z "000000" "t" true false
                                         user_save_down)
                                  "alice@example.com" "482913" "N3w!Passw"
                                  "N3w!Passw" "patient"
                                  (world_of db_alice_resetting))))) ->
           o_id o = o_id otpDoc -> o_verified o = true).
Proof.
  apply (resetPassword_verifies_otp_before_password_write
           (mkEnv 2000%Z "000000" "t" true false user_save_down)
           (world_of db_alice_resetting)
           "alice@example.com" "482913" "N3w!Passw" "N3w!Passw" "patient"
           (fst (AuthController.resetPassword
                   (mkEnv 2000%Z "000000" "t" true false user_save_down)
                   "alice@example.com" "482913" "N3w!Passw" "N3w!Passw"
                   "patient" (world_of db_alice_resetting)))).
  - apply surjective_pairing.
  - vm_compute. reflexivity.
Defined.

Lemma same_trust_state_refl w : same_trust_state w w.
Proof. unfold same_trust_state. repeat split. Qed.

Lemma same_trust_state_trans w1 w2 w3 :
  same_trust_state w1 w2 -> same_trust_state w2 w3 -> same_trust_state w1 w3.
Proof.
  unfold same_trust_state.
  intros (A1 & A2 & A3 & A4 & A5 & A6) (B1 & B2 & B3 & B4 & B5 & B6).
  repeat split; congruence.
Qed.

(** A reset request whose code matches no unverified password-reset
    record of the address. *)
Lemma resetPassword_no_match env w (email otp : Sent)
      password confirmPassword role :
  find (AuthController.reset_otp_matches email otp) (otps (db w)) = None ->
  exists resp w',
    AuthController.resetPassword env email otp password confirmPassword role w
    = (Ok resp, w')
    /\ status resp
       = (if String.eqb password confirmPassword
          then if castable email && castable otp then 400 else 500
          else 400)
    /\ success resp = false
    /\ same_trust_state w w'
    /\ forallb is_audit_write (new_events w w') = true.
Proof.
  intros Hno.
  unfold AuthController.resetPassword, tryCatch, new_events.
  destruct (String.eqb password confirmPassword); cbn [negb].
  2:{ do 2 eexists. split; [reflexivity|]. cbn.
      split; [reflexivity|]. split; [reflexivity|].
      split; [apply same_trust_state_refl|].
      now rewrite skipn_all. }
  destruct (castable email && castable otp); cbn [negb].
  2:{ unfold throw, ret. do 2 eexists. split; [reflexivity|]. cbn.
      split; [reflexivity|]. split; [reflexivity|].
      split; [apply same_trust_state_refl|].
      now rewrite skipn_all. }
  unfold bind at 1. unfold getDb at 1. cbv beta iota. rewrite Hno.
  rewrite bind_logAuthEvent. unfold ret.
  do 2 eexists. split; [reflexivity|]. cbn [status success].
  split; [reflexivity|]. split; [reflexivity|].
  split; [apply logged_same_trust_state|].
  rewrite logged_journal, skipn_app_exact. cbn.
  now rewrite log_event_is_audit.
Qed.

(** C8, as stated, fails twice.  A wrong six-digit code for Alice is
    answered 400 and her account and pending code are untouched, but
    the database is not what it was: a [password_reset_failed] entry
    has been inserted.  And the body value [{ "$ne": "000000" }] is
    the code of no record, yet the filter built from it selects
    Alice's pending record: the request is answered 200 and her
    password is replaced. *)
Lemma resetPassword_inexact_code_changes_state :
  (exists resp w',
      AuthController.resetPassword (env_at 2000%Z "t") "alice@example.com"
                                   "000000" "N3w!Passw" "N3w!Passw" "patient"
                                   (world_of db_alice_resetting)
      = (Ok resp, w')
      /\ status resp = 400
      /\ authlogs (db w')
         = [mkAuthLog None None "alice@example.com" "password_reset_failed"
                      false (Some "Invalid or already used OTP")]
      /\ db w' <> db_alice_resetting
      /\ journal w' = [Wrote (AuthLogInsert "password_reset_failed")])
  /\ (forall code : string, not_equal "000000" <> Text code)
  /\ (exists resp w',
         AuthController.resetPassword (env_at 2000%Z "t") "alice@example.com"
                                      (not_equal "000000") "N3w!Passw"
                                      "N3w!Passw" "patient"
                                      (world_of db_alice_resetting)
         = (Ok resp, w')
         /\ status resp = 200
         /\ message resp = AuthController.msg_reset_done
         /\ patients (db w')
            = [AuthController.apply_reset 12 "N3w!Passw" 2000%Z alice]
         /\ otps (db w') = []).
Proof.
  split; [|split].
  - do 2 eexists. split; [vm_compute; reflexivity|].
    repeat split. discriminate.
  - intros code. discriminate.
  - do 2 eexists. split; [vm_compute; reflexivity|].
    repeat split.
Qed.

(** C8, amended.  When the filter
    [{ email, otp, purpose: 'password-reset', verified: false }],
    built from [email] and [otp] as the body has them, selects no
    record, [resetPassword] fails and leaves accounts, OTP records
    (their [attempts] included), sessions and cookies exactly as they
    were; the only write it attempts is the audit entry of the
    failure.  The answer is 400, except that a value which cannot be
    cast for the query ends in 500 once the two passwords agree.  This
    holds whatever the persistence layer does. *)
Theorem resetPassword_wrong_code_changes_nothing :
  forall env w (email otp : Sent) password confirmPassword role,
    (forall o, In o (otps (db w)) ->
               AuthController.reset_otp_matches email otp o = false) ->
    exists resp w',
      AuthController.resetPassword env email otp password confirmPassword role w
      = (Ok resp, w')
      /\ status resp
         = (if String.eqb password confirmPassword
            then if castable email && castable otp then 400 else 500
            else 400)
      /\ success resp = false
      /\ same_trust_state w w'
      /\ map o_attempts (otps (db w')) = map o_attempts (otps (db w))
      /\ forallb is_audit_write (new_events w w') = true.
Proof.
  intros env w email otp password confirmPassword role Hno.
  apply find_none_all in Hno.
  destruct (resetPassword_no_match env w email otp password confirmPassword
                                   role Hno)
    as (resp & w' & Hrun & Hst & Hsucc & Hsame & Haudit).
  exists resp, w'. repeat (split; [assumption|]).
  split; [|assumption].
  assert (otps (db w') = otps (db w)) as -> by apply Hsame. reflexivity.
Qed.

(** Alice's pending code is 482913.  The address is sent in capitals
    and with a trailing blank, which the filter removes; the code sent
    is wrong. *)
Lemma resetPassword_wrong_code_changes_nothing_witness :
  exists resp w',
    AuthController.resetPassword (env_at 2000%Z "t") "Alice@Example.com "
                                 "000000" "N3w!Passw" "N3w!Passw" "patient"
                                 (world_of db_alice_resetting)
    = (Ok resp, w')
    /\ status resp = 400
    /\ success resp = false
    /\ same_trust_state (world_of db_alice_resetting) w'
    /\ map o_attempts (otps (db w')) = [0]
    /\ forallb is_audit_write (new_events (world_of db_alice_resetting) w')
       = true.
Proof.
  apply (resetPassword_wrong_code_changes_nothing
           (env_at 2000%Z "t") (world_of db_alice_resetting)
           "Alice@Example.com " "000000" "N3w!Passw" "N3w!Passw" "patient").
  intros o [<-|[]]. reflexivity.
Defined.

(** Wrong guesses can be repeated: a series of reset requests, none of
    which carries the code of an unverified record, is answered 400
    each time and leaves the trust state as it was. *)
Lemma resetPassword_series_of_wrong_codes (email password role : string)
      (tries : list (Env * string)) :
  forall w,
    (forall env otp o,
        In (env, otp) tries -> In o (otps (db w)) ->
        AuthController.reset_otp_matches email otp o = false) ->
    fst (resetPassword_series email password role tries w)
    = repeat 400 (length tries)
    /\ same_trust_state w (snd (resetPassword_series email password role tries w)).
Proof.
  induction tries as [|[env otp] tl IH]; intros w Hno; cbn.
  - split; [reflexivity|apply same_trust_state_refl].
  - destruct (resetPassword_no_match env w email otp password password role)
      as (resp & w1 & Hrun & Hst & _ & Hsame & _).
    { apply find_none_all. intros o Ho.
      eapply Hno; [left; reflexivity|exact Ho]. }
    rewrite Hrun.
    assert (otps (db w1) = otps (db w)) as Hotps by apply Hsame.
    destruct (IH w1) as [Hs Hk].
    { intros env' otp' o Hin Ho. rewrite Hotps in Ho.
      eapply Hno; [right; exact Hin|exact Ho]. }
    destruct (resetPassword_series email password role tl w1) as [sts w2].
    rewrite String.eqb_refl in Hst.
    cbn in *. split; [now rewrite Hst, Hs|].
    eapply same_trust_state_trans; eauto.
Qed.

(* ------------------------------------------------------------------ *)
(** * OTP verification at the endpoint *)

Lemma verifyOTP_success_run env w email otp purpose rec :
  OTP.findOne_unverified email purpose (db w) = Some rec ->
  OTP.isExpired env rec = false ->
  OTP.canAttempt rec = true ->
  o_otp rec = otp ->
  fails env (OtpSave (OTP.set_verified true rec)) = false ->
  OTP.verifyOTP env email otp purpose w
  = (Ok (OTP.mkVerification true OTP.msg_verified
                            (Some (OTP.set_verified true rec))),
     mkWorld (with_otps (OTP.replace_doc (OTP.set_verified true rec)) (db w))
             (journal w ++ [Wrote (OtpSave (OTP.set_verified true rec))])
             (cookies w)).
Proof.
  intros Hfind Hexp Hcan Hcode Hok.
  unfold OTP.verifyOTP, bind, getDb. rewrite Hfind, Hexp, Hcan. cbn [negb].
  rewrite <- Hcode, String.eqb_refl. cbn [negb].
  unfold OTP.markAsVerified, OTP.save, bind, write, ret.
  cbn [o_attempts OTP.set_verified].
  unfold OTP.canAttempt in Hcan. apply Nat.ltb_lt in Hcan.
  assert ((3 <? o_attempts rec)%nat = false) as -> by (apply Nat.ltb_ge; lia).
  now rewrite Hok.
Qed.

Lemma verifyOTP_not_found_run env w email otp purpose :
  OTP.findOne_unverified email purpose (db w) = None ->
  OTP.verifyOTP env email otp purpose w
  = (Ok (OTP.mkVerification false OTP.msg_not_found None), w).
Proof.
  intros Hfind. unfold OTP.verifyOTP, bind, getDb. now rewrite Hfind.
Qed.

Lemma set_verified_not_pending email purpose o :
  OTP.unverified_for email purpose (OTP.set_verified true o) = false.
Proof. unfold OTP.unverified_for. cbn. apply andb_false_r. Qed.

Lemma sole_pending_consumed email purpose rec l :
  filter (OTP.unverified_for email purpose) l = [rec] ->
  filter (OTP.unverified_for email purpose)
         (OTP.replace_doc (OTP.set_verified true rec) l) = [].
Proof.
  intros Hone.
  assert (forall x, In x l -> OTP.unverified_for email purpose x = true ->
                    x = rec) as Honly.
  { intros x Hx Hp.
    assert (In x (filter (OTP.unverified_for email purpose) l)) as H
        by (apply filter_In; now split).
    rewrite Hone in H. destruct H as [H|[]]. now symmetry. }
  clear Hone. unfold OTP.replace_doc.
  induction l as [|x l IH]; cbn; [reflexivity|].
  cbn [o_id OTP.set_verified].
  destruct (Nat.eqb (o_id x) (o_id rec)) eqn:E.
  - rewrite set_verified_not_pending. apply IH.
    intros y Hy. apply Honly. now right.
  - destruct (OTP.unverified_for email purpose x) eqn:P.
    + assert (x = rec) by (apply Honly; [now left|exact P]). subst x.
      rewrite Nat.eqb_refl in E. discriminate.
    + apply IH. intros y Hy. apply Honly. now right.
Qed.

(** C9, as stated, fails for a record that is no longer valid.  The
    pending login code of an address without account ran out at
    [t = 601000]; the right code submitted at [t = 700000] is answered
    400 with the expired message, not 404, and the record is deleted,
    not marked verified. *)
Lemma verifyOTP_expired_code_without_account :
  exists w',
    AuthController.verifyOTP (env_at 700000%Z "t") chrome_on_linux
                             "ghost@example.com" "482913" "patient" "login"
                             (world_of (mkDb [] [alice] [] [orphan_otp] [] []))
    = (Ok (mkResponse 400 false OTP.msg_expired []), w')
    /\ otps (db w') = [].
Proof.
  eexists. split; [vm_compute; reflexivity|reflexivity].
Qed.

(** C9, amended.  The address has exactly one unverified record for the
    purpose, still valid (unexpired, attempts left), and the request
    carries its code; the collection of the requested role has no
    account with that address.  The endpoint answers 404 [User not
    found], yet the record has been marked verified, and the same
    request sent again, at any later time, is answered 400 with the
    OTP-not-found message. *)
Theorem verifyOTP_consumes_otp_before_user_lookup :
  forall env env2 w req email otp role purpose rec,
    filter (OTP.unverified_for email purpose) (otps (db w)) = [rec] ->
    o_otp rec = otp ->
    OTP.isExpired env rec = false ->
    OTP.canAttempt rec = true ->
    find (AuthController.has_email email)
         (AuthController.collection (AuthController.doctorOrPatient role) (db w))
    = None ->
    fails env (OtpSave (OTP.set_verified true rec)) = false ->
    exists w1 w2,
      AuthController.verifyOTP env req email otp role purpose w
      = (Ok (mkResponse 404 false "User not found" []), w1)
      /\ otps (db w1)
         = OTP.replace_doc (OTP.set_verified true rec) (otps (db w))
      /\ (forall o, In o (otps (db w1)) ->
                    o_id o = o_id rec -> o_verified o = true)
      /\ AuthController.verifyOTP env2 req email otp role purpose w1
         = (Ok (mkResponse 400 false OTP.msg_not_found []), w2).
Proof.
  intros env env2 w req email otp role purpose rec
         Hone Hcode Hexp Hcan Huser Hok.
  assert (OTP.findOne_unverified email purpose (db w) = Some rec) as Hfind
      by (unfold OTP.findOne_unverified; now rewrite Hone).
  do 2 eexists. split; [|split; [|split]].
  - unfold AuthController.verifyOTP, tryCatch. unfold bind at 1.
    rewrite (verifyOTP_success_run env w email otp purpose rec
                                   Hfind Hexp Hcan Hcode Hok).
    cbn [OTP.success negb]. unfold bind at 1. unfold getDb at 1.
    cbv beta iota. cbn [db].
    replace (AuthController.collection (AuthController.doctorOrPatient role)
               (with_otps (OTP.replace_doc (OTP.set_verified true rec)) (db w)))
      with (AuthController.collection (AuthController.doctorOrPatient role)
                                      (db w))
      by (destruct (AuthController.doctorOrPatient role); reflexivity).
    rewrite Huser. reflexivity.
  - reflexivity.
  - intros o. cbn. apply marked_verified_all.
  - unfold AuthController.verifyOTP, tryCatch. unfold bind at 1.
    rewrite verifyOTP_not_found_run.
    + cbn [OTP.success OTP.message negb]. rewrite bind_logAuthEvent.
      reflexivity.
    + unfold OTP.findOne_unverified. cbn [db otps with_otps].
      now rewrite (sole_pending_consumed email purpose rec _ Hone).
Qed.

Lemma verifyOTP_consumes_otp_before_user_lookup_witness :
  exists w1 w2,
    AuthController.verifyOTP (env_at 2000%Z "t") chrome_on_linux
                             "ghost@example.com" "482913" "patient" "login"
                             (world_of (mkDb [] [alice] [] [orphan_otp] [] []))
    = (Ok (mkResponse 404 false "User not found" []), w1)
    /\ otps (db w1) = [OTP.set_verified true orphan_otp]
    /\ (forall o, In o (otps (db w1)) -> o_id o = 3 -> o_verified o = true)
    /\ AuthController.verifyOTP (env_at 3000%Z "t") chrome_on_linux
                                "ghost@example.com" "482913" "patient" "login"
                                w1
       = (Ok (mkResponse 400 false OTP.msg_not_found []), w2).
Proof.
  apply (verifyOTP_consumes_otp_before_user_lookup
           (env_at 2000%Z "t") (env_at 3000%Z "t")
           (world_of (mkDb [] [alice] [] [orphan_otp] [] []))
           chrome_on_linux "ghost@example.com" "482913" "patient" "login"
           orphan_otp); reflexivity.
Defined.

(* ------------------------------------------------------------------ *)
(** * Registration *)

Lemma find_none_existsb {A} (p : A -> bool) l :
  find p l = None -> existsb p l = false.
Proof.
  induction l as [|a l IH]; cbn; [reflexivity|].
  destruct (p a); [discriminate|exact IH].
Qed.

(** An address held by a doctor or a patient is refused, whatever
    else the body carries. *)
Lemma register_duplicate_run env w name email password role additionalData :
  find (AuthController.has_email email) (doctors (db w)) <> None
  \/ find (AuthController.has_email email) (patients (db w)) <> None ->
  AuthController.register env name email password role additionalData w
  = (Ok (mkResponse 400 false AuthController.msg_duplicate []),
     logged env (mkAuthLog None None email "register" false
                           (Some "Email already registered")) w).
Proof.
  intros H. unfold AuthController.register, tryCatch.
  unfold bind at 1. unfold getDb at 1. cbv beta iota.
  destruct (find (AuthController.has_email email) (doctors (db w))) as [d|];
    destruct (find (AuthController.has_email email) (patients (db w))) as [p|];
    try (rewrite bind_logAuthEvent; reflexivity).
  destruct H as [H|H]; now elim H.
Qed.

Lemma no_id_existsb i l :
  (forall u, In u l -> u_id u <> i) ->
  existsb (fun u => Nat.eqb (u_id u) i) l = false.
Proof.
  intros H. induction l as [|a l IH]; cbn; [reflexivity|].
  rewrite IH by (intros u Hu; apply H; now right).
  assert (u_id a <> i) as Ha by (apply H; now left).
  apply Nat.eqb_neq in Ha. now rewrite Ha.
Qed.

(** The insert of [register] when validation and both unique indexes
    let it through. *)
Lemma insertUser_run env w c name email password additionalData :
  ad_valid additionalData = true ->
  existsb (AuthController.has_email email) (AuthController.collection c (db w))
  = false ->
  (forall i, ad_id additionalData = Some i ->
             forall u, In u (AuthController.collection c (db w)) ->
                       u_id u <> i) ->
  fails env (UserInsert c email) = false ->
  AuthController.insertUser env c name email password additionalData w
  = (Ok (inserted_user c name email password additionalData (db w)),
     mkWorld
       (match c with
        | Doctor => with_doctors
        | _ => with_patients
        end
          (fun l =>
             l ++ [inserted_user c name email password additionalData (db w)])
          (db w))
       (journal w ++ [Wrote (UserInsert c email)]) (cookies w)).
Proof.
  intros Hv Hnew Hid Hf.
  unfold AuthController.insertUser, bind, getDb, write, ret.
  rewrite Hv, Hnew. cbn [negb].
  assert (match ad_id additionalData with
          | Some i => existsb (fun u => Nat.eqb (u_id u) i)
                              (AuthController.collection c (db w))
          | None => false
          end = false) as ->.
  { destruct (ad_id additionalData) as [i|] eqn:E; [|reflexivity].
    apply no_id_existsb. now apply Hid. }
  rewrite Hf. unfold inserted_user. now destruct c.
Qed.

Lemma find_has_email_some email l u :
  In u l -> u_email u = email ->
  find (AuthController.has_email email) l <> None.
Proof.
  intros Hin He Hnone.
  pose proof (find_none _ _ Hnone u Hin) as H.
  unfold AuthController.has_email in H. rewrite He, String.eqb_refl in H.
  discriminate.
Qed.

Lemma find_has_email_none email l :
  (forall u, In u l -> u_email u <> email) ->
  find (AuthController.has_email email) l = None.
Proof.
  intros H. apply find_none_all. intros u Hu.
  unfold AuthController.has_email. apply String.eqb_neq. now apply H.
Qed.

(** An address held by no doctor and no patient is accepted, whatever
    the admins collection holds, when the rest of the body passes the
    schema. *)
Lemma register_fresh_run env w name email password role additionalData :
  find (AuthController.has_email email) (doctors (db w)) = None ->
  find (AuthController.has_email email) (patients (db w)) = None ->
  role = "doctor" \/ role = "patient" ->
  (forall op, fails env op = false) ->
  ad_valid additionalData = true ->
  (forall i, ad_id additionalData = Some i ->
             forall u, In u (AuthController.collection
                               (AuthController.doctorOrPatient role) (db w)) ->
                       u_id u <> i) ->
  exists resp w',
    AuthController.register env name email password role additionalData w
    = (Ok resp, w')
    /\ status resp = 201
    /\ AuthController.collection (AuthController.doctorOrPatient role) (db w')
       = AuthController.collection (AuthController.doctorOrPatient role) (db w)
         ++ [inserted_user (AuthController.doctorOrPatient role) name email
                           password additionalData (db w)]
    /\ admins (db w') = admins (db w).
Proof.
  intros Hd Hp Hrole Hok Hv Hid.
  unfold AuthController.register, tryCatch.
  unfold bind at 1. unfold getDb at 1. cbv beta iota. rewrite Hd, Hp.
  unfold bind at 1.
  rewrite (insertUser_run env w (AuthController.doctorOrPatient role)
             name email password additionalData Hv);
    [|destruct Hrole as [-> | ->]; cbn; now apply find_none_existsb
     |exact Hid|apply Hok].
  set (u := inserted_user _ _ _ _ _ _).
  unfold bind at 1. unfold OTP.createOTP; unfold bind at 1.
  unfold OTP.deleteMany, write at 1; rewrite Hok; cbv beta iota.
  unfold bind at 1; unfold OTP.create.
  assert (OTP.in_enum role OTP.role_enum = true) as ->
    by (destruct Hrole as [-> | ->]; reflexivity).
  cbn [OTP.in_enum OTP.purpose_enum existsb String.eqb
       Ascii.eqb Bool.eqb andb orb].
  unfold bind at 1; unfold getDb at 1; cbv beta iota.
  unfold bind at 1; unfold write at 1; rewrite Hok; unfold ret at 1 2.
  cbv beta iota.
  destruct (negb (mail_ok env)).
  - unfold ret. do 2 eexists. split; [reflexivity|]. cbn [status].
    split; [reflexivity|].
    destruct Hrole as [-> | ->]; cbn; destruct (db w); cbn; split; reflexivity.
  - rewrite bind_logAuthEvent. unfold ret.
    do 2 eexists. split; [reflexivity|]. cbn [status].
    split; [reflexivity|].
    match goal with
    | |- context [logged env ?e _] => destruct (log_event env e) eqn:E
    end;
      unfold logged; rewrite E; cbn [db];
      destruct Hrole as [-> | ->]; cbn; destruct (db w); cbn;
      split; reflexivity.
Qed.

(** C5, as stated, fails.  The address of an administrator is in no
    doctor or patient document; a patient registration under that
    address is answered 201 and the account is created. *)
Lemma register_accepts_admin_address :
  exists resp w',
    AuthController.register (env_at 1000%Z "t") "Mallory" "root@hc.io"
                            "Str0ng!Pw" "patient" no_additional
                            (world_of db_admin_only)
    = (Ok resp, w')
    /\ status resp = 201
    /\ success resp = true
    /\ map a_email (admins (db w')) = ["root@hc.io"]
    /\ map u_email (patients (db w')) = ["root@hc.io"].
Proof.
  do 2 eexists. split; [vm_compute; reflexivity|].
  repeat split.
Qed.

(** C5, amended.  Registration checks the Doctor and the Patient
    collections, both of them whatever role is requested and whatever
    else the body carries.  An address found in either is refused with
    400 and nothing but the audit log changes.  The Admin collection
    is not consulted: an address found in neither of the two is
    accepted with 201 and the account is created in the collection of
    the role, provided the rest of the body passes the schema, brings
    no [_id] already in use and the writes are accepted.  The account
    is unverified unless the body says otherwise: keys of the body
    such as [isEmailVerified] are copied into the document. *)
Theorem register_unique_across_doctors_and_patients :
  forall env w name email password role additionalData,
    ((exists u, In u (doctors (db w) ++ patients (db w)) /\ u_email u = email) ->
     exists w',
       AuthController.register env name email password role additionalData w
       = (Ok (mkResponse 400 false AuthController.msg_duplicate []), w')
       /\ same_trust_state w w')
    /\ ((forall u, In u (doctors (db w) ++ patients (db w)) ->
                   u_email u <> email) ->
        role = "doctor" \/ role = "patient" ->
        (forall op, fails env op = false) ->
        ad_valid additionalData = true ->
        (forall i, ad_id additionalData = Some i ->
                   forall u, In u (AuthController.collection
                                     (AuthController.doctorOrPatient role)
                                     (db w)) ->
                             u_id u <> i) ->
        exists resp w' u,
          AuthController.register env name email password role additionalData w
          = (Ok resp, w')
          /\ status resp = 201
          /\ AuthController.collection
               (AuthController.doctorOrPatient role) (db w')
             = AuthController.collection
                 (AuthController.doctorOrPatient role) (db w) ++ [u]
          /\ u_email u = email
          /\ u_isEmailVerified u
             = match ad_isEmailVerified additionalData with
               | Some b => b
               | None => false
               end
          /\ admins (db w') = admins (db w)).
Proof.
  intros env w name email password role additionalData. split.
  - intros [u [Hin He]]. eexists. split.
    + apply register_duplicate_run.
      apply in_app_or in Hin as [Hin|Hin];
        [left|right]; eapply find_has_email_some; eauto.
    + apply logged_same_trust_state.
  - intros Hnone Hrole Hok Hv Hid.
    assert (Hd : find (AuthController.has_email email) (doctors (db w)) = None)
      by (apply find_has_email_none; intros u Hu; apply Hnone;
          apply in_or_app; now left).
    assert (Hp : find (AuthController.has_email email) (patients (db w)) = None)
      by (apply find_has_email_none; intros u Hu; apply Hnone;
          apply in_or_app; now right).
    destruct (register_fresh_run env w name email password role
                                 additionalData Hd Hp Hrole Hok Hv Hid)
      as (resp & w' & Hrun & Hst & Hcoll & Hadm).
    exists resp, w'. eexists. split; [exact Hrun|]. split; [exact Hst|].
    split; [exact Hcoll|]. split; [reflexivity|]. split; [reflexivity|].
    exact Hadm.
Qed.

(** Eve registers as a doctor under the address of the patient Alice
    and is refused.  Mallory registers as a patient under the address
    of an administrator, with [isEmailVerified: true] in the body, and
    gets a verified account. *)
Lemma register_unique_across_doctors_and_patients_witness :
  (exists w',
      AuthController.register (env_at 1000%Z "t") "Eve" "alice@example.com"
                              "Str0ng!Pw" "doctor" no_additional
                              (world_of db_alice)
      = (Ok (mkResponse 400 false AuthController.msg_duplicate []), w')
      /\ same_trust_state (world_of db_alice) w')
  /\ (exists resp w' u,
         AuthController.register (env_at 1000%Z "t") "Mallory" "root@hc.io"
                                 "Str0ng!Pw" "patient" verified_in_body
                                 (world_of db_admin_only)
         = (Ok resp, w')
         /\ status resp = 201
         /\ patients (db w') = [u]
         /\ u_email u = "root@hc.io"
         /\ u_isEmailVerified u = true
         /\ admins (db w') = [root_admin]).
Proof.
  split.
  - apply (proj1 (register_unique_across_doctors_and_patients
                    (env_at 1000%Z "t") (world_of db_alice) "Eve"
                    "alice@example.com" "Str0ng!Pw" "doctor" no_additional)).
    exists alice. split; [now left|reflexivity].
  - apply (proj2 (register_unique_across_doctors_and_patients
                    (env_at 1000%Z "t") (world_of db_admin_only) "Mallory"
                    "root@hc.io" "Str0ng!Pw" "patient" verified_in_body)).
    + intros u [].
    + now right.
    + reflexivity.
    + reflexivity.
    + intros i [=].
Defined.

(* ------------------------------------------------------------------ *)
(** * Forgotten passwords and the lifetime limit *)

Lemma forgotPassword_unknown_run env w email role :
  AuthController.findOne (AuthController.getUserModel role) email (db w) = None ->
  AuthController.forgotPassword env email role w
  = (Ok (mkResponse 400 false AuthController.msg_generic_reset []),
     logged env (mkAuthLog None None email "password_reset_request" false
                           (Some "User not found")) w).
Proof.
  intros H. unfold AuthController.forgotPassword, tryCatch.
  unfold bind at 1. unfold getDb at 1. cbv beta iota. rewrite H.
  now rewrite bind_logAuthEvent.
Qed.

(** The limit: with the counter at one or more, the answer is 403 at
    any time, and nothing but the audit log changes. *)
Lemma forgotPassword_limit_run env w email role user :
  AuthController.findOne (AuthController.getUserModel role) email (db w)
  = Some user ->
  AuthController.resetLimitReached user = true ->
  AuthController.forgotPassword env email role w
  = (Ok (mkResponse 403 false AuthController.msg_reset_limit
                    [("resetLimitReached", "true")]),
     logged env (mkAuthLog (Some (AuthController.acc_id user))
                           (Some (AuthController.getUserType role)) email
                           "password_reset_request" false
                           (Some "Password reset limit exceeded (lifetime limit: 1)"))
            w).
Proof.
  intros H Hlim. unfold AuthController.forgotPassword, tryCatch.
  unfold bind at 1. unfold getDb at 1. cbv beta iota. rewrite H, Hlim.
  now rewrite bind_logAuthEvent.
Qed.

Lemma resetLimitReached_counter user n :
  AuthController.acc_passwordResetCount user = Some n ->
  AuthController.resetLimitReached user = (1 <=? n)%nat.
Proof.
  intros H. unfold AuthController.resetLimitReached. rewrite H.
  destruct n; reflexivity.
Qed.

(** An Admin document has no counter, so the limit never applies to it. *)
Lemma resetLimitReached_admin a :
  AuthController.resetLimitReached (AdminAcc a) = false.
Proof. reflexivity. Qed.

Lemma apply_reset_increments rounds password t u :
  u_passwordResetCount (AuthController.apply_reset rounds password t u)
  = u_passwordResetCount u + 1.
Proof. reflexivity. Qed.

(** The other account writes of the endpoints leave the counter alone. *)
Lemma account_updates_keep_counter t u :
  u_passwordResetCount (AuthController.set_emailVerified t u)
  = u_passwordResetCount u
  /\ u_passwordResetCount (AuthController.set_lastLogin t u)
     = u_passwordResetCount u.
Proof. split; reflexivity. Qed.

Lemma find_replace_user email l u u' :
  find (AuthController.has_email email) l = Some u ->
  u_id u' = u_id u -> u_email u' = email ->
  find (AuthController.has_email email) (AuthController.replace_user u' l)
  = Some u'.
Proof.
  intros Hfind Hid Hem. unfold AuthController.replace_user.
  assert (AuthController.has_email email u' = true) as Hu'
      by (unfold AuthController.has_email; rewrite Hem; apply String.eqb_refl).
  induction l as [|x l IH]; cbn in *; [discriminate|].
  destruct (Nat.eqb (u_id x) (u_id u')) eqn:E.
  - now rewrite Hu'.
  - destruct (AuthController.has_email email x) eqn:P.
    + injection Hfind as ->. rewrite Hid, Nat.eqb_refl in E. discriminate.
    + now apply IH.
Qed.

(** An address sent as the schema stores it is looked up as it is. *)
Lemma findOneSent_stored c (email : string) d :
  c <> Admin ->
  apply_setters LowercaseTrim email = email ->
  AuthController.findOneSent c email d = AuthController.findOne c email d.
Proof.
  intros Hc Hnorm.
  unfold AuthController.findOneSent, AuthController.findOne, selects.
  rewrite Hnorm. destruct c; [reflexivity..|now elim Hc].
Qed.

(** The run of a reset that goes through. *)
Lemma resetPassword_success_run env w (email otp : Sent) password role
      otpDoc user :
  find (AuthController.reset_otp_matches email otp) (otps (db w)) = Some otpDoc ->
  (o_expiresAt otpDoc <? now env)%Z = false ->
  o_attempts otpDoc <= 3 ->
  castable email && castable otp = true ->
  AuthController.findOneSent (AuthController.getUserModel role) email (db w)
  = Some user ->
  (forall op, fails env op = false) ->
  exists w',
    AuthController.resetPassword env email otp password password role w
    = (Ok (mkResponse 200 true AuthController.msg_reset_done []), w')
    /\ doctors (db w')
       = doctors (save_db (AuthController.reset_account password (now env) user)
                          (db w))
    /\ patients (db w')
       = patients (save_db (AuthController.reset_account password (now env) user)
                           (db w))
    /\ admins (db w')
       = admins (save_db (AuthController.reset_account password (now env) user)
                         (db w))
    /\ otps (db w') = OTP.remove_id (o_id otpDoc)
                        (OTP.replace_doc (OTP.set_verified true otpDoc)
                                         (otps (db w))).
Proof.
  intros Hfind Hexp Hatt Hcast Huser Hok.
  unfold AuthController.resetPassword, tryCatch.
  rewrite String.eqb_refl, Hcast. cbn [negb].
  unfold bind at 1. unfold getDb at 1. cbv beta iota.
  rewrite Hfind, Hexp, Huser.
  unfold bind at 1. unfold OTP.markAsVerified at 1. unfold bind at 1.
  unfold OTP.save, write. cbn [o_attempts OTP.set_verified].
  assert ((3 <? o_attempts otpDoc)%nat = false) as -> by (apply Nat.ltb_ge; lia).
  rewrite Hok. unfold ret at 1. cbv beta iota.
  unfold bind at 1. rewrite save_run, Hok.
  unfold bind at 1. unfold OTP.deleteOne, write. rewrite Hok.
  rewrite bind_logAuthEvent. unfold ret.
  eexists. split; [reflexivity|].
  match goal with
  | |- context [logged env ?e ?w0] =>
      destruct (logged_same_trust_state env e w0) as (A1 & A2 & A3 & A4 & _)
  end.
  rewrite A1, A2, A3, A4. cbn [db].
  destruct user; cbn; repeat split.
Qed.

(** For doctors and patients the limit works as specified: a reset
    that goes through raises the stored counter by one, and from then
    on [forgotPassword] for that address and role answers 403, at any
    time, changing nothing but the audit log. *)
Lemma lifetime_limit_after_reset env env' w (email otp : string) password role
      otpDoc u :
  role = "doctor" \/ role = "patient" ->
  apply_setters LowercaseTrim email = email ->
  find (AuthController.reset_otp_matches email otp) (otps (db w)) = Some otpDoc ->
  (o_expiresAt otpDoc <? now env)%Z = false ->
  o_attempts otpDoc <= 3 ->
  find (AuthController.has_email email)
       (AuthController.collection (AuthController.getUserModel role) (db w))
  = Some u ->
  (forall op, fails env op = false) ->
  exists w1 w2 u',
    AuthController.resetPassword env email otp password password role w
    = (Ok (mkResponse 200 true AuthController.msg_reset_done []), w1)
    /\ find (AuthController.has_email email)
            (AuthController.collection (AuthController.getUserModel role)
                                       (db w1)) = Some u'
    /\ u_passwordResetCount u' = u_passwordResetCount u + 1
    /\ AuthController.forgotPassword env' email role w1
       = (Ok (mkResponse 403 false AuthController.msg_reset_limit
                         [("resetLimitReached", "true")]), w2)
    /\ same_trust_state w1 w2.
Proof.
  intros Hrole Hnorm Hfind Hexp Hatt Hu Hok.
  destruct Hrole as [-> | ->]; cbn in Hu.
  - destruct (resetPassword_success_run env w email otp password "doctor"
                otpDoc (DoctorAcc u) Hfind Hexp Hatt eq_refl)
      as (w1 & Hrun & Hd & _ & _ & _);
      [rewrite findOneSent_stored by (discriminate || exact Hnorm);
       cbn; now rewrite Hu|exact Hok|].
    cbn in Hd.
    assert (find (AuthController.has_email email) (doctors (db w1))
            = Some (AuthController.apply_reset 14 password (now env) u)) as Hf.
    { rewrite Hd. apply find_replace_user with (u := u); auto.
      cbn. apply find_some in Hu as [_ Hu].
      now apply String.eqb_eq in Hu. }
    eexists w1, _, _. split; [exact Hrun|]. cbn.
    split; [exact Hf|]. split; [reflexivity|].
    split; [|apply logged_same_trust_state].
    apply forgotPassword_limit_run with
      (user := DoctorAcc (AuthController.apply_reset 14 password (now env) u)).
    + cbn. now rewrite Hf.
    + cbn. rewrite Nat.add_1_r. reflexivity.
  - destruct (resetPassword_success_run env w email otp password "patient"
                otpDoc (PatientAcc u) Hfind Hexp Hatt eq_refl)
      as (w1 & Hrun & _ & Hp & _ & _);
      [rewrite findOneSent_stored by (discriminate || exact Hnorm);
       cbn; now rewrite Hu|exact Hok|].
    cbn in Hp.
    assert (find (AuthController.has_email email) (patients (db w1))
            = Some (AuthController.apply_reset 12 password (now env) u)) as Hf.
    { rewrite Hp. apply find_replace_user with (u := u); auto.
      cbn. apply find_some in Hu as [_ Hu].
      now apply String.eqb_eq in Hu. }
    eexists w1, _, _. split; [exact Hrun|]. cbn.
    split; [exact Hf|]. split; [reflexivity|].
    split; [|apply logged_same_trust_state].
    apply forgotPassword_limit_run with
      (user := PatientAcc (AuthController.apply_reset 12 password (now env) u)).
    + cbn. now rewrite Hf.
    + cbn. rewrite Nat.add_1_r. reflexivity.
Qed.

(** For the admin role [forgotPassword] never answers 403: the only
    outcomes are the 400 of an unknown address and the 500 of a failed
    request. *)
Lemma forgotPassword_admin_never_limited env w email role :
  AuthController.getUserModel role = Admin ->
  exists resp w',
    AuthController.forgotPassword env email role w = (Ok resp, w')
    /\ (status resp = 400 \/ status resp = 500).
Proof.
  intros Hrole.
  assert (OTP.in_enum role OTP.role_enum = false) as Henum.
  { unfold AuthController.getUserModel in Hrole. unfold OTP.in_enum. cbn.
    destruct (String.eqb role "doctor"); [discriminate|].
    destruct (String.eqb role "patient"); [discriminate|]. reflexivity. }
  unfold AuthController.forgotPassword, tryCatch.
  unfold bind at 1. unfold getDb at 1. cbv beta iota. rewrite Hrole.
  unfold AuthController.findOne.
  destruct (find (fun a => String.eqb (a_email a) email) (admins (db w)))
    as [a|]; cbn [option_map].
  - rewrite resetLimitReached_admin.
    unfold bind at 1. unfold OTP.deleteMany, write.
    destruct (fails env (OtpDeleteMany email "password-reset")).
    + do 2 eexists. split; [reflexivity|]. now right.
    + unfold bind at 1. unfold OTP.create. rewrite Henum. cbn [andb].
      unfold reject. do 2 eexists. split; [reflexivity|]. now right.
  - rewrite bind_logAuthEvent. do 2 eexists. split; [reflexivity|]. now left.
Qed.

(** C2 at the admin role.  Mallory holds a patient account under the
    address of the administrator Root.  A reset code requested for the
    patient account is accepted by [resetPassword] with role [admin]:
    the answer is 200 and Root's password is replaced, but the stored
    admin document carries no counter, and the next [forgotPassword]
    for Root is answered 500, not 403. *)
Theorem admin_reset_is_not_counted :
  exists w1 w2 w3,
    AuthController.forgotPassword (env_at 1000%Z "t") "root@hc.io" "patient"
                                  (world_of db_shared_address)
    = (Ok (mkResponse 200 true AuthController.msg_reset_sent
                      [("email", "root@hc.io")]), w1)
    /\ AuthController.resetPassword (env_at 2000%Z "t") "root@hc.io" "482913"
                                    "N3w!Passw" "N3w!Passw" "admin" w1
       = (Ok (mkResponse 200 true AuthController.msg_reset_done []), w2)
    /\ admins (db w2)
       = [mkAdmin 1 "Root" "root@hc.io" (Bcrypt 12 "N3w!Passw") "super_admin"
                  true None None]
    /\ AuthController.findOne Admin "root@hc.io" (db w2)
       = Some (AdminAcc (mkAdmin 1 "Root" "root@hc.io" (Bcrypt 12 "N3w!Passw")
                                 "super_admin" true None None))
    /\ AuthController.acc_passwordResetCount
         (AdminAcc (mkAdmin 1 "Root" "root@hc.io" (Bcrypt 12 "N3w!Passw")
                            "super_admin" true None None)) = None
    /\ AuthController.forgotPassword (env_at 900000000%Z "t") "root@hc.io"
                                     "admin" w2
       = (Ok (mkResponse 500 false "ValidationError" []), w3).
Proof.
  do 3 eexists.
  split; [vm_compute; reflexivity|].
  split; [vm_compute; reflexivity|].
  split; [vm_compute; reflexivity|].
  split; [vm_compute; reflexivity|].
  split; [reflexivity|].
  vm_compute; reflexivity.
Qed.

(** A doctor or patient below the limit is sent a code and answered
    200. *)
Lemma forgotPassword_sent_run env w email role user :
  role = "doctor" \/ role = "patient" ->
  AuthController.findOne (AuthController.getUserModel role) email (db w)
  = Some user ->
  AuthController.resetLimitReached user = false ->
  (forall op, fails env op = false) ->
  exists w' code,
    AuthController.forgotPassword env email role w
    = (Ok (mkResponse 200 true AuthController.msg_reset_sent
                      [("email", AuthController.acc_email user)]), w')
    /\ In code (otps (db w'))
    /\ o_email code = email /\ o_otp code = random_otp env
    /\ o_purpose code = "password-reset" /\ o_verified code = false.
Proof.
  intros Hrole Huser Hlim Hok.
  unfold AuthController.forgotPassword, tryCatch.
  unfold bind at 1. unfold getDb at 1. cbv beta iota. rewrite Huser, Hlim.
  unfold bind at 1. unfold OTP.deleteMany, write at 1. rewrite Hok.
  cbv beta iota. unfold bind at 1. unfold OTP.create.
  assert (OTP.in_enum role OTP.role_enum = true) as ->
      by (destruct Hrole as [-> | ->]; reflexivity).
  cbn [OTP.in_enum OTP.purpose_enum existsb String.eqb Ascii.eqb Bool.eqb
       andb orb].
  unfold bind at 1. unfold getDb at 1. cbv beta iota.
  unfold bind at 1. unfold write at 1. rewrite Hok. unfold ret at 1 2.
  cbv beta iota. rewrite bind_logAuthEvent. unfold ret.
  do 2 eexists. split; [reflexivity|].
  rewrite logged_otps. cbn [db otps with_otps].
  split; [apply in_or_app; right; now left|]. cbn. repeat split.
Qed.

(** C4 at an unknown address.  Asked about an address with no patient
    account, [forgotPassword] answers 400 with [success: false]; asked
    about Alice's, it answers 200 with another message.  The two
    answers tell the caller whether the account exists. *)
Theorem forgotPassword_reveals_unknown_address :
  exists w1 w2,
    AuthController.forgotPassword (env_at 1000%Z "t") "ghost@example.com"
                                  "patient" (world_of db_alice)
    = (Ok (mkResponse 400 false AuthController.msg_generic_reset []), w1)
    /\ AuthController.forgotPassword (env_at 1000%Z "t") "alice@example.com"
                                     "patient" (world_of db_alice)
       = (Ok (mkResponse 200 true AuthController.msg_reset_sent
                         [("email", "alice@example.com")]), w2).
Proof.
  do 2 eexists. split; vm_compute; reflexivity.
Qed.

(* ================================================================== *)
(** * Properties of the further code *)

(* ------------------------------------------------------------------ *)
(** * Issuing and checking codes *)

Lemma filter_negb_none {A} (p : A -> bool) l :
  filter p (filter (fun x => negb (p x)) l) = [].
Proof.
  induction l as [|a l IH]; cbn; [reflexivity|].
  destruct (p a) eqn:E; cbn; [exact IH|]. now rewrite E.
Qed.

Lemma filter_all_false {A} (p : A -> bool) l :
  (forall x, In x l -> p x = false) -> filter p l = [].
Proof.
  induction l as [|a l IH]; cbn; intros H; [reflexivity|].
  rewrite (H a (or_introl eq_refl)). apply IH. intros x Hx. apply H. now right.
Qed.

Lemma createOTP_run env w email role purpose :
  OTP.in_enum role OTP.role_enum = true ->
  OTP.in_enum purpose OTP.purpose_enum = true ->
  fails env (OtpDeleteMany email purpose) = false ->
  fails env (OtpInsert email purpose) = false ->
  OTP.createOTP env email role purpose w
  = (Ok (random_otp env, issued_otp env w email role purpose),
     after_createOTP env w email role purpose).
Proof.
  intros Hr Hp H1 H2.
  unfold OTP.createOTP, OTP.deleteMany, OTP.create, OTP.generateOTP,
    bind, getDb, write, ret.
  rewrite H1, Hr, Hp. cbn. rewrite H2.
  unfold after_createOTP, issued_otp. cbn.
  rewrite <- app_assoc. reflexivity.
Qed.

Lemma issued_otp_pending env w email role purpose :
  OTP.unverified_for email purpose (issued_otp env w email role purpose) = true.
Proof.
  unfold OTP.unverified_for, issued_otp. cbn.
  now rewrite !String.eqb_refl.
Qed.

Lemma after_createOTP_pending env w email role purpose :
  filter (OTP.unverified_for email purpose)
         (otps (db (after_createOTP env w email role purpose)))
  = [issued_otp env w email role purpose].
Proof.
  unfold after_createOTP. cbn.
  rewrite filter_app, filter_negb_none. cbn.
  now rewrite issued_otp_pending.
Qed.

(** X1.  When [createOTP] goes through, the new document is the one
    and only unverified record of its (email, purpose): unverified
    records of the pair that were there are deleted, every other record
    is kept.  It starts with no attempts and expires ten minutes
    later. *)
Theorem createOTP_leaves_one_pending_code :
  forall env w email role purpose,
    OTP.in_enum role OTP.role_enum = true ->
    OTP.in_enum purpose OTP.purpose_enum = true ->
    fails env (OtpDeleteMany email purpose) = false ->
    fails env (OtpInsert email purpose) = false ->
    exists doc w',
      OTP.createOTP env email role purpose w = (Ok (random_otp env, doc), w')
      /\ filter (OTP.unverified_for email purpose) (otps (db w')) = [doc]
      /\ o_otp doc = random_otp env
      /\ o_attempts doc = 0
      /\ o_expiresAt doc = (now env + 600000)%Z
      /\ (forall o, In o (otps (db w)) ->
                    OTP.unverified_for email purpose o = false ->
                    In o (otps (db w')))
      /\ (forall o, In o (otps (db w')) -> o = doc \/ In o (otps (db w))).
Proof.
  intros env w email role purpose Hr Hp H1 H2.
  exists (issued_otp env w email role purpose),
         (after_createOTP env w email role purpose).
  split; [now apply createOTP_run|].
  split; [apply after_createOTP_pending|].
  split; [reflexivity|]. split; [reflexivity|]. split; [reflexivity|].
  split.
  - intros o Hin Hno. cbn. apply in_or_app. left.
    apply filter_In. split; [exact Hin|]. now rewrite Hno.
  - intros o Hin. cbn in Hin. apply in_app_or in Hin as [Hin|[Hin|[]]].
    + right. now apply filter_In in Hin as [Hin _].
    + left. now symmetry.
Qed.

Lemma createOTP_leaves_one_pending_code_witness :
  exists doc w',
    OTP.createOTP (env_at 700000%Z "t") "alice@example.com" "patient" "login"
                  (world_of (mkDb [] [alice] [] [exhausted_otp] [] []))
    = (Ok ("482913", doc), w')
    /\ filter (OTP.unverified_for "alice@example.com" "login") (otps (db w'))
       = [doc]
    /\ o_otp doc = "482913"
    /\ o_attempts doc = 0
    /\ o_expiresAt doc = 1300000%Z
    /\ (forall o, In o [exhausted_otp] ->
                  OTP.unverified_for "alice@example.com" "login" o = false ->
                  In o (otps (db w')))
    /\ (forall o, In o (otps (db w')) -> o = doc \/ In o [exhausted_otp]).
Proof.
  apply (createOTP_leaves_one_pending_code
           (env_at 700000%Z "t")
           (world_of (mkDb [] [alice] [] [exhausted_otp] [] []))
           "alice@example.com" "patient" "login"); reflexivity.
Defined.

Lemma after_createOTP_findOne env w email role purpose :
  OTP.findOne_unverified email purpose
    (db (after_createOTP env w email role purpose))
  = Some (issued_otp env w email role purpose).
Proof.
  unfold OTP.findOne_unverified. now rewrite after_createOTP_pending.
Qed.

(** X2.  The code [createOTP] returns verifies once, at any time up to
    and including the instant ten minutes after it was issued; the same
    code sent again finds no record.  One millisecond after the ten
    minutes it is refused as expired and the record is deleted. *)
Theorem issued_code_verifies_once_within_ten_minutes :
  forall env env1 env2 w email role purpose,
    OTP.in_enum role OTP.role_enum = true ->
    OTP.in_enum purpose OTP.purpose_enum = true ->
    fails env (OtpDeleteMany email purpose) = false ->
    fails env (OtpInsert email purpose) = false ->
    (forall op, fails env1 op = false) ->
    exists doc w0,
      OTP.createOTP env email role purpose w = (Ok (random_otp env, doc), w0)
      /\ ((now env1 <= now env + 600000)%Z ->
          exists w1 w2,
            OTP.verifyOTP env1 email (random_otp env) purpose w0
            = (Ok (OTP.mkVerification true OTP.msg_verified
                                      (Some (OTP.set_verified true doc))), w1)
            /\ OTP.verifyOTP env2 email (random_otp env) purpose w1
               = (Ok (OTP.mkVerification false OTP.msg_not_found None), w2))
      /\ ((now env + 600000 < now env1)%Z ->
          exists w1,
            OTP.verifyOTP env1 email (random_otp env) purpose w0
            = (Ok (OTP.mkVerification false OTP.msg_expired None), w1)
            /\ filter (OTP.unverified_for email purpose) (otps (db w1)) = []).
Proof.
  intros env env1 env2 w email role purpose Hr Hp H1 H2 Hok.
  exists (issued_otp env w email role purpose),
         (after_createOTP env w email role purpose).
  split; [now apply createOTP_run|]. split.
  - intros Ht. do 2 eexists. split.
    + apply verifyOTP_success_run.
      * apply after_createOTP_findOne.
      * unfold OTP.isExpired. cbn. apply Z.ltb_ge. lia.
      * reflexivity.
      * reflexivity.
      * apply Hok.
    + apply verifyOTP_not_found_run.
      unfold OTP.findOne_unverified. cbn [db otps with_otps].
      rewrite (sole_pending_consumed email purpose
                 (issued_otp env w email role purpose)); [reflexivity|].
      apply after_createOTP_pending.
  - intros Ht.
    destruct (verifyOTP_expired_first env1
                (after_createOTP env w email role purpose) email purpose
                (random_otp env) (issued_otp env w email role purpose))
      as [w1 [Hrun Hotps]].
    + apply after_createOTP_findOne.
    + unfold OTP.isExpired. cbn. apply Z.ltb_lt. lia.
    + apply Hok.
    + exists w1. split; [exact Hrun|]. rewrite Hotps.
      apply filter_all_false. intros x Hx.
      unfold OTP.remove_id in Hx. apply filter_In in Hx as [Hx Hid].
      cbn in Hx. apply in_app_or in Hx as [Hx|[Hx|[]]].
      * apply filter_In in Hx as [_ Hx]. now apply negb_true_iff in Hx.
      * subst x. rewrite Nat.eqb_refl in Hid. discriminate.
Qed.

Lemma issued_code_verifies_once_within_ten_minutes_witness :
  exists doc w0,
    OTP.createOTP (env_at 1000%Z "t") "alice@example.com" "patient" "login"
                  (world_of db_alice)
    = (Ok ("482913", doc), w0)
    /\ ((601000 <= 1000 + 600000)%Z ->
        exists w1 w2,
          OTP.verifyOTP (env_at 601000%Z "t") "alice@example.com" "482913"
                        "login" w0
          = (Ok (OTP.mkVerification true OTP.msg_verified
                                    (Some (OTP.set_verified true doc))), w1)
          /\ OTP.verifyOTP (env_at 601001%Z "t") "alice@example.com" "482913"
                           "login" w1
             = (Ok (OTP.mkVerification false OTP.msg_not_found None), w2))
    /\ ((1000 + 600000 < 601000)%Z ->
        exists w1,
          OTP.verifyOTP (env_at 601000%Z "t") "alice@example.com" "482913"
                        "login" w0
          = (Ok (OTP.mkVerification false OTP.msg_expired None), w1)
          /\ filter (OTP.unverified_for "alice@example.com" "login")
                    (otps (db w1)) = []).
Proof.
  apply (issued_code_verifies_once_within_ten_minutes
           (env_at 1000%Z "t") (env_at 601000%Z "t") (env_at 601001%Z "t")
           (world_of db_alice) "alice@example.com" "patient" "login");
    reflexivity.
Defined.

Lemma verifyOTP_mismatch_run env w email otp purpose rec :
  OTP.findOne_unverified email purpose (db w) = Some rec ->
  OTP.isExpired env rec = false ->
  OTP.canAttempt rec = true ->
  o_otp rec <> otp ->
  fails env (OtpSave (OTP.set_attempts (o_attempts rec + 1) rec)) = false ->
  OTP.verifyOTP env email otp purpose w
  = (Ok (OTP.mkVerification false (OTP.msg_invalid (3 - (o_attempts rec + 1)))
                            None),
     mkWorld (with_otps (OTP.replace_doc
                           (OTP.set_attempts (o_attempts rec + 1) rec)) (db w))
             (journal w
              ++ [Wrote (OtpSave (OTP.set_attempts (o_attempts rec + 1) rec))])
             (cookies w)).
Proof.
  intros Hfind Hexp Hcan Hcode Hok.
  unfold OTP.verifyOTP, bind, getDb. rewrite Hfind, Hexp, Hcan. cbn [negb].
  apply String.eqb_neq in Hcode. rewrite Hcode. cbn [negb].
  unfold OTP.incrementAttempts, OTP.save, bind, write, ret.
  cbn [o_attempts OTP.set_attempts].
  unfold OTP.canAttempt in Hcan. apply Nat.ltb_lt in Hcan.
  assert ((3 <? o_attempts rec + 1)%nat = false) as ->
      by (apply Nat.ltb_ge; lia).
  now rewrite Hok.
Qed.

Lemma fresh_id_above ids x : In x ids -> x <> fresh_id ids.
Proof.
  intros Hin. unfold fresh_id.
  assert (Forall (fun k => k <= list_max ids) ids) as H
      by (apply list_max_le; lia).
  rewrite Forall_forall in H. specialize (H x Hin). lia.
Qed.

Lemma replace_last_doc (l0 : list OtpDoc) rec rec' :
  (forall x, In x l0 -> o_id x <> o_id rec) ->
  o_id rec' = o_id rec ->
  OTP.replace_doc rec' (l0 ++ [rec]) = l0 ++ [rec'].
Proof.
  intros Hids Hid. unfold OTP.replace_doc. rewrite map_app. cbn.
  rewrite Hid, Nat.eqb_refl. f_equal.
  rewrite <- (map_id l0) at 2. apply map_ext_in. intros x Hx.
  apply Hids in Hx. apply Nat.eqb_neq in Hx. now rewrite Hx.
Qed.

Lemma issued_otp_id_fresh env w email role purpose x :
  In x (filter (fun o => negb (OTP.unverified_for email purpose o))
               (otps (db w))) ->
  o_id x <> o_id (issued_otp env w email role purpose).
Proof.
  intros Hin. cbn. apply fresh_id_above. now apply in_map.
Qed.

(** X3.  Issuing a second code for the same (email, purpose) deletes
    the first.  Sent afterwards, the first code is taken as a wrong
    guess at the second: it is refused with two attempts remaining, and
    the pending record, the second code's, now counts one attempt. *)
Theorem superseded_code_counts_as_wrong_guess :
  forall env1 env2 env3 w email role purpose,
    OTP.in_enum role OTP.role_enum = true ->
    OTP.in_enum purpose OTP.purpose_enum = true ->
    (forall op, fails env1 op = false) ->
    (forall op, fails env2 op = false) ->
    (forall op, fails env3 op = false) ->
    random_otp env1 <> random_otp env2 ->
    (now env3 <= now env2 + 600000)%Z ->
    exists d1 d2 w1 w2 w3,
      OTP.createOTP env1 email role purpose w = (Ok (random_otp env1, d1), w1)
      /\ OTP.createOTP env2 email role purpose w1
         = (Ok (random_otp env2, d2), w2)
      /\ ~ In d1 (otps (db w2))
      /\ OTP.verifyOTP env3 email (random_otp env1) purpose w2
         = (Ok (OTP.mkVerification false (OTP.msg_invalid 2) None), w3)
      /\ filter (OTP.unverified_for email purpose) (otps (db w3))
         = [OTP.set_attempts 1 d2].
Proof.
  intros env1 env2 env3 w email role purpose Hr Hp Hok1 Hok2 Hok3 Hneq Ht.
  set (w1 := after_createOTP env1 w email role purpose).
  exists (issued_otp env1 w email role purpose),
         (issued_otp env2 w1 email role purpose),
         w1, (after_createOTP env2 w1 email role purpose).
  eexists.
  split; [now apply createOTP_run|].
  split; [now apply createOTP_run|].
  split.
  { cbn. intros Hin. apply in_app_or in Hin as [Hin|[Hin|[]]].
    - apply filter_In in Hin as [_ Hin].
      rewrite issued_otp_pending in Hin. discriminate.
    - apply (f_equal o_otp) in Hin. cbn in Hin. congruence. }
  split.
  { rewrite (verifyOTP_mismatch_run env3 _ email (random_otp env1) purpose
               (issued_otp env2 w1 email role purpose)).
    - reflexivity.
    - apply after_createOTP_findOne.
    - unfold OTP.isExpired. cbn. apply Z.ltb_ge. lia.
    - reflexivity.
    - cbn. congruence.
    - apply Hok3. }
  cbn [db otps with_otps after_createOTP].
  rewrite replace_last_doc.
  - rewrite filter_app, filter_negb_none. cbn.
    unfold OTP.unverified_for. cbn. now rewrite !String.eqb_refl.
  - intros x. apply issued_otp_id_fresh.
  - reflexivity.
Qed.

Lemma superseded_code_counts_as_wrong_guess_witness :
  exists d1 d2 w1 w2 w3,
    OTP.createOTP (env_with_code 1000%Z "111111") "alice@example.com"
                  "patient" "login" (world_of db_alice)
    = (Ok ("111111", d1), w1)
    /\ OTP.createOTP (env_with_code 70000%Z "222222") "alice@example.com"
                     "patient" "login" w1
       = (Ok ("222222", d2), w2)
    /\ ~ In d1 (otps (db w2))
    /\ OTP.verifyOTP (env_with_code 80000%Z "333333") "alice@example.com"
                     "111111" "login" w2
       = (Ok (OTP.mkVerification false (OTP.msg_invalid 2) None), w3)
    /\ filter (OTP.unverified_for "alice@example.com" "login") (otps (db w3))
       = [OTP.set_attempts 1 d2].
Proof.
  apply (superseded_code_counts_as_wrong_guess
           (env_with_code 1000%Z "111111") (env_with_code 70000%Z "222222")
           (env_with_code 80000%Z "333333") (world_of db_alice)
           "alice@example.com" "patient" "login");
    try reflexivity; [discriminate | cbn; lia].
Defined.

Lemma replace_doc_in o' l x :
  In x (OTP.replace_doc o' l) -> x = o' \/ In x l.
Proof.
  unfold OTP.replace_doc. rewrite in_map_iff. intros [y [Hy Hin]].
  destruct (Nat.eqb (o_id y) (o_id o')); [now left|right; now subst].
Qed.

Lemma replace_doc_keeps_others o' l x :
  In x l -> o_id x <> o_id o' -> In x (OTP.replace_doc o' l).
Proof.
  intros Hin Hid. unfold OTP.replace_doc. apply in_map_iff. exists x.
  apply Nat.eqb_neq in Hid. now rewrite Hid.
Qed.

Lemma remove_id_keeps_others id l x :
  In x l -> o_id x <> id -> In x (OTP.remove_id id l).
Proof.
  intros Hin Hid. unfold OTP.remove_id. apply filter_In. split; [exact Hin|].
  apply Nat.eqb_neq in Hid. now rewrite Hid.
Qed.

(** X4.  [OTP.verifyOTP] keeps the attempts counter of every record at
    three or below, whatever code is sent and whatever the store does,
    and it changes or deletes no record but the one it selected. *)
Theorem verifyOTP_keeps_attempts_within_three :
  forall env w email code purpose,
    (forall o, In o (otps (db w)) -> o_attempts o <= 3) ->
    (forall o, In o (otps (db (snd (OTP.verifyOTP env email code purpose w)))) ->
               o_attempts o <= 3)
    /\ (forall o, In o (otps (db w)) ->
                  (forall rec, OTP.findOne_unverified email purpose (db w)
                               = Some rec -> o_id o <> o_id rec) ->
                  In o (otps (db (snd (OTP.verifyOTP env email code purpose w))))).
Proof.
  intros env w email code purpose Hinv.
  unfold OTP.verifyOTP, bind, getDb.
  destruct (OTP.findOne_unverified email purpose (db w)) as [rec|] eqn:Hfind;
    [|split; [exact Hinv|intros o Ho _; exact Ho]].
  destruct (OTP.isExpired env rec).
  { unfold OTP.deleteOne, write, ret.
    destruct (fails env (OtpDeleteOne (o_id rec))); cbn.
    - split; [exact Hinv|intros o Ho _; exact Ho].
    - split.
      + intros o Ho. apply Hinv. unfold OTP.remove_id in Ho.
        now apply filter_In in Ho as [Ho _].
      + intros o Ho Hid. apply remove_id_keeps_others; auto. }
  destruct (OTP.canAttempt rec) eqn:Hcan; cbn [negb].
  2:{ unfold OTP.deleteOne, write, ret.
      destruct (fails env (OtpDeleteOne (o_id rec))); cbn.
      - split; [exact Hinv|intros o Ho _; exact Ho].
      - split.
        + intros o Ho. apply Hinv. unfold OTP.remove_id in Ho.
          now apply filter_In in Ho as [Ho _].
        + intros o Ho Hid. apply remove_id_keeps_others; auto. }
  unfold OTP.canAttempt in Hcan. apply Nat.ltb_lt in Hcan.
  destruct (negb (String.eqb (o_otp rec) code)).
  - unfold OTP.incrementAttempts, OTP.save, bind, write, reject, ret.
    cbn [o_attempts OTP.set_attempts].
    destruct (3 <? o_attempts rec + 1)%nat; cbn;
      [split; [exact Hinv|intros o Ho _; exact Ho]|].
    destruct (fails env (OtpSave _)); cbn;
      [split; [exact Hinv|intros o Ho _; exact Ho]|].
    split.
    + intros o Ho. apply replace_doc_in in Ho as [->|Ho]; [cbn; lia|auto].
    + intros o Ho Hid. apply replace_doc_keeps_others; [exact Ho|].
      cbn. now apply Hid.
  - unfold OTP.markAsVerified, OTP.save, bind, write, reject, ret.
    cbn [o_attempts OTP.set_verified].
    destruct (3 <? o_attempts rec)%nat; cbn;
      [split; [exact Hinv|intros o Ho _; exact Ho]|].
    destruct (fails env (OtpSave _)); cbn;
      [split; [exact Hinv|intros o Ho _; exact Ho]|].
    split.
    + intros o Ho. apply replace_doc_in in Ho as [->|Ho]; [cbn; lia|auto].
    + intros o Ho Hid. apply replace_doc_keeps_others; [exact Ho|].
      cbn. now apply Hid.
Qed.

Lemma verifyOTP_keeps_attempts_within_three_witness :
  (forall o,
      In o (otps (db (snd (OTP.verifyOTP (env_at 2000%Z "t") "alice@example.com"
                                         "000000" "password-reset"
                                         (world_of db_alice_resetting))))) ->
      o_attempts o <= 3)
  /\ (forall o,
         In o [alice_reset_otp] ->
         (forall rec,
             OTP.findOne_unverified "alice@example.com" "password-reset"
                                    db_alice_resetting = Some rec ->
             o_id o <> o_id rec) ->
         In o (otps (db (snd (OTP.verifyOTP (env_at 2000%Z "t")
                                            "alice@example.com" "000000"
                                            "password-reset"
                                            (world_of db_alice_resetting)))))).
Proof.
  apply (verifyOTP_keeps_attempts_within_three
           (env_at 2000%Z "t") (world_of db_alice_resetting)
           "alice@example.com" "000000" "password-reset").
  intros o [<-|[]]. cbn. lia.
Defined.

Lemma newest_is_latest l r :
  OTP.newest l = Some r ->
  In r l /\ (forall o, In o l -> (o_createdAt o <= o_createdAt r)%Z).
Proof.
  revert r. induction l as [|x l IH]; cbn; intros r H; [discriminate|].
  destruct (OTP.newest l) as [y|] eqn:E.
  - destruct (IH y eq_refl) as [Hin Hmax].
    destruct (o_createdAt x <? o_createdAt y)%Z eqn:C; injection H as <-.
    + apply Z.ltb_lt in C. split; [now right|].
      intros o [<-|Ho]; [lia|now apply Hmax].
    + apply Z.ltb_ge in C. split; [now left|].
      intros o [<-|Ho]; [lia|]. specialize (Hmax o Ho). lia.
  - injection H as <-. split; [now left|].
    intros o [<-|Ho]; [lia|]. destruct l; [destruct Ho|].
    cbn in E. destruct (OTP.newest l); [destruct (_ <? _)%Z|]; discriminate.
Qed.

Lemma ceil_seconds_spec x :
  (1000 * (OTPRate.ceil_seconds x - 1) < x <= 1000 * OTPRate.ceil_seconds x)%Z.
Proof.
  unfold OTPRate.ceil_seconds.
  pose proof (Z.div_mod (- x) 1000 ltac:(lia)) as H.
  pose proof (Z.mod_pos_bound (- x) 1000 ltac:(lia)) as B.
  lia.
Qed.

(** X5.  While the newest record of an (email, purpose), verified or
    not, is younger than sixty seconds, [checkRateLimit] refuses and
    reports a wait between 1 and 60 seconds, which is exact: after that
    many whole seconds the request is allowed, one second earlier it is
    not.  From sixty seconds on it allows, and it never writes. *)
Theorem checkRateLimit_wait_is_exact :
  forall env w email purpose r,
    OTP.newest (filter (OTP.any_for email purpose) (otps (db w))) = Some r ->
    (o_createdAt r <= now env < o_createdAt r + 60000)%Z ->
    exists k,
      OTPRate.checkRateLimit env email purpose w
      = (Ok (OTPRate.mkRateLimit false (Some k)), w)
      /\ (1 <= k <= 60)%Z
      /\ (forall env',
             (now env + 1000 * k <= now env')%Z ->
             OTPRate.checkRateLimit env' email purpose w
             = (Ok (OTPRate.mkRateLimit true None), w))
      /\ (forall env',
             (now env' <= now env + 1000 * (k - 1))%Z ->
             exists k',
               OTPRate.checkRateLimit env' email purpose w
               = (Ok (OTPRate.mkRateLimit false (Some k')), w)).
Proof.
  intros env w email purpose r Hnew Ht.
  exists (OTPRate.ceil_seconds (OTPRate.oneMinute - (now env - o_createdAt r))).
  pose proof (ceil_seconds_spec (OTPRate.oneMinute - (now env - o_createdAt r)))
    as Hk.
  unfold OTPRate.oneMinute in *.
  split; [|split; [|split]].
  - unfold OTPRate.checkRateLimit, bind, getDb, ret. rewrite Hnew.
    unfold OTPRate.oneMinute.
    assert ((now env - o_createdAt r <? 60 * 1000)%Z = true) as ->
        by (apply Z.ltb_lt; lia).
    reflexivity.
  - lia.
  - intros env' Hlater.
    unfold OTPRate.checkRateLimit, bind, getDb, ret. rewrite Hnew.
    unfold OTPRate.oneMinute.
    assert ((now env' - o_createdAt r <? 60 * 1000)%Z = false) as ->
        by (apply Z.ltb_ge; lia).
    reflexivity.
  - intros env' Hearlier.
    unfold OTPRate.checkRateLimit, bind, getDb, ret. rewrite Hnew.
    unfold OTPRate.oneMinute.
    assert ((now env' - o_createdAt r <? 60 * 1000)%Z = true) as ->
        by (apply Z.ltb_lt; lia).
    eexists. reflexivity.
Qed.

Lemma checkRateLimit_wait_is_exact_witness :
  exists k,
    OTPRate.checkRateLimit (env_at 12500%Z "t") "ghost@example.com" "login"
                           (world_of (mkDb [] [] [] [orphan_otp] [] []))
    = (Ok (OTPRate.mkRateLimit false (Some k)),
       world_of (mkDb [] [] [] [orphan_otp] [] []))
    /\ (1 <= k <= 60)%Z
    /\ (forall env',
           (12500 + 1000 * k <= now env')%Z ->
           OTPRate.checkRateLimit env' "ghost@example.com" "login"
                                  (world_of (mkDb [] [] [] [orphan_otp] [] []))
           = (Ok (OTPRate.mkRateLimit true None),
              world_of (mkDb [] [] [] [orphan_otp] [] [])))
    /\ (forall env',
           (now env' <= 12500 + 1000 * (k - 1))%Z ->
           exists k',
             OTPRate.checkRateLimit env' "ghost@example.com" "login"
                                    (world_of (mkDb [] [] [] [orphan_otp] [] []))
             = (Ok (OTPRate.mkRateLimit false (Some k')),
                world_of (mkDb [] [] [] [orphan_otp] [] []))).
Proof.
  apply (checkRateLimit_wait_is_exact
           (env_at 12500%Z "t") (world_of (mkDb [] [] [] [orphan_otp] [] []))
           "ghost@example.com" "login" orphan_otp);
    [reflexivity | cbn; lia].
Defined.

(* ------------------------------------------------------------------ *)
(** * The session sweeps and single-device enforcement *)

Lemma cleanupExpired_run env w :
  fails env SessionCleanup = false ->
  Session.cleanupExpired env w
  = (Ok (length (filter (Session.expired_active env) (sessions (db w)))),
     mkWorld
       (with_sessions
          (map (fun s => if Session.expired_active env s
                         then Session.deactivate (s_revokedReason s) (now env) s
                         else s))
          (db w))
       (journal w ++ [Wrote SessionCleanup]) (cookies w)).
Proof.
  intros Hf. unfold Session.cleanupExpired, bind, getDb, write, ret.
  now rewrite Hf.
Qed.

Lemma deactivate_not_active r t s : s_isActive (Session.deactivate r t s) = false.
Proof. reflexivity. Qed.

Lemma active_count_after_sweep env l :
  length (filter s_isActive l)
  = length (filter s_isActive
              (map (fun s => if Session.expired_active env s
                             then Session.deactivate (s_revokedReason s) (now env) s
                             else s) l))
    + length (filter (Session.expired_active env) l).
Proof.
  induction l as [|s l IH]; [reflexivity|]. cbn [map filter].
  destruct (Session.expired_active env s) eqn:E.
  - rewrite deactivate_not_active.
    unfold Session.expired_active in E. apply andb_true_iff in E as [_ ->].
    cbn [length]. lia.
  - destruct (s_isActive s); cbn [length]; lia.
Qed.

Lemma map_id_unchanged {A} (p : A -> bool) (f : A -> A) l :
  (forall x, In x l -> p x = false) ->
  map (fun x => if p x then f x else x) l = l.
Proof.
  induction l as [|x l IH]; intros H; [reflexivity|]. cbn.
  rewrite (H x (or_introl eq_refl)). f_equal. apply IH.
  intros y Hy. apply H. now right.
Qed.

(** X6.  An accepted expiry sweep deletes nothing and leaves no session
    both expired and active; the count it returns is the number of
    sessions it switched from active to inactive, and a second sweep at
    the same instant returns 0 and changes no document. *)
Theorem cleanupExpired_deactivates_expired_sessions :
  forall env w,
    fails env SessionCleanup = false ->
    exists n w',
      Session.cleanupExpired env w = (Ok n, w')
      /\ map s_id (sessions (db w')) = map s_id (sessions (db w))
      /\ (forall s, In s (sessions (db w')) ->
                    Session.expired_active env s = false)
      /\ length (filter s_isActive (sessions (db w)))
         = length (filter s_isActive (sessions (db w'))) + n
      /\ exists w'',
          Session.cleanupExpired env w' = (Ok 0, w'') /\ db w'' = db w'.
Proof.
  intros env w Hf. rewrite (cleanupExpired_run env w Hf).
  eexists _, _. split; [reflexivity|]. cbn [db sessions with_sessions].
  assert (Hclean : forall s,
             In s (map (fun s => if Session.expired_active env s
                                 then Session.deactivate (s_revokedReason s)
                                                         (now env) s
                                 else s) (sessions (db w))) ->
             Session.expired_active env s = false).
  { intros s Hs. apply in_map_iff in Hs as [x [<- _]].
    destruct (Session.expired_active env x) eqn:E; [|exact E].
    unfold Session.expired_active. cbn. apply andb_false_r. }
  split; [|split; [exact Hclean|split]].
  - rewrite map_map. apply map_ext. intros s.
    now destruct (Session.expired_active env s).
  - apply active_count_after_sweep.
  - rewrite (cleanupExpired_run env _ Hf). eexists. split.
    + f_equal. f_equal. cbn [db sessions with_sessions].
      rewrite filter_all_false; [reflexivity|]. apply Hclean.
    + cbn [db]. destruct (db w) as [a b c d e f].
      unfold with_sessions. cbn [doctors patients admins otps sessions authlogs].
      cbn [sessions with_sessions] in Hclean.
      f_equal. now apply map_id_unchanged.
Qed.

Lemma cleanupExpired_deactivates_expired_sessions_witness :
  exists n w',
    Session.cleanupExpired (env_at 700000000%Z "t") (world_of db_two_users)
    = (Ok n, w')
    /\ map s_id (sessions (db w')) = [1; 2; 3]
    /\ (forall s, In s (sessions (db w')) ->
                  Session.expired_active (env_at 700000000%Z "t") s = false)
    /\ 3 = length (filter s_isActive (sessions (db w'))) + n
    /\ exists w'',
        Session.cleanupExpired (env_at 700000000%Z "t") w' = (Ok 0, w'')
        /\ db w'' = db w'.
Proof.
  apply (cleanupExpired_deactivates_expired_sessions
           (env_at 700000000%Z "t") (world_of db_two_users)).
  reflexivity.
Defined.

(** An accepted deletion sweep keeps exactly the sessions that are
    active or were last updated at or after the cut-off date, and
    returns the number of documents that left the collection. *)
Lemma deleteOldSessions_keeps_active_and_recent :
  forall env w daysOld,
    fails env SessionDeleteOld = false ->
    exists n w',
      Session.deleteOldSessions env daysOld w = (Ok n, w')
      /\ (forall s,
             In s (sessions (db w'))
             <-> In s (sessions (db w))
                 /\ (s_isActive s = true
                     \/ (Session.cutoffDate env daysOld <= s_updatedAt s)%Z))
      /\ length (sessions (db w)) = n + length (sessions (db w')).
Proof.
  intros env w daysOld Hf.
  unfold Session.deleteOldSessions, bind, getDb, write, ret. rewrite Hf.
  eexists _, _. split; [reflexivity|]. cbn [db sessions with_sessions].
  split.
  - intros s. rewrite filter_In. unfold Session.old_inactive.
    rewrite negb_andb, negb_involutive, orb_true_iff, Z.ltb_antisym,
      negb_involutive, Z.leb_le. tauto.
  - induction (sessions (db w)) as [|s l IH]; [reflexivity|]. cbn.
    destruct (Session.old_inactive env daysOld s); cbn; lia.
Qed.

(** X7.  A session the expiry sweep deactivates at time [t] stays in the
    collection through every deletion sweep run up to [daysOld] days
    after [t], and the first accepted deletion sweep after that removes
    it: the sweep stamps [updatedAt], from which the retention period
    is counted. *)
Theorem swept_session_is_retained_for_daysOld :
  forall env w s daysOld,
    In s (sessions (db w)) ->
    Session.expired_active env s = true ->
    fails env SessionCleanup = false ->
    let gone := Session.deactivate (s_revokedReason s) (now env) s in
    let w1 := snd (Session.cleanupExpired env w) in
    In gone (sessions (db w1))
    /\ (forall env2,
           (now env2 <= now env + daysOld * (24 * 60 * 60 * 1000))%Z ->
           In gone (sessions (db (snd (Session.deleteOldSessions env2 daysOld w1)))))
    /\ (forall env2,
           (now env + daysOld * (24 * 60 * 60 * 1000) < now env2)%Z ->
           fails env2 SessionDeleteOld = false ->
           ~ In gone
                (sessions (db (snd (Session.deleteOldSessions env2 daysOld w1))))).
Proof.
  intros env w s daysOld Hin Hexp Hf gone w1. subst w1.
  rewrite (cleanupExpired_run env w Hf). cbn [snd db sessions with_sessions].
  assert (Hgone : In gone
                     (map (fun s => if Session.expired_active env s
                                    then Session.deactivate (s_revokedReason s)
                                                            (now env) s
                                    else s) (sessions (db w)))).
  { apply in_map_iff. exists s. now rewrite Hexp. }
  split; [exact Hgone|split].
  - intros env2 Ht.
    unfold Session.deleteOldSessions, bind, getDb, write, ret.
    destruct (fails env2 SessionDeleteOld);
      cbn [snd db sessions with_sessions record_event]; [exact Hgone|].
    apply filter_In. split; [exact Hgone|].
    unfold Session.old_inactive, Session.cutoffDate, gone. cbn.
    apply negb_true_iff, Z.ltb_ge. lia.
  - intros env2 Ht Hf2.
    unfold Session.deleteOldSessions, bind, getDb, write, ret. rewrite Hf2.
    cbn [snd db sessions with_sessions]. rewrite filter_In.
    intros [_ H]. unfold Session.old_inactive, Session.cutoffDate, gone in H.
    cbn in H. apply negb_true_iff, Z.ltb_ge in H. lia.
Qed.

Lemma swept_session_is_retained_for_daysOld_witness :
  In (Session.deactivate None 700000000%Z stale_session)
     (sessions (db (snd (Session.cleanupExpired (env_at 700000000%Z "t")
                                                (world_of db_stale)))))
  /\ (forall env2,
         (now env2 <= 700000000 + 30 * (24 * 60 * 60 * 1000))%Z ->
         In (Session.deactivate None 700000000%Z stale_session)
            (sessions (db (snd (Session.deleteOldSessions env2 30
                 (snd (Session.cleanupExpired (env_at 700000000%Z "t")
                                              (world_of db_stale))))))))
  /\ (forall env2,
         (700000000 + 30 * (24 * 60 * 60 * 1000) < now env2)%Z ->
         fails env2 SessionDeleteOld = false ->
         ~ In (Session.deactivate None 700000000%Z stale_session)
              (sessions (db (snd (Session.deleteOldSessions env2 30
                   (snd (Session.cleanupExpired (env_at 700000000%Z "t")
                                                (world_of db_stale)))))))).
Proof.
  exact (swept_session_is_retained_for_daysOld
           (env_at 700000000%Z "t") (world_of db_stale) stale_session 30%Z
           (or_introl eq_refl) eq_refl eq_refl).
Defined.

Lemma enforceSingleDevice_run env w userId userType :
  fails env (SessionUpdateMany userId userType) = false ->
  Session.enforceSingleDevice env userId userType w
  = (Ok (Session.mkEnforcement
           (length (filter (Session.active_of userId userType) (sessions (db w))))
           (0 <? length (Session.liveSessions env userId userType (db w)))%nat),
     mkWorld (with_sessions (map (enforce env userId userType)) (db w))
             (journal w ++ [Wrote (SessionUpdateMany userId userType)])
             (cookies w)).
Proof.
  intros Hf. unfold Session.enforceSingleDevice, bind, getDb, write, ret.
  now rewrite Hf.
Qed.

Lemma live_are_active env userId userType l :
  length (filter (Session.live_of env userId userType) l)
  <= length (filter (Session.active_of userId userType) l).
Proof.
  induction l as [|s l IH]; [apply Nat.le_refl|]. cbn.
  unfold Session.live_of at 1.
  destruct (Session.active_of userId userType s); cbn;
    [destruct (now env <? s_expiresAt s)%Z; cbn; lia|exact IH].
Qed.

(** X8.  An accepted single-device enforcement for a user leaves that
    user no active session, changes no session of anyone else and
    deletes nothing.  Its report counts every session it switched off,
    expired ones included, so [previousDeviceLoggedOut], which looks at
    unexpired sessions only, is never set with a zero count. *)
Theorem enforceSingleDevice_revokes_that_user_only :
  forall env w userId userType,
    fails env (SessionUpdateMany userId userType) = false ->
    exists report w',
      Session.enforceSingleDevice env userId userType w = (Ok report, w')
      /\ (forall s, In s (sessions (db w')) ->
                    Session.active_of userId userType s = false)
      /\ (forall s, In s (sessions (db w)) ->
                    Session.active_of userId userType s = false ->
                    In s (sessions (db w')))
      /\ map s_id (sessions (db w')) = map s_id (sessions (db w))
      /\ length (filter s_isActive (sessions (db w)))
         = length (filter s_isActive (sessions (db w')))
           + Session.revokedCount report
      /\ length (Session.liveSessions env userId userType (db w))
         <= Session.revokedCount report
      /\ (Session.previousDeviceLoggedOut report = true ->
          1 <= Session.revokedCount report).
Proof.
  intros env w userId userType Hf.
  rewrite (enforceSingleDevice_run env w userId userType Hf).
  eexists _, _. split; [reflexivity|].
  cbn [db sessions with_sessions Session.revokedCount
          Session.previousDeviceLoggedOut].
  pose proof (live_are_active env userId userType (sessions (db w))) as Hle.
  fold (Session.liveSessions env userId userType (db w)) in Hle.
  repeat split.
  - intros s Hs. apply in_map_iff in Hs as [x [<- _]]. apply enforce_inactive.
  - intros s Hs Hn. apply in_map_iff. exists s. split; [|exact Hs].
    unfold enforce. now rewrite Hn.
  - rewrite map_map. apply map_ext. intros s. unfold enforce.
    now destruct (Session.active_of userId userType s).
  - clear Hle.
    induction (sessions (db w)) as [|s l IH]; [reflexivity|]. cbn [map filter].
    unfold enforce at 1.
    destruct (Session.active_of userId userType s) eqn:E.
    + rewrite deactivate_not_active.
      unfold Session.active_of in E. apply andb_true_iff in E as [_ ->].
      cbn [length]. lia.
    + destruct (s_isActive s); cbn [length]; lia.
  - exact Hle.
  - intros H. apply Nat.ltb_lt in H. lia.
Qed.

Lemma enforceSingleDevice_revokes_that_user_only_witness :
  exists report w',
    Session.enforceSingleDevice (env_at 700000000%Z "t") 1 Patient
                                (world_of db_stale) = (Ok report, w')
    /\ (forall s, In s (sessions (db w')) ->
                  Session.active_of 1 Patient s = false)
    /\ (forall s, In s (sessions (db (world_of db_stale))) ->
                  Session.active_of 1 Patient s = false ->
                  In s (sessions (db w')))
    /\ map s_id (sessions (db w')) = [4; 2]
    /\ 2 = length (filter s_isActive (sessions (db w')))
           + Session.revokedCount report
    /\ 0 <= Session.revokedCount report
    /\ (Session.previousDeviceLoggedOut report = true ->
        1 <= Session.revokedCount report).
Proof.
  apply (enforceSingleDevice_revokes_that_user_only
           (env_at 700000000%Z "t") (world_of db_stale) 1 Patient).
  reflexivity.
Defined.

(* ------------------------------------------------------------------ *)
(** * Session management: activity, revocation, logout *)

Lemma update_first_none p f l :
  find p l = None -> SessionStatics.update_first p f l = l.
Proof.
  induction l as [|s l IH]; cbn; [reflexivity|].
  destruct (p s); [discriminate|]. intros H. now rewrite IH.
Qed.

Lemma update_first_keeps p f l x s :
  find p l = Some x -> In s l -> s <> x ->
  In s (SessionStatics.update_first p f l).
Proof.
  induction l as [|a l IH]; cbn; [intros _ []|].
  destruct (p a) eqn:E.
  - intros [= ->] [->|Hs] Hne; [contradiction|now right].
  - intros Hf [->|Hs] Hne; [now left|right; now apply IH].
Qed.

Lemma update_first_updates p f l x :
  find p l = Some x -> In (f x) (SessionStatics.update_first p f l).
Proof.
  induction l as [|a l IH]; cbn; [discriminate|].
  destruct (p a) eqn:E.
  - intros [= ->]. now left.
  - intros Hf. right. now apply IH.
Qed.

Lemma update_first_core p f l :
  (forall s, session_core (f s) = session_core s) ->
  map session_core (SessionStatics.update_first p f l) = map session_core l.
Proof.
  intros Hf. induction l as [|s l IH]; cbn; [reflexivity|].
  destruct (p s); cbn; [now rewrite Hf|now rewrite IH].
Qed.

Lemma authenticates_core env token a b :
  session_core a = session_core b ->
  Session.authenticates env token a = Session.authenticates env token b.
Proof.
  unfold session_core, Session.authenticates. now intros [= _ _ _ -> -> -> _].
Qed.

Lemma find_authenticates_core env token l l' :
  map session_core l' = map session_core l ->
  option_map session_core (find (Session.authenticates env token) l')
  = option_map session_core (find (Session.authenticates env token) l).
Proof.
  revert l'. induction l as [|a l IH]; intros [|b l']; cbn;
    try discriminate; [reflexivity|].
  intros H.
  assert (Hab : session_core b = session_core a)
    by exact (f_equal (hd (session_core a)) H).
  assert (Hl : map session_core l' = map session_core l)
    by exact (f_equal (@tl _) H).
  rewrite (authenticates_core env token b a Hab).
  destruct (Session.authenticates env token a); cbn; [now rewrite Hab|].
  now apply IH.
Qed.

Lemma find_some_in {A} (p : A -> bool) l x :
  find p l = Some x -> In x l /\ p x = true.
Proof. apply find_some. Qed.

Lemma updateActivity_frame rt token w :
  exists w',
    SessionStatics.updateActivity rt token w = (Ok tt, w')
    /\ map session_core (sessions (db w'))
       = map session_core (sessions (db w))
    /\ (doctors (db w'), patients (db w'), admins (db w'), otps (db w'),
        authlogs (db w'), journal w', cookies w')
       = (doctors (db w), patients (db w), admins (db w), otps (db w),
          authlogs (db w), journal w, cookies w).
Proof.
  unfold SessionStatics.updateActivity, tryCatch, session_write, ret.
  destruct (rt_session_fails rt (TouchByToken token)) eqn:F.
  - exists w. repeat split; reflexivity.
  - eexists. split; [reflexivity|]. cbn [db sessions with_sessions journal cookies].
    split; [apply update_first_core; reflexivity|now destruct (db w)].
Qed.

(** X9.  [updateActivity] never throws, whether or not the store takes
    the write, and it can change nothing of a session but
    [lastActivity] and [updatedAt]: identity, owner, token, expiry,
    active flag and revocation reason stay, so no token starts or stops
    authenticating and no expiry is extended.  When the write is taken,
    the first active session with the token carries the request
    time. *)
Theorem updateActivity_changes_activity_only :
  forall rt token w,
    exists w',
      SessionStatics.updateActivity rt token w = (Ok tt, w')
      /\ map session_core (sessions (db w'))
         = map session_core (sessions (db w))
      /\ (forall env tok,
             option_map session_core
               (find (Session.authenticates env tok) (sessions (db w')))
             = option_map session_core
                 (find (Session.authenticates env tok) (sessions (db w))))
      /\ (doctors (db w'), patients (db w'), admins (db w'), otps (db w'),
          authlogs (db w'), journal w', cookies w')
         = (doctors (db w), patients (db w), admins (db w), otps (db w),
            authlogs (db w), journal w, cookies w)
      /\ (forall s,
             rt_session_fails rt (TouchByToken token) = false ->
             find (SessionStatics.active_token token) (sessions (db w)) = Some s ->
             In (SessionStatics.touch (now (rt_env rt)) s) (sessions (db w'))).
Proof.
  intros rt token w.
  unfold SessionStatics.updateActivity, tryCatch, session_write, ret.
  destruct (rt_session_fails rt (TouchByToken token)) eqn:F.
  - exists w. repeat split; try reflexivity. discriminate.
  - eexists. split; [reflexivity|]. cbn [db sessions with_sessions journal cookies].
    assert (Hcore : map session_core
                      (SessionStatics.update_first
                         (SessionStatics.active_token token)
                         (SessionStatics.touch (now (rt_env rt)))
                         (sessions (db w)))
                    = map session_core (sessions (db w)))
      by (apply update_first_core; reflexivity).
    split; [exact Hcore|]. split; [|split].
    + intros env tok. now apply find_authenticates_core.
    + now destruct (db w).
    + intros s _ Hs. now apply update_first_updates.
Qed.

Lemma updateActivity_changes_activity_only_witness :
  exists w',
    SessionStatics.updateActivity (runtime_at 9000%Z "t" []) "jwt-1"
                                  (world_of db_two_users) = (Ok tt, w')
    /\ map s_lastActivity (sessions (db w')) = [9000; 1000; 2000]%Z
    /\ map session_core (sessions (db w'))
       = map session_core (sessions db_two_users).
Proof.
  destruct (updateActivity_changes_activity_only
              (runtime_at 9000%Z "t" []) "jwt-1" (world_of db_two_users))
    as [w' [Hrun [Hcore _]]].
  exists w'. split; [exact Hrun|]. split; [|exact Hcore].
  vm_compute in Hrun. injection Hrun as <-. reflexivity.
Defined.

Lemma static_revokeSession_run rt sessionId userId w :
  rt_session_fails rt (RevokeById sessionId userId) = false ->
  SessionStatics.revokeSession rt sessionId userId w
  = (Ok (option_map
           (fun s => Session.deactivate (s_revokedReason s) (now (rt_env rt)) s)
           (find (SessionStatics.owned_active sessionId userId)
                 (sessions (db w)))),
     mkWorld
       (with_sessions
          (SessionStatics.update_first
             (SessionStatics.owned_active sessionId userId)
             (fun s => Session.deactivate (s_revokedReason s)
                                          (now (rt_env rt)) s))
          (db w))
       (journal w) (cookies w)).
Proof.
  intros Hf. unfold SessionStatics.revokeSession, bind, getDb, session_write, ret.
  now rewrite Hf.
Qed.

Lemma static_revokeSession_refused rt sessionId userId w :
  rt_session_fails rt (RevokeById sessionId userId) = true ->
  SessionStatics.revokeSession rt sessionId userId w = (Throw "MongoError", w).
Proof.
  intros Hf. unfold SessionStatics.revokeSession, bind, getDb, session_write, ret.
  now rewrite Hf.
Qed.

Lemma owned_active_spec sessionId userId s :
  SessionStatics.owned_active sessionId userId s = true ->
  s_id s = sessionId /\ s_userId s = userId /\ s_isActive s = true.
Proof.
  unfold SessionStatics.owned_active. intros H.
  apply andb_true_iff in H as [H A]. apply andb_true_iff in H as [I U].
  apply Nat.eqb_eq in I, U. auto.
Qed.

(** X10.  The revoke-session endpoint always answers, and whatever it
    answers, every session that belongs to another user, is already
    inactive or carries the caller's own token is left in the collection
    as it was.  It answers 200 only after deactivating an active session
    of the caller with the requested id that is not the current one; on
    every other answer the database is unchanged. *)
Theorem revokeSession_spares_current_and_foreign_sessions :
  forall rt w sessionId userId currentToken,
    exists resp w',
      SessionController.revokeSession rt sessionId userId currentToken w
      = (Ok resp, w')
      /\ (forall s,
             In s (sessions (db w)) ->
             s_userId s <> userId \/ s_isActive s = false
             \/ SessionController.is_current currentToken s = true ->
             In s (sessions (db w')))
      /\ (status resp = 200 ->
          exists s,
            In s (sessions (db w))
            /\ s_id s = sessionId /\ s_userId s = userId
            /\ s_isActive s = true
            /\ SessionController.is_current currentToken s = false
            /\ In (Session.deactivate (s_revokedReason s) (now (rt_env rt)) s)
                  (sessions (db w')))
      /\ (status resp <> 200 -> w' = w).
Proof.
  intros rt w sessionId userId currentToken.
  unfold SessionController.revokeSession, tryCatch.
  unfold bind at 1, getDb. cbv beta iota.
  destruct (find (SessionStatics.owned_active sessionId userId)
                 (sessions (db w))) as [x|] eqn:Hx.
  2:{ eexists _, w. split; [reflexivity|]. repeat split; auto.
      cbn. discriminate. }
  destruct (SessionController.is_current currentToken x) eqn:Hcur.
  { eexists _, w. split; [reflexivity|]. repeat split; auto.
    cbn. discriminate. }
  destruct (find_some_in _ _ _ Hx) as [Hin Hown].
  destruct (owned_active_spec _ _ _ Hown) as [Hid [Hu Ha]].
  unfold bind.
  destruct (rt_session_fails rt (RevokeById sessionId userId)) eqn:F.
  { rewrite (static_revokeSession_refused rt sessionId userId w F).
    eexists _, w. split; [reflexivity|]. repeat split; auto.
    cbn. discriminate. }
  rewrite (static_revokeSession_run rt sessionId userId w F).
  eexists _, _. split; [reflexivity|].
  cbn [db sessions with_sessions status]. split; [|split].
  - intros s Hs Hwhy. apply (update_first_keeps _ _ _ x s Hx Hs).
    intros ->. destruct Hwhy as [H|[H|H]]; congruence.
  - intros _. exists x. repeat split; auto.
    exact (update_first_updates
             _ (fun s => Session.deactivate (s_revokedReason s)
                                            (now (rt_env rt)) s) _ x Hx).
  - intros H. now elim H.
Qed.

Lemma revokeSession_spares_current_and_foreign_sessions_witness :
  exists resp w',
    SessionController.revokeSession (runtime_at 9000%Z "t" []) 3 1
                                    (Some "jwt-1") (world_of db_two_users)
    = (Ok resp, w')
    /\ status resp = 200
    /\ map (fun s => (s_id s, s_isActive s)) (sessions (db w'))
       = [(1, true); (2, true); (3, false)]
    /\ In live_session (sessions (db w'))
    /\ In carol_session (sessions (db w')).
Proof.
  destruct (revokeSession_spares_current_and_foreign_sessions
              (runtime_at 9000%Z "t" []) (world_of db_two_users) 3 1
              (Some "jwt-1")) as [resp [w' [Hrun [Hkeep _]]]].
  exists resp, w'. split; [exact Hrun|].
  split; [vm_compute in Hrun; now injection Hrun as <- _|].
  split; [vm_compute in Hrun; now injection Hrun as _ <-|].
  split; apply Hkeep; cbn; auto.
Defined.

Lemma others_of_spec userId exceptToken s :
  SessionStatics.others_of userId exceptToken s = true
  <-> s_userId s = userId /\ s_isActive s = true
      /\ (truthy exceptToken = true -> Some (s_token s) <> exceptToken).
Proof.
  unfold SessionStatics.others_of.
  rewrite !andb_true_iff, Nat.eqb_eq.
  destruct exceptToken as [t|]; cbn [truthy].
  - destruct (negb (String.eqb t "")) eqn:T.
    + rewrite negb_true_iff.
      destruct (String.eqb (s_token s) t) eqn:E.
      * apply String.eqb_eq in E. subst t.
        split; [intros [_ H]; discriminate|intros [_ [_ H]]; now elim H].
      * apply String.eqb_neq in E.
        split; [intros [[-> ->] _]; repeat split; congruence|].
        intros [-> [-> _]]. auto.
    + split; [intros [[-> ->] _]; repeat split; discriminate|].
      intros [-> [-> _]]. auto.
  - split; [intros [[-> ->] _]; repeat split; discriminate|].
    intros [-> [-> _]]. auto.
Qed.

Lemma static_revokeAllSessions_run rt userId exceptToken w :
  rt_session_fails rt (RevokeAllOf userId exceptToken) = false ->
  SessionStatics.revokeAllSessions rt userId exceptToken w
  = (Ok (length (filter (SessionStatics.others_of userId exceptToken)
                        (sessions (db w)))),
     mkWorld
       (with_sessions
          (map (fun s => if SessionStatics.others_of userId exceptToken s
                         then Session.deactivate (s_revokedReason s)
                                                 (now (rt_env rt)) s
                         else s))
          (db w))
       (journal w) (cookies w)).
Proof.
  intros Hf.
  unfold SessionStatics.revokeAllSessions, bind, getDb, session_write, ret.
  now rewrite Hf.
Qed.

(** X11.  An accepted revoke-all request leaves the user no active
    session except the one carrying the caller's token; with no token
    given, or an empty one, none is spared.  Sessions of other users
    and the spared session are unchanged, the sessions' user type plays
    no part, and the count the endpoint reports is the number of
    sessions switched off. *)
Theorem revokeAllSessions_spares_only_the_excepted_token :
  forall rt w userId exceptToken,
    rt_session_fails rt (RevokeAllOf userId exceptToken) = false ->
    exists n w',
      SessionStatics.revokeAllSessions rt userId exceptToken w = (Ok n, w')
      /\ SessionController.revokeAllSessions rt userId exceptToken w
         = (Ok (mkResponse 200 true
                  (String.append "Successfully revoked "
                     (String.append (nat_to_string n) " session(s)"))
                  [("revokedCount", nat_to_string n)]), w')
      /\ (forall s,
             In s (sessions (db w')) ->
             s_userId s = userId -> s_isActive s = true ->
             truthy exceptToken = true /\ Some (s_token s) = exceptToken)
      /\ (forall s,
             In s (sessions (db w)) ->
             s_userId s <> userId
             \/ (truthy exceptToken = true /\ Some (s_token s) = exceptToken) ->
             In s (sessions (db w')))
      /\ length (filter s_isActive (sessions (db w)))
         = length (filter s_isActive (sessions (db w'))) + n.
Proof.
  intros rt w userId exceptToken Hf.
  unfold SessionController.revokeAllSessions, tryCatch, bind.
  rewrite (static_revokeAllSessions_run rt userId exceptToken w Hf).
  eexists _, _. split; [reflexivity|]. split; [reflexivity|].
  cbn [db sessions with_sessions]. split; [|split].
  - intros s Hs Hu Ha. apply in_map_iff in Hs as [x [Hx Hin]].
    destruct (SessionStatics.others_of userId exceptToken x) eqn:E.
    + subst s. discriminate.
    + subst x.
      destruct (truthy exceptToken) eqn:T.
      * split; [reflexivity|].
        destruct exceptToken as [t|]; [|discriminate].
        destruct (String.eqb (s_token s) t) eqn:Et.
        -- apply String.eqb_eq in Et. now subst.
        -- assert (SessionStatics.others_of userId (Some t) s = true);
             [|congruence].
           apply others_of_spec. repeat split; auto.
           intros _ [= H]. apply String.eqb_neq in Et. contradiction.
      * assert (SessionStatics.others_of userId exceptToken s = true);
          [|congruence].
        apply others_of_spec. repeat split; auto. congruence.
  - intros s Hs Hwhy. apply in_map_iff. exists s. split; [|exact Hs].
    destruct (SessionStatics.others_of userId exceptToken s) eqn:E;
      [|reflexivity].
    apply others_of_spec in E as [Hu [_ Hne]].
    destruct Hwhy as [H|[T H]]; [contradiction|]. now elim (Hne T).
  - induction (sessions (db w)) as [|s l IH]; [reflexivity|]. cbn [map filter].
    destruct (SessionStatics.others_of userId exceptToken s) eqn:E.
    + rewrite deactivate_not_active.
      apply others_of_spec in E as [_ [-> _]]. cbn [length]. lia.
    + destruct (s_isActive s); cbn [length]; lia.
Qed.

Lemma revokeAllSessions_spares_only_the_excepted_token_witness :
  exists n w',
    SessionStatics.revokeAllSessions (runtime_at 9000%Z "t" []) 1
                                     (Some "jwt-1b") (world_of db_two_users)
    = (Ok n, w')
    /\ SessionController.revokeAllSessions (runtime_at 9000%Z "t" []) 1
                                           (Some "jwt-1b") (world_of db_two_users)
       = (Ok (mkResponse 200 true
                (String.append "Successfully revoked "
                   (String.append (nat_to_string n) " session(s)"))
                [("revokedCount", nat_to_string n)]), w')
    /\ (forall s,
           In s (sessions (db w')) ->
           s_userId s = 1 -> s_isActive s = true ->
           truthy (Some "jwt-1b") = true /\ Some (s_token s) = Some "jwt-1b")
    /\ (forall s,
           In s (sessions (db (world_of db_two_users))) ->
           s_userId s <> 1
           \/ (truthy (Some "jwt-1b") = true /\ Some (s_token s) = Some "jwt-1b") ->
           In s (sessions (db w')))
    /\ 3 = length (filter s_isActive (sessions (db w'))) + n.
Proof.
  apply (revokeAllSessions_spares_only_the_excepted_token
           (runtime_at 9000%Z "t" []) (world_of db_two_users) 1 (Some "jwt-1b")).
  reflexivity.
Defined.

Lemma touch_lastLogout_sessions rt userRole userId w :
  sessions (db (snd (AuthFlows.touch_lastLogout rt userRole userId w)))
  = sessions (db w)
  /\ cookies (snd (AuthFlows.touch_lastLogout rt userRole userId w)) = cookies w.
Proof.
  unfold AuthFlows.touch_lastLogout, write.
  destruct (String.eqb userRole "doctor");
    [|destruct (String.eqb userRole "patient")];
    match goal with |- context [fails ?e ?op] => destruct (fails e op) end;
    cbn; now destruct (db w).
Qed.

Lemma touch_lastLogout_ok rt userRole userId w :
  (forall c id, fails (rt_env rt) (UserSave c id) = false) ->
  fst (AuthFlows.touch_lastLogout rt userRole userId w) = Ok tt.
Proof.
  intros Hf. unfold AuthFlows.touch_lastLogout, write.
  destruct (String.eqb userRole "doctor");
    [|destruct (String.eqb userRole "patient")]; now rewrite Hf.
Qed.

Lemma no_active_token_after_revoke token t l :
  unique_tokens l ->
  forall s,
    In s (SessionStatics.update_first
            (SessionStatics.active_token token)
            (fun s => Session.deactivate (s_revokedReason s) t s) l) ->
    SessionStatics.active_token token s = false.
Proof.
  unfold unique_tokens. induction l as [|a l IH]; cbn; [intros _ s []|].
  intros Hnd s. inversion Hnd as [|? ? Hnot Hnd']; subst.
  destruct (SessionStatics.active_token token a) eqn:E.
  - intros [<-|Hs].
    + unfold SessionStatics.active_token. cbn. apply andb_false_r.
    + unfold SessionStatics.active_token in *.
      apply andb_true_iff in E as [E _]. apply String.eqb_eq in E.
      destruct (String.eqb (s_token s) token) eqn:Es; [|reflexivity].
      apply String.eqb_eq in Es. elim Hnot. apply in_map_iff.
      exists s. split; [congruence|exact Hs].
  - intros [<-|Hs]; [exact E|now apply IH].
Qed.

Lemma logout_prefix_run rt user userRole w :
  (forall c id, fails (rt_env rt) (UserSave c id) = false) ->
  exists w1,
    (match user with
     | Some u =>
         if negb (String.eqb userRole "")
         then AuthFlows.touch_lastLogout rt userRole (AuthController.acc_id u)
         else ret tt
     | None => ret tt
     end) w = (Ok tt, w1)
    /\ sessions (db w1) = sessions (db w) /\ cookies w1 = cookies w.
Proof.
  intros Hf.
  destruct user as [u|]; [|exists w; now repeat split].
  destruct (negb (String.eqb userRole "")); [|exists w; now repeat split].
  pose proof (touch_lastLogout_ok rt userRole (AuthController.acc_id u) w Hf) as H1.
  pose proof (touch_lastLogout_sessions rt userRole (AuthController.acc_id u) w)
    as [H2 H3].
  destruct (AuthFlows.touch_lastLogout rt userRole (AuthController.acc_id u) w)
    as [r w1].
  cbn in *. subst r. now exists w1.
Qed.

(** X12.  A logout that the store accepts answers 200, ends the session
    of the presented token (the token authenticates at no later time),
    leaves every session with another token as it was, and sets the two
    clearing cookies, one for each value of [secure]. *)
Theorem logout_ends_the_session :
  forall rt w user userRole token,
    unique_tokens (sessions (db w)) ->
    String.eqb token "" = false ->
    rt_session_fails rt (RevokeByToken token) = false ->
    (forall c id, fails (rt_env rt) (UserSave c id) = false) ->
    exists w',
      AuthFlows.logout rt user userRole (Some token) w
      = (Ok (mkResponse 200 true "Logged out successfully" []), w')
      /\ (forall env', Session.findByToken env' token w' = (Ok None, w'))
      /\ (forall s, In s (sessions (db w)) -> s_token s <> token ->
                    In s (sessions (db w')))
      /\ cookies w'
         = cookies w
           ++ [AuthFlows.cleared_cookie (production (rt_env rt));
               AuthFlows.cleared_cookie (negb (production (rt_env rt)))].
Proof.
  intros rt w user userRole token Huniq Htok Hsf Huf.
  destruct (logout_prefix_run rt user userRole w Huf) as [w1 [H1 [Hs Hc]]].
  unfold AuthFlows.logout, tryCatch. unfold bind at 1. rewrite H1.
  cbn [truthy]. rewrite Htok. cbn [negb].
  unfold bind, session_write, set_cookie, ret. rewrite Hsf.
  eexists. split; [reflexivity|].
  cbn [db sessions with_sessions cookies]. rewrite Hs, Hc. split; [|split].
  - intros env'. unfold Session.findByToken, bind, getDb, ret.
    cbn [db sessions with_sessions].
    rewrite find_none_all; [reflexivity|].
    intros s Hin. try rewrite Hs in Hin.
    pose proof (no_active_token_after_revoke token _ _ Huniq s Hin) as Hna.
    unfold SessionStatics.active_token in Hna. unfold Session.authenticates.
    now rewrite Hna.
  - intros s Hin Hne.
    destruct (find (SessionStatics.active_token token) (sessions (db w)))
      as [x|] eqn:Hx.
    + apply (update_first_keeps _ _ _ x s Hx Hin). intros ->.
      apply find_some in Hx as [_ Hx]. unfold SessionStatics.active_token in Hx.
      apply andb_true_iff in Hx as [Hx _]. now apply String.eqb_eq in Hx.
    + now rewrite update_first_none.
  - now rewrite <- app_assoc.
Qed.

Lemma logout_ends_the_session_witness :
  exists w',
    AuthFlows.logout (runtime_at 9000%Z "t" []) (Some (PatientAcc alice))
                     "patient" (Some "jwt-1") (world_of db_two_users)
    = (Ok (mkResponse 200 true "Logged out successfully" []), w')
    /\ (forall env', Session.findByToken env' "jwt-1" w' = (Ok None, w'))
    /\ (forall s, In s (sessions (db (world_of db_two_users))) ->
                  s_token s <> "jwt-1" -> In s (sessions (db w')))
    /\ cookies w'
       = [AuthFlows.cleared_cookie false; AuthFlows.cleared_cookie true].
Proof.
  apply (logout_ends_the_session
           (runtime_at 9000%Z "t" []) (world_of db_two_users)
           (Some (PatientAcc alice)) "patient" "jwt-1");
    try reflexivity.
  unfold unique_tokens. cbn.
  repeat constructor; cbn; intuition discriminate.
Defined.

(** What [findByIdAndUpdate] of [logout] does to the collection of
    the role when the store accepts it. *)
Lemma touch_lastLogout_stamps rt userRole userId w :
  (forall c id, fails (rt_env rt) (UserSave c id) = false) ->
  (userRole = "doctor" ->
   doctors (db (snd (AuthFlows.touch_lastLogout rt userRole userId w)))
   = map (fun u => if Nat.eqb (u_id u) userId
                   then AuthFlows.set_lastLogout (now (rt_env rt)) u else u)
         (doctors (db w)))
  /\ (userRole = "patient" ->
      patients (db (snd (AuthFlows.touch_lastLogout rt userRole userId w)))
      = map (fun u => if Nat.eqb (u_id u) userId
                      then AuthFlows.set_lastLogout (now (rt_env rt)) u else u)
            (patients (db w)))
  /\ (userRole <> "doctor" -> userRole <> "patient" ->
      admins (db (snd (AuthFlows.touch_lastLogout rt userRole userId w)))
      = map (fun a => if Nat.eqb (a_id a) userId
                      then AuthFlows.set_admin_lastLogout (now (rt_env rt)) a
                      else a)
            (admins (db w))).
Proof.
  intros Hf. unfold AuthFlows.touch_lastLogout, write.
  split; [|split].
  - intros ->. cbn [String.eqb Ascii.eqb Bool.eqb]. rewrite Hf. cbn.
    now destruct (db w).
  - intros ->. cbn [String.eqb Ascii.eqb Bool.eqb]. rewrite Hf. cbn.
    now destruct (db w).
  - intros Hd Hp. apply String.eqb_neq in Hd, Hp. rewrite Hd, Hp, Hf. cbn.
    now destruct (db w).
Qed.

(** X13.  When the store refuses the session update of a logout that
    presents a token, the endpoint answers 500 without clearing the
    cookie and without touching any session, so the token keeps
    authenticating; this is so for every account and role [protect]
    can have put on the request.  The [lastLogout] stamp written just
    before is not taken
    back: the database is left as that update left it, and when the
    store accepted it the account of that id in the collection of the
    role (Doctor, Patient, and Admin for every other role) carries the
    time of the failed logout. *)
Theorem logout_failure_keeps_session_and_cookie :
  forall rt w user userRole token,
    String.eqb token "" = false ->
    rt_session_fails rt (RevokeByToken token) = true ->
    exists w',
      AuthFlows.logout rt user userRole (Some token) w
      = (Ok (mkResponse 500 false "Error during logout" []), w')
      /\ cookies w' = cookies w
      /\ sessions (db w') = sessions (db w)
      /\ (forall env', fst (Session.findByToken env' token w')
                       = fst (Session.findByToken env' token w))
      /\ (user = None \/ userRole = "" -> db w' = db w)
      /\ (forall u,
             user = Some u -> userRole <> "" ->
             db w'
             = db (snd (AuthFlows.touch_lastLogout
                          rt userRole (AuthController.acc_id u) w))
             /\ ((forall c id, fails (rt_env rt) (UserSave c id) = false) ->
                 (userRole = "doctor" ->
                  doctors (db w')
                  = map (fun x => if Nat.eqb (u_id x) (AuthController.acc_id u)
                                  then AuthFlows.set_lastLogout
                                         (now (rt_env rt)) x
                                  else x)
                        (doctors (db w)))
                 /\ (userRole = "patient" ->
                     patients (db w')
                     = map (fun x => if Nat.eqb (u_id x) (AuthController.acc_id u)
                                     then AuthFlows.set_lastLogout
                                            (now (rt_env rt)) x
                                     else x)
                           (patients (db w)))
                 /\ (userRole <> "doctor" -> userRole <> "patient" ->
                     admins (db w')
                     = map (fun a => if Nat.eqb (a_id a) (AuthController.acc_id u)
                                     then AuthFlows.set_admin_lastLogout
                                            (now (rt_env rt)) a
                                     else a)
                           (admins (db w))))).
Proof.
  intros rt w user userRole token Htok Hsf.
  assert (Hrest : forall w1,
             ((if truthy (Some token) then
                 session_write rt (RevokeByToken token)
                   (with_sessions
                      (SessionStatics.update_first
                         (SessionStatics.active_token token)
                         (fun s => Session.deactivate (s_revokedReason s)
                                                      (now (rt_env rt)) s)))
               else ret tt) w1)
             = (Throw "MongoError", w1)).
  { intros w1. cbn [truthy]. rewrite Htok. cbn [negb].
    unfold session_write. now rewrite Hsf. }
  assert (Hshape : forall (m : M unit),
             exists w',
               tryCatch
                 (m ;;
                  (if truthy (Some token) then
                     session_write rt (RevokeByToken token)
                       (with_sessions
                          (SessionStatics.update_first
                             (SessionStatics.active_token token)
                             (fun s => Session.deactivate (s_revokedReason s)
                                                          (now (rt_env rt)) s)))
                   else ret tt) ;;
                  set_cookie (AuthFlows.cleared_cookie (production (rt_env rt))) ;;
                  set_cookie (AuthFlows.cleared_cookie
                                (negb (production (rt_env rt)))) ;;
                  ret (mkResponse 200 true "Logged out successfully" []))%async
                 (fun _ => ret (mkResponse 500 false "Error during logout" []))
                 w
               = (Ok (mkResponse 500 false "Error during logout" []), w')
               /\ w' = snd (m w)).
  { intros m. unfold tryCatch. unfold bind at 1.
    destruct (m w) as [[[]|e] w1] eqn:Em.
    - unfold bind at 1. rewrite Hrest. unfold ret. now exists w1.
    - unfold ret. now exists w1. }
  assert (Hfind : forall w', sessions (db w') = sessions (db w) ->
             forall env', fst (Session.findByToken env' token w')
                          = fst (Session.findByToken env' token w)).
  { intros w' Hs env'. unfold Session.findByToken, bind, getDb, ret. cbn.
    now rewrite Hs. }
  unfold AuthFlows.logout.
  destruct user as [u|].
  2:{ destruct (Hshape (ret tt)) as [w' [Hrun ->]]. exists w.
      split; [exact Hrun|]. cbn [snd ret].
      split; [reflexivity|]. split; [reflexivity|].
      split; [reflexivity|]. split; [reflexivity|].
      intros u0 Hu0. discriminate. }
  destruct (String.eqb userRole "") eqn:Er; cbn [negb].
  { apply String.eqb_eq in Er.
    destruct (Hshape (ret tt)) as [w' [Hrun ->]]. exists w.
    split; [exact Hrun|]. cbn [snd ret].
    split; [reflexivity|]. split; [reflexivity|].
    split; [reflexivity|]. split; [reflexivity|].
    intros u0 _ Hne. now elim Hne. }
  apply String.eqb_neq in Er.
  destruct (Hshape (AuthFlows.touch_lastLogout rt userRole
                                               (AuthController.acc_id u)))
    as [w' [Hrun ->]].
  pose proof (touch_lastLogout_sessions rt userRole (AuthController.acc_id u) w)
    as [Hs Hc].
  eexists. split; [exact Hrun|].
  split; [exact Hc|]. split; [exact Hs|]. split; [now apply Hfind|].
  split; [intros [[=]|He]; now elim Er|].
  intros u0 [= <-] _. split; [reflexivity|].
  intros Hf. now apply touch_lastLogout_stamps.
Qed.

(** Alice's logout, and the logout of an administrator whose role in
    the token is [super_admin], with a store that refuses the session
    update. *)
Lemma logout_failure_keeps_session_and_cookie_witness :
  (exists w',
      AuthFlows.logout
        (mkRuntime (env_at 9000%Z "t") (verifier []) (fun _ => true))
        (Some (PatientAcc alice)) "patient" (Some "jwt-1")
        (world_of db_two_users)
      = (Ok (mkResponse 500 false "Error during logout" []), w')
      /\ cookies w' = []
      /\ sessions (db w') = sessions db_two_users
      /\ (forall env',
             fst (Session.findByToken env' "jwt-1" w')
             = fst (Session.findByToken env' "jwt-1" (world_of db_two_users)))
      /\ map u_lastLogout (patients (db w')) = [Some 9000%Z; None])
  /\ (exists w',
         AuthFlows.logout
           (mkRuntime (env_at 9000%Z "t") (verifier []) (fun _ => true))
           (Some (AdminAcc root_admin)) "super_admin" (Some "jwt-a")
           (world_of db_admins)
         = (Ok (mkResponse 500 false "Error during logout" []), w')
         /\ cookies w' = []
         /\ map a_lastLogout (admins (db w')) = [Some 9000%Z; None]).
Proof.
  split.
  - destruct (logout_failure_keeps_session_and_cookie
                (mkRuntime (env_at 9000%Z "t") (verifier []) (fun _ => true))
                (world_of db_two_users) (Some (PatientAcc alice)) "patient"
                "jwt-1" eq_refl eq_refl)
      as [w' [H1 [H2 [H3 [H4 [_ H5]]]]]].
    exists w'. repeat split; auto.
    destruct (H5 (PatientAcc alice) eq_refl) as [_ H6]; [discriminate|].
    destruct (H6 (fun _ _ => eq_refl)) as [_ [H7 _]].
    now rewrite (H7 eq_refl).
  - destruct (logout_failure_keeps_session_and_cookie
                (mkRuntime (env_at 9000%Z "t") (verifier []) (fun _ => true))
                (world_of db_admins) (Some (AdminAcc root_admin)) "super_admin"
                "jwt-a" eq_refl eq_refl)
      as [w' [H1 [H2 [_ [_ [_ H5]]]]]].
    exists w'. repeat split; auto.
    destruct (H5 (AdminAcc root_admin) eq_refl) as [_ H6]; [discriminate|].
    destruct (H6 (fun _ _ => eq_refl)) as [_ [_ H7]].
    rewrite H7; [reflexivity|discriminate|discriminate].
Defined.

(* ------------------------------------------------------------------ *)
(** * The authentication middleware *)

Lemma updateActivity_ok rt token w :
  fst (SessionStatics.updateActivity rt token w) = Ok tt.
Proof.
  unfold SessionStatics.updateActivity, tryCatch, session_write, ret.
  now destruct (rt_session_fails rt (TouchByToken token)).
Qed.

Lemma protect_run rt token w userId role user :
  String.eqb token "" = false ->
  AuthMiddleware.verifyToken rt token = Some (userId, role) ->
  account_for role userId (db w) = Some (Some user) ->
  AuthMiddleware.protect rt (Some token) w
  = match find (Session.authenticates (rt_env rt) token) (sessions (db w)) with
    | None => (Ok (Respond (mkResponse 401 false msg_session_invalid [])), w)
    | Some session =>
        (Ok (Next (mkAuthenticated token user role session)),
         snd (SessionStatics.updateActivity rt token w))
    end.
Proof.
  intros Htok Hv Hacc. unfold AuthMiddleware.protect.
  cbn [truthy]. rewrite Htok. cbn [negb]. rewrite Hv.
  unfold bind at 1, getDb. cbv beta iota.
  change (if String.eqb role "patient"
          then Some (AuthFlows.findAccountById Patient userId (db w))
          else if String.eqb role "doctor"
          then Some (AuthFlows.findAccountById Doctor userId (db w))
          else if String.eqb role "admin" || String.eqb role "super_admin"
          then Some (AuthFlows.findAccountById Admin userId (db w))
          else None)
    with (account_for role userId (db w)).
  rewrite Hacc. unfold bind at 1, Session.findByToken, bind, getDb, ret.
  destruct (find (Session.authenticates (rt_env rt) token) (sessions (db w)));
    [|reflexivity].
  pose proof (updateActivity_ok rt token w) as H.
  destruct (SessionStatics.updateActivity rt token w) as [r w1].
  cbn in H. subst r. reflexivity.
Qed.

Lemma account_for_sessions role userId f d :
  account_for role userId (with_sessions f d) = account_for role userId d.
Proof. now destruct d. Qed.

(** X14.  [protect] never throws, and whatever it answers it leaves
    accounts, codes, audit log, journal and cookies untouched and the
    sessions' identity, owner, token, expiry and active flag as they
    were.  It answers 401 for a missing or empty cookie, and 400, not
    401, for a cookie whose token [jwt.verify] rejects or whose [exp]
    has passed; in both cases nothing at all is written. *)
Theorem protect_answers_without_side_effects :
  forall rt cookie w,
    exists g w',
      AuthMiddleware.protect rt cookie w = (Ok g, w')
      /\ map session_core (sessions (db w'))
         = map session_core (sessions (db w))
      /\ (doctors (db w'), patients (db w'), admins (db w'), otps (db w'),
          authlogs (db w'), journal w', cookies w')
         = (doctors (db w), patients (db w), admins (db w), otps (db w),
            authlogs (db w), journal w, cookies w)
      /\ (truthy cookie = false ->
          g = Respond (mkResponse 401 false "missing token" []) /\ w' = w)
      /\ (forall token,
             cookie = Some token -> String.eqb token "" = false ->
             AuthMiddleware.verifyToken rt token = None ->
             g = Respond (mkResponse 400 false "{}" []) /\ w' = w).
Proof.
  intros rt cookie w. unfold AuthMiddleware.protect.
  assert (Hsame : forall g : Guard Authenticated,
             (truthy cookie = false ->
              g = Respond (mkResponse 401 false "missing token" [])) ->
             (forall tk, cookie = Some tk -> String.eqb tk "" = false ->
                         AuthMiddleware.verifyToken rt tk = None ->
                         g = Respond (mkResponse 400 false "{}" [])) ->
             exists g' w',
               (Ok g, w) = (Ok g', w')
               /\ map session_core (sessions (db w'))
                  = map session_core (sessions (db w))
               /\ (doctors (db w'), patients (db w'), admins (db w'),
                   otps (db w'), authlogs (db w'), journal w', cookies w')
                  = (doctors (db w), patients (db w), admins (db w),
                     otps (db w), authlogs (db w), journal w, cookies w)
               /\ (truthy cookie = false ->
                   g' = Respond (mkResponse 401 false "missing token" [])
                   /\ w' = w)
               /\ (forall tk,
                      cookie = Some tk -> String.eqb tk "" = false ->
                      AuthMiddleware.verifyToken rt tk = None ->
                      g' = Respond (mkResponse 400 false "{}" []) /\ w' = w)).
  { intros g H1 H2. exists g, w. split; [reflexivity|].
    split; [reflexivity|]. split; [reflexivity|]. split.
    - intros T. split; [now apply H1|reflexivity].
    - intros tk Hc Hne Hv. split; [now apply (H2 tk)|reflexivity]. }
  destruct (truthy cookie) eqn:T; cbn [negb].
  2:{ apply Hsame; [reflexivity|].
      intros tk -> Hne. cbn in T. now rewrite Hne in T. }
  destruct cookie as [tk|]; [|discriminate].
  destruct (AuthMiddleware.verifyToken rt tk) as [[userId role]|] eqn:V.
  2:{ apply Hsame; [discriminate|reflexivity]. }
  unfold bind at 1, getDb. cbv beta iota.
  match goal with
  | |- context [match ?l with Some _ => _ | None => _ end] =>
      destruct l as [[user|]|]
  end.
  2,3: apply Hsame; [discriminate|intros ? [= <-] _ H; congruence].
  unfold bind at 1, Session.findByToken, bind, getDb, ret.
  destruct (find (Session.authenticates (rt_env rt) tk) (sessions (db w))).
  2:{ apply Hsame; [discriminate|intros ? [= <-] _ H; congruence]. }
  destruct (updateActivity_frame rt tk w) as [w1 [Hrun [Hcore Hrest]]].
  rewrite Hrun. eexists _, w1. split; [reflexivity|].
  split; [exact Hcore|]. split; [exact Hrest|].
  split; [discriminate|]. intros ? [= <-] _ H. congruence.
Qed.

Lemma protect_answers_without_side_effects_witness :
  exists g w',
    AuthMiddleware.protect
      (runtime_at 700000000%Z "t" [("jwt-1", alice_claims)]) (Some "jwt-1")
      (world_of db_two_users) = (Ok g, w')
    /\ g = Respond (mkResponse 400 false "{}" [])
    /\ w' = world_of db_two_users.
Proof.
  destruct (protect_answers_without_side_effects
              (runtime_at 700000000%Z "t" [("jwt-1", alice_claims)])
              (Some "jwt-1") (world_of db_two_users))
    as [g [w' [Hrun [_ [_ [_ H]]]]]].
  exists g, w'. split; [exact Hrun|].
  exact (H "jwt-1" eq_refl eq_refl eq_refl).
Defined.

Lemma findAccountById_id c id d x :
  AuthFlows.findAccountById c id d = Some x -> AuthController.acc_id x = id.
Proof.
  unfold AuthFlows.findAccountById, AuthFlows.findById, AuthFlows.findAdminById.
  destruct c;
    match goal with
    | |- option_map _ (find ?p ?l) = _ -> _ =>
        destruct (find p l) as [u|] eqn:E; cbn; [|discriminate];
        intros [= <-]; apply find_some in E as [_ E];
        now apply Nat.eqb_eq in E
    end.
Qed.

Lemma account_for_id role userId d x :
  account_for role userId d = Some (Some x) -> AuthController.acc_id x = userId.
Proof.
  unfold account_for.
  destruct (String.eqb role "patient");
    [|destruct (String.eqb role "doctor");
      [|destruct (String.eqb role "admin" || String.eqb role "super_admin")]];
    try discriminate; intros [= H];
    [exact (findAccountById_id Patient userId d x H)
    |exact (findAccountById_id Doctor userId d x H)
    |exact (findAccountById_id Admin userId d x H)].
Qed.

Lemma protect_next_inv rt cookie w a w' :
  AuthMiddleware.protect rt cookie w = (Ok (Next a), w') ->
  cookie = Some (au_token a)
  /\ String.eqb (au_token a) "" = false
  /\ AuthMiddleware.verifyToken rt (au_token a)
     = Some (AuthController.acc_id (au_user a), au_userRole a)
  /\ account_for (au_userRole a) (AuthController.acc_id (au_user a)) (db w)
     = Some (Some (au_user a))
  /\ find (Session.authenticates (rt_env rt) (au_token a)) (sessions (db w))
     = Some (au_session a).
Proof.
  unfold AuthMiddleware.protect.
  destruct (truthy cookie) eqn:T; cbn [negb]; [|discriminate].
  destruct cookie as [tk|]; [|discriminate].
  cbn in T. apply negb_true_iff in T.
  destruct (AuthMiddleware.verifyToken rt tk) as [[userId role]|] eqn:V;
    [|discriminate].
  unfold bind at 1, getDb. cbv beta iota.
  change (if String.eqb role "patient"
          then Some (AuthFlows.findAccountById Patient userId (db w))
          else if String.eqb role "doctor"
          then Some (AuthFlows.findAccountById Doctor userId (db w))
          else if String.eqb role "admin" || String.eqb role "super_admin"
          then Some (AuthFlows.findAccountById Admin userId (db w))
          else None)
    with (account_for role userId (db w)).
  destruct (account_for role userId (db w)) as [[user|]|] eqn:Hacc;
    try discriminate.
  unfold bind at 1, Session.findByToken, bind, getDb, ret.
  destruct (find (Session.authenticates (rt_env rt) tk) (sessions (db w)))
    as [session|] eqn:Hs; [|discriminate].
  pose proof (updateActivity_ok rt tk w) as Hok.
  destruct (SessionStatics.updateActivity rt tk w) as [r w1].
  cbn in Hok. subst r. intros [= <- <-].
  cbn [au_token au_user au_userRole au_session].
  pose proof (account_for_id _ _ _ _ Hacc) as Hid. subst userId.
  repeat split; assumption.
Qed.

(** X15.  Whenever [protect] hands a request on, the cookie holds a
    non-empty token that [jwt.verify] accepts and whose [exp] lies in
    the future, the id in the token is that of an existing account of
    the token's role, and the collection holds a session with exactly
    this token that is valid ([isValid]: active and unexpired) at the
    time of the request; these are the user, role and session put on
    the request. *)
Theorem protect_admits_only_live_sessions :
  forall rt cookie w a w',
    AuthMiddleware.protect rt cookie w = (Ok (Next a), w') ->
    cookie = Some (au_token a)
    /\ au_token a <> ""
    /\ (exists claims,
           rt_jwt_verify rt (au_token a) = Some claims
           /\ (now (rt_env rt) < jwt_exp claims * 1000)%Z
           /\ jwt_id claims = AuthController.acc_id (au_user a)
           /\ jwt_role claims = au_userRole a)
    /\ account_for (au_userRole a) (AuthController.acc_id (au_user a)) (db w)
       = Some (Some (au_user a))
    /\ In (au_session a) (sessions (db w))
    /\ s_token (au_session a) = au_token a
    /\ SessionStatics.isValid rt (au_session a) = true.
Proof.
  intros rt cookie w a w' Hrun.
  destruct (protect_next_inv rt cookie w a w' Hrun)
    as [Hcookie [Htok [Hjwt [Hacc Hsess]]]].
  apply find_some in Hsess as [Hin Hauth].
  unfold Session.authenticates in Hauth.
  apply andb_true_iff in Hauth as [Hauth Hexp].
  apply andb_true_iff in Hauth as [Htk Hact].
  apply String.eqb_eq in Htk.
  split; [exact Hcookie|]. split; [now apply String.eqb_neq|].
  split.
  { unfold AuthMiddleware.verifyToken in Hjwt. rewrite Htok in Hjwt.
    destruct (rt_jwt_verify rt (au_token a)) as [claims|]; [|discriminate].
    destruct (jwt_exp claims * 1000 <=? now (rt_env rt))%Z eqn:X;
      [discriminate|].
    injection Hjwt as V1 V2. apply Z.leb_gt in X. now exists claims. }
  split; [exact Hacc|]. split; [exact Hin|]. split; [exact Htk|].
  unfold SessionStatics.isValid. now rewrite Hact, Hexp.
Qed.

Lemma protect_admits_only_live_sessions_witness :
  "jwt-1" <> ""
  /\ In live_session (sessions (db (world_of db_two_users)))
  /\ SessionStatics.isValid (runtime_at 9000%Z "t" [("jwt-1", alice_claims)])
                            live_session = true.
Proof.
  destruct (protect_admits_only_live_sessions
              (runtime_at 9000%Z "t" [("jwt-1", alice_claims)])
              (Some "jwt-1") (world_of db_two_users)
              (mkAuthenticated "jwt-1" (PatientAcc alice) "patient" live_session)
              _ eq_refl) as [_ [H1 [_ [_ [H2 [_ H3]]]]]].
  exact (conj H1 (conj H2 H3)).
Defined.

Lemma account_for_kind role userId d x :
  account_for role userId d = Some (Some x) ->
  match x with
  | PatientAcc u => role = "patient" /\ In u (patients d)
  | DoctorAcc u => role = "doctor" /\ In u (doctors d)
  | AdminAcc a => (role = "admin" \/ role = "super_admin") /\ In a (admins d)
  end.
Proof.
  unfold account_for, AuthFlows.findAccountById, AuthFlows.findById,
    AuthFlows.findAdminById.
  destruct (String.eqb role "patient") eqn:P.
  { apply String.eqb_eq in P.
    destruct (find _ (patients d)) as [u|] eqn:E; cbn; [|discriminate].
    intros [= <-]. apply find_some in E as [E _]. now split. }
  destruct (String.eqb role "doctor") eqn:D.
  { apply String.eqb_eq in D.
    destruct (find _ (doctors d)) as [u|] eqn:E; cbn; [|discriminate].
    intros [= <-]. apply find_some in E as [E _]. now split. }
  destruct (String.eqb role "admin" || String.eqb role "super_admin") eqn:A;
    [|discriminate].
  apply orb_true_iff in A.
  destruct (find _ (admins d)) as [a|] eqn:E; cbn; [|discriminate].
  intros [= <-]. apply find_some in E as [E _]. split; [|exact E].
  destruct A as [A|A]; apply String.eqb_eq in A; auto.
Qed.

(** X16.  Behind [protect], the role guards agree with the kind of
    account on the request: a request that [doctorOnly] lets through
    carries a document of the Doctor collection, one that [patientOnly]
    lets through a document of the Patient collection, no request
    passes both, and one that [adminOnly] lets through carries an Admin
    document whose stored role is ["admin"] or ["super_admin"]. *)
Theorem role_guards_match_the_account_kind :
  forall rt cookie w a w',
    AuthMiddleware.protect rt cookie w = (Ok (Next a), w') ->
    (AuthMiddleware.doctorOnly (au_userRole a) = None ->
     exists u, au_user a = DoctorAcc u /\ In u (doctors (db w)))
    /\ (AuthMiddleware.patientOnly (au_userRole a) = None ->
        exists u, au_user a = PatientAcc u /\ In u (patients (db w)))
    /\ ~ (AuthMiddleware.doctorOnly (au_userRole a) = None
          /\ AuthMiddleware.patientOnly (au_userRole a) = None)
    /\ (AuthMiddleware.adminOnly (Some (au_user a)) = None ->
        exists adm,
          au_user a = AdminAcc adm /\ In adm (admins (db w))
          /\ (a_role adm = "admin" \/ a_role adm = "super_admin")).
Proof.
  intros rt cookie w a w' Hrun.
  destruct (protect_next_inv rt cookie w a w' Hrun) as [_ [_ [_ [Hacc _]]]].
  apply account_for_kind in Hacc.
  unfold AuthMiddleware.doctorOnly, AuthMiddleware.patientOnly,
    AuthMiddleware.adminOnly, AuthMiddleware.stored_role.
  destruct (au_user a) as [u|u|adm].
  - destruct Hacc as [-> Hin]. cbn. split; [intros _; now exists u|].
    split; [discriminate|]. split; [intros [_ H]; discriminate|discriminate].
  - destruct Hacc as [-> Hin]. cbn. split; [discriminate|].
    split; [intros _; now exists u|].
    split; [intros [H _]; discriminate|discriminate].
  - destruct Hacc as [Hrole Hin].
    split; [destruct Hrole as [-> | ->]; discriminate|].
    split; [destruct Hrole as [-> | ->]; discriminate|].
    split; [destruct Hrole as [-> | ->]; intros [H _]; discriminate|].
    intros Hpass. exists adm. split; [reflexivity|]. split; [exact Hin|].
    destruct (String.eqb (a_role adm) "admin") eqn:E1;
      [left; now apply String.eqb_eq|].
    destruct (String.eqb (a_role adm) "super_admin") eqn:E2;
      [right; now apply String.eqb_eq|].
    cbn in Hpass. discriminate.
Qed.

Lemma role_guards_match_the_account_kind_witness :
  (AuthMiddleware.patientOnly "patient" = None ->
   exists u, PatientAcc alice = PatientAcc u
             /\ In u (patients (db (world_of db_two_users))))
  /\ ~ (AuthMiddleware.doctorOnly "patient" = None
        /\ AuthMiddleware.patientOnly "patient" = None).
Proof.
  destruct (role_guards_match_the_account_kind
              (runtime_at 9000%Z "t" [("jwt-1", alice_claims)])
              (Some "jwt-1") (world_of db_two_users)
              (mkAuthenticated "jwt-1" (PatientAcc alice) "patient" live_session)
              _ eq_refl) as [_ [H1 [H2 _]]].
  exact (conj H1 H2).
Defined.

Lemma enforced_token_dead env env' userId userType token l :
  unique_tokens l ->
  (exists old, In old l /\ s_token old = token
               /\ Session.active_of userId userType old = true) ->
  forall s, In s (map (enforce env userId userType) l) ->
            Session.authenticates env' token s = false.
Proof.
  intros Huniq [old [Hold [Htok Hact]]] s Hs.
  apply in_map_iff in Hs as [x [<- Hx]].
  destruct (String.eqb (s_token x) token) eqn:E.
  - apply String.eqb_eq in E.
    assert (x = old) by (apply (unique_tokens_same l); congruence). subst x.
    now apply revoked_does_not_authenticate.
  - unfold Session.authenticates. now rewrite enforce_token, E.
Qed.

(** X17.  After a completed second login, a request that presents the
    first device's token is refused by [protect] with 401, although the
    token itself is still a valid JWT of an existing account, while the
    new token is handed on with the new session. *)
Theorem second_login_locks_out_first_device :
  forall env rt w userId role r old user,
    unique_tokens (sessions (db w)) ->
    In old (sessions (db w)) ->
    Session.active_of userId (Utils.userTypeOfRole role) old = true ->
    String.eqb (clientIp r) "" = false ->
    token_free (jwt_sign env) (sessions (db w)) = true ->
    fails env (SessionUpdateMany userId (Utils.userTypeOfRole role)) = false ->
    fails env (SessionInsert (jwt_sign env)) = false ->
    account_for role userId (db w) = Some (Some user) ->
    String.eqb (s_token old) "" = false ->
    AuthMiddleware.verifyToken rt (s_token old) = Some (userId, role) ->
    String.eqb (jwt_sign env) "" = false ->
    AuthMiddleware.verifyToken rt (jwt_sign env) = Some (userId, role) ->
    (now (rt_env rt) < now env + Utils.seven_days)%Z ->
    exists w1 w2,
      Utils.generateToken env userId role (Some r) w = (Ok (jwt_sign env), w1)
      /\ AuthMiddleware.protect rt (Some (s_token old)) w1
         = (Ok (Respond (mkResponse 401 false msg_session_invalid [])), w1)
      /\ AuthMiddleware.protect rt (Some (jwt_sign env)) w1
         = (Ok (Next (mkAuthenticated (jwt_sign env) user role
                                      (issued_session env w userId role r))),
            w2).
Proof.
  intros env rt w userId role r old user Huniq Hold Hact Hip Hfree Hf1 Hf2
         Hacc Hold_tok Hold_jwt Hnew_tok Hnew_jwt Htime.
  rewrite (generateToken_run env w userId role r Hip Hfree Hf1 Hf2).
  eexists _, _. split; [reflexivity|].
  assert (Hdead : forall tok,
             (exists o, In o (sessions (db w)) /\ s_token o = tok
                        /\ Session.active_of userId (Utils.userTypeOfRole role) o
                           = true)
             \/ token_free tok (sessions (db w)) = true ->
             find (Session.authenticates (rt_env rt) tok)
                  (map (enforce env userId (Utils.userTypeOfRole role))
                       (sessions (db w))) = None).
  { intros tok Hwhy. apply find_none_all. intros s Hs.
    destruct Hwhy as [Hex|Hfr].
    - now apply (enforced_token_dead env (rt_env rt) userId
                   (Utils.userTypeOfRole role) tok (sessions (db w))).
    - apply in_map_iff in Hs as [x [<- Hx]].
      unfold Session.authenticates. rewrite enforce_token.
      pose proof (token_free_not_in tok _ x Hfr Hx) as Hne.
      apply String.eqb_neq in Hne. now rewrite Hne. }
  split.
  - rewrite (protect_run rt (s_token old) _ userId role user Hold_tok Hold_jwt);
      [|cbn [db]; now rewrite account_for_sessions].
    cbn [db sessions with_sessions].
    replace (find (Session.authenticates (rt_env rt) (s_token old))
                  (map (enforce env userId (Utils.userTypeOfRole role))
                       (sessions (db w))
                   ++ [issued_session env w userId role r]))
      with (@None SessionDoc); [reflexivity|].
    symmetry. apply find_none_all. intros s Hs.
    apply in_app_or in Hs as [Hs|[<-|[]]].
    + apply (enforced_token_dead env (rt_env rt) userId
               (Utils.userTypeOfRole role) (s_token old) (sessions (db w)));
        [exact Huniq| |exact Hs].
      now exists old.
    + unfold Session.authenticates. cbn [issued_session s_token].
      pose proof (token_free_not_in _ _ old Hfree Hold) as Hne.
      assert (String.eqb (jwt_sign env) (s_token old) = false) as ->
          by (apply String.eqb_neq; congruence).
      reflexivity.
  - rewrite (protect_run rt (jwt_sign env) _ userId role user Hnew_tok Hnew_jwt);
      [|cbn [db]; now rewrite account_for_sessions].
    cbn [db sessions with_sessions].
    rewrite (find_app_last _ _ (issued_session env w userId role r)
               (Hdead (jwt_sign env) (or_intror Hfree))); [reflexivity|].
    unfold Session.authenticates. cbn [issued_session s_token s_isActive s_expiresAt].
    rewrite String.eqb_refl. cbn [andb]. now apply Z.ltb_lt.
Qed.

Lemma second_login_locks_out_first_device_witness :
  exists w1 w2,
    Utils.generateToken (env_at 9000%Z "jwt-2") 1 "patient"
                        (Some chrome_on_linux) (world_of db_one_session)
    = (Ok "jwt-2", w1)
    /\ AuthMiddleware.protect
         (runtime_at 10000%Z "t" [("jwt-1", alice_claims); ("jwt-2", alice_claims)])
         (Some "jwt-1") w1
       = (Ok (Respond (mkResponse 401 false msg_session_invalid [])), w1)
    /\ AuthMiddleware.protect
         (runtime_at 10000%Z "t" [("jwt-1", alice_claims); ("jwt-2", alice_claims)])
         (Some "jwt-2") w1
       = (Ok (Next (mkAuthenticated "jwt-2" (PatientAcc alice) "patient"
                      (issued_session (env_at 9000%Z "jwt-2")
                                      (world_of db_one_session) 1 "patient"
                                      chrome_on_linux))),
          w2).
Proof.
  apply (second_login_locks_out_first_device
           (env_at 9000%Z "jwt-2")
           (runtime_at 10000%Z "t"
                       [("jwt-1", alice_claims); ("jwt-2", alice_claims)])
           (world_of db_one_session) 1 "patient" chrome_on_linux live_session
           (PatientAcc alice));
    try reflexivity.
  - unfold unique_tokens. cbn. repeat constructor. intros [].
  - now left.
Defined.

Lemma login_suspended_run rt w email password role u :
  find (AuthController.has_email email)
       (AuthController.collection (AuthController.doctorOrPatient role) (db w))
  = Some u ->
  u_isEmailVerified u = true ->
  u_isActive u = false ->
  AuthFlows.login rt email password role w
  = (Ok (mkResponse 403 false AuthFlows.msg_suspended [("suspended", "true")]),
     logged (rt_env rt)
            (mkAuthLog (Some (u_id u))
                       (Some (AuthController.doctorOrPatient role))
                       email "failed_login" false (Some "Account suspended"))
            w).
Proof.
  intros Hfind Hver Hact. unfold AuthFlows.login, tryCatch.
  unfold bind at 1, getDb. cbv beta iota. rewrite Hfind, Hver, Hact.
  cbn [negb]. now rewrite bind_logAuthEvent.
Qed.

(** X18.  [isActive] is read by [login] and not by [protect]: for a
    verified doctor or patient account whose [isActive] is false,
    [login] answers 403 whatever password is sent, issuing no code and
    touching no account or session, while [protect] still hands on a
    request that carries the token of the account's live session. *)
Theorem login_refuses_suspended_account_protect_does_not :
  forall rt w role u token session password,
    role = "doctor" \/ role = "patient" ->
    find (AuthController.has_email (u_email u))
         (AuthController.collection (AuthController.doctorOrPatient role) (db w))
    = Some u ->
    AuthFlows.findById
      (u_id u)
      (AuthController.collection (AuthController.doctorOrPatient role) (db w))
    = Some u ->
    u_isEmailVerified u = true ->
    u_isActive u = false ->
    String.eqb token "" = false ->
    AuthMiddleware.verifyToken rt token = Some (u_id u, role) ->
    find (Session.authenticates (rt_env rt) token) (sessions (db w))
    = Some session ->
    (exists w1,
        AuthFlows.login rt (u_email u) password role w
        = (Ok (mkResponse 403 false AuthFlows.msg_suspended
                          [("suspended", "true")]), w1)
        /\ same_trust_state w w1)
    /\ exists w2,
        AuthMiddleware.protect rt (Some token) w
        = (Ok (Next (mkAuthenticated
                       token
                       (match AuthController.doctorOrPatient role with
                        | Doctor => DoctorAcc u
                        | _ => PatientAcc u
                        end)
                       role session)),
           w2).
Proof.
  intros rt w role u token session password Hrole Hmail Hid Hver Hsus Htok
         Hjwt Hsess.
  split.
  - rewrite (login_suspended_run rt w (u_email u) password role u
               Hmail Hver Hsus).
    eexists. split; [reflexivity|]. apply logged_same_trust_state.
  - rewrite (protect_run rt token w (u_id u) role
               (match AuthController.doctorOrPatient role with
                | Doctor => DoctorAcc u
                | _ => PatientAcc u
                end) Htok Hjwt).
    + rewrite Hsess. eexists. reflexivity.
    + unfold account_for.
      destruct Hrole as [-> | ->];
        cbn [String.eqb Ascii.eqb Bool.eqb AuthController.doctorOrPatient
             AuthController.collection AuthFlows.findAccountById] in *;
        now rewrite Hid.
Qed.

Lemma login_refuses_suspended_account_protect_does_not_witness :
  (exists w1,
      AuthFlows.login (runtime_at 9000%Z "t" [("jwt-carol", carol_claims)])
                      "carol@example.com" "C4rol!Pw" "patient"
                      (world_of db_two_users)
      = (Ok (mkResponse 403 false AuthFlows.msg_suspended
                        [("suspended", "true")]), w1)
      /\ same_trust_state (world_of db_two_users) w1)
  /\ exists w2,
      AuthMiddleware.protect
        (runtime_at 9000%Z "t" [("jwt-carol", carol_claims)])
        (Some "jwt-carol") (world_of db_two_users)
      = (Ok (Next (mkAuthenticated "jwt-carol" (PatientAcc carol_suspended)
                                   "patient" carol_session)), w2).
Proof.
  apply (login_refuses_suspended_account_protect_does_not
           (runtime_at 9000%Z "t" [("jwt-carol", carol_claims)])
           (world_of db_two_users) "patient" carol_suspended "jwt-carol"
           carol_session "C4rol!Pw"); try reflexivity.
  now right.
Defined.

(* ------------------------------------------------------------------ *)
(** * Login *)

Lemma checkRateLimit_allowed env w email purpose :
  (forall o, In o (otps (db w)) -> OTP.any_for email purpose o = true ->
             (o_createdAt o + 60000 <= now env)%Z) ->
  OTPRate.checkRateLimit env email purpose w
  = (Ok (OTPRate.mkRateLimit true None), w).
Proof.
  intros Hold. unfold OTPRate.checkRateLimit, bind, getDb, ret.
  destruct (OTP.newest (filter (OTP.any_for email purpose) (otps (db w))))
    as [r|] eqn:E; [|reflexivity].
  apply newest_is_latest in E as [Hin _]. apply filter_In in Hin as [Hin Hfor].
  specialize (Hold r Hin Hfor). unfold OTPRate.oneMinute.
  assert ((now env - o_createdAt r <? 60 * 1000)%Z = false) as ->
      by (apply Z.ltb_ge; lia).
  reflexivity.
Qed.

Lemma newest_nonempty l o : In o l -> OTP.newest l <> None.
Proof.
  destruct l as [|x l]; [intros []|]. intros _. cbn.
  destruct (OTP.newest l); [destruct (_ <? _)%Z|]; discriminate.
Qed.

Lemma role_in_enum role :
  role = "doctor" \/ role = "patient" -> OTP.in_enum role OTP.role_enum = true.
Proof. now intros [-> | ->]. Qed.

Lemma login_sent_run rt w email password role u :
  role = "doctor" \/ role = "patient" ->
  find (AuthController.has_email email)
       (AuthController.collection (AuthController.doctorOrPatient role) (db w))
  = Some u ->
  u_isEmailVerified u = true ->
  u_isActive u = true ->
  bcrypt_compare password (u_password u) = true ->
  OTPRate.checkRateLimit (rt_env rt) email "login" w
  = (Ok (OTPRate.mkRateLimit true None), w) ->
  fails (rt_env rt) (OtpDeleteMany email "login") = false ->
  fails (rt_env rt) (OtpInsert email "login") = false ->
  AuthFlows.login rt email password role w
  = (Ok (mkResponse 200 true AuthFlows.msg_otp_sent
                    [("email", u_email u); ("requiresOTP", "true")]),
     logged (rt_env rt)
            (mkAuthLog (Some (u_id u))
                       (Some (AuthController.doctorOrPatient role))
                       email "login" true None)
            (after_createOTP (rt_env rt) w email role "login")).
Proof.
  intros Hrole Hfind Hver Hact Hpw Hrate Hf1 Hf2.
  unfold AuthFlows.login, tryCatch.
  unfold bind at 1, getDb. cbv beta iota. rewrite Hfind, Hver, Hact, Hpw.
  cbn [negb]. unfold bind at 1. rewrite Hrate. cbn [OTPRate.allowed negb].
  unfold bind at 1.
  rewrite (createOTP_run (rt_env rt) w email role "login"
             (role_in_enum role Hrole) eq_refl Hf1 Hf2).
  now rewrite bind_logAuthEvent.
Qed.

Lemma login_limited_run rt w email password role u k :
  find (AuthController.has_email email)
       (AuthController.collection (AuthController.doctorOrPatient role) (db w))
  = Some u ->
  u_isEmailVerified u = true ->
  u_isActive u = true ->
  bcrypt_compare password (u_password u) = true ->
  OTPRate.checkRateLimit (rt_env rt) email "login" w
  = (Ok (OTPRate.mkRateLimit false (Some k)), w) ->
  AuthFlows.login rt email password role w
  = (Ok (mkResponse 429 false (AuthFlows.msg_wait (Some k))
                    (AuthFlows.wait_fields (Some k))), w).
Proof.
  intros Hfind Hver Hact Hpw Hrate.
  unfold AuthFlows.login, tryCatch.
  unfold bind at 1, getDb. cbv beta iota. rewrite Hfind, Hver, Hact, Hpw.
  cbn [negb]. unfold bind at 1. now rewrite Hrate.
Qed.


Lemma login_unverified_run rt w email password role u :
  find (AuthController.has_email email)
       (AuthController.collection (AuthController.doctorOrPatient role) (db w))
  = Some u ->
  u_isEmailVerified u = false ->
  AuthFlows.login rt email password role w
  = (Ok (mkResponse 400 false AuthFlows.msg_not_verified
                    [("requiresVerification", "true")]),
     logged (rt_env rt)
            (mkAuthLog (Some (u_id u))
                       (Some (AuthController.doctorOrPatient role))
                       email "failed_login" false (Some "Email not verified"))
            w).
Proof.
  intros Hfind Hver. unfold AuthFlows.login, tryCatch.
  unfold bind at 1, getDb. cbv beta iota. rewrite Hfind, Hver.
  cbn [negb]. now rewrite bind_logAuthEvent.
Qed.




Lemma logged_collection env e w c :
  AuthController.collection c (db (logged env e w))
  = AuthController.collection c (db w).
Proof.
  destruct (logged_same_trust_state env e w) as [Hd [Hp _]].
  destruct c; cbn; auto.
Qed.

Lemma logged_sessions env e w : sessions (db (logged env e w)) = sessions (db w).
Proof. now destruct (logged_same_trust_state env e w) as [_ [_ [_ [_ [H _]]]]]. Qed.

Lemma logged_cookies env e w : cookies (logged env e w) = cookies w.
Proof. now destruct (logged_same_trust_state env e w) as [_ [_ [_ [_ [_ H]]]]]. Qed.

Lemma checkRateLimit_wait env w email purpose o :
  In o (otps (db w)) ->
  OTP.any_for email purpose o = true ->
  (now env < o_createdAt o + 60000)%Z ->
  (forall r, In r (otps (db w)) -> (o_createdAt r <= now env)%Z) ->
  exists k,
    OTPRate.checkRateLimit env email purpose w
    = (Ok (OTPRate.mkRateLimit false (Some k)), w)
    /\ (1 <= k <= 60)%Z.
Proof.
  intros Hin Hfor Hyoung Hpast. unfold OTPRate.checkRateLimit, bind, getDb, ret.
  assert (Hin' : In o (filter (OTP.any_for email purpose) (otps (db w))))
    by (apply filter_In; now split).
  destruct (OTP.newest (filter (OTP.any_for email purpose) (otps (db w))))
    as [r|] eqn:E; [|now elim (newest_nonempty _ _ Hin')].
  apply newest_is_latest in E as [Hr Hmax]. specialize (Hmax o Hin').
  apply filter_In in Hr as [Hr _]. specialize (Hpast r Hr).
  unfold OTPRate.oneMinute.
  assert ((now env - o_createdAt r <? 60 * 1000)%Z = true) as ->
      by (apply Z.ltb_lt; lia).
  eexists. split; [reflexivity|].
  pose proof (ceil_seconds_spec (60 * 1000 - (now env - o_createdAt r))). lia.
Qed.

Lemma resendOTP_limited_run rt w email role purpose u k :
  find (AuthController.has_email email)
       (AuthController.collection (AuthController.doctorOrPatient role) (db w))
  = Some u ->
  OTPRate.checkRateLimit (rt_env rt) email purpose w
  = (Ok (OTPRate.mkRateLimit false (Some k)), w) ->
  AuthFlows.resendOTP rt email role purpose w
  = (Ok (mkResponse 429 false (AuthFlows.msg_wait (Some k))
                    (AuthFlows.wait_fields (Some k))), w).
Proof.
  intros Hfind Hrate. unfold AuthFlows.resendOTP, tryCatch.
  unfold bind at 1, getDb. cbv beta iota. rewrite Hfind.
  unfold bind at 1. now rewrite Hrate.
Qed.

(** X20.  For one minute after [login] has sent a code, a further
    [login] with the right password and a [resendOTP] for the login
    code are both answered 429 with a wait of 1 to 60 seconds, and
    neither writes anything: no new code, no audit entry, the code
    already sent stays the pending one. *)
Theorem login_again_within_a_minute_is_limited :
  forall rt rt' w email password role u,
    role = "doctor" \/ role = "patient" ->
    find (AuthController.has_email email)
         (AuthController.collection (AuthController.doctorOrPatient role) (db w))
    = Some u ->
    u_isEmailVerified u = true ->
    u_isActive u = true ->
    bcrypt_compare password (u_password u) = true ->
    (forall o, In o (otps (db w)) -> (o_createdAt o + 60000 <= now (rt_env rt))%Z) ->
    fails (rt_env rt) (OtpDeleteMany email "login") = false ->
    fails (rt_env rt) (OtpInsert email "login") = false ->
    (now (rt_env rt) <= now (rt_env rt') < now (rt_env rt) + 60000)%Z ->
    exists w1 k,
      AuthFlows.login rt email password role w
      = (Ok (mkResponse 200 true AuthFlows.msg_otp_sent
                        [("email", u_email u); ("requiresOTP", "true")]), w1)
      /\ filter (OTP.unverified_for email "login") (otps (db w1))
         = [issued_otp (rt_env rt) w email role "login"]
      /\ (1 <= k <= 60)%Z
      /\ AuthFlows.login rt' email password role w1
         = (Ok (mkResponse 429 false (AuthFlows.msg_wait (Some k))
                           (AuthFlows.wait_fields (Some k))), w1)
      /\ AuthFlows.resendOTP rt' email role "login" w1
         = (Ok (mkResponse 429 false (AuthFlows.msg_wait (Some k))
                           (AuthFlows.wait_fields (Some k))), w1).
Proof.
  intros rt rt' w email password role u Hrole Hfind Hver Hact Hpw Hold Hf1 Hf2 Ht.
  rewrite (login_sent_run rt w email password role u Hrole Hfind Hver Hact Hpw);
    [|apply checkRateLimit_allowed; intros o Ho _; now apply Hold|exact Hf1|exact Hf2].
  set (w1 := logged _ _ _).
  assert (Hotps : otps (db w1)
                  = otps (db (after_createOTP (rt_env rt) w email role "login")))
    by apply logged_otps.
  assert (Hfind1 : find (AuthController.has_email email)
                        (AuthController.collection
                           (AuthController.doctorOrPatient role) (db w1))
                   = Some u).
  { unfold w1. rewrite logged_collection. unfold after_createOTP. cbn [db].
    destruct (AuthController.doctorOrPatient role), (db w); exact Hfind. }
  destruct (checkRateLimit_wait (rt_env rt') w1 email "login"
              (issued_otp (rt_env rt) w email role "login")) as [k [Hk Hb]].
  - rewrite Hotps. cbn. apply in_or_app. right. now left.
  - unfold OTP.any_for, issued_otp. cbn. now rewrite String.eqb_refl.
  - cbn. lia.
  - intros r Hr. rewrite Hotps in Hr. cbn in Hr.
    apply in_app_or in Hr as [Hr|[<-|[]]].
    + apply filter_In in Hr as [Hr _]. specialize (Hold r Hr). lia.
    + cbn. lia.
  - exists w1, k. split; [reflexivity|].
    split; [rewrite Hotps; apply after_createOTP_pending|].
    split; [exact Hb|]. split.
    + now apply (login_limited_run rt' w1 email password role u k).
    + now apply (resendOTP_limited_run rt' w1 email role "login" u k).
Qed.

Lemma login_again_within_a_minute_is_limited_witness :
  exists w1 k,
    AuthFlows.login (runtime_at 9000%Z "t" []) "alice@example.com" "Str0ng!Pw"
                    "patient" (world_of db_alice)
    = (Ok (mkResponse 200 true AuthFlows.msg_otp_sent
                      [("email", "alice@example.com"); ("requiresOTP", "true")]),
       w1)
    /\ filter (OTP.unverified_for "alice@example.com" "login") (otps (db w1))
       = [issued_otp (env_at 9000%Z "t") (world_of db_alice)
                     "alice@example.com" "patient" "login"]
    /\ (1 <= k <= 60)%Z
    /\ AuthFlows.login (runtime_at 39000%Z "t" []) "alice@example.com"
                       "Str0ng!Pw" "patient" w1
       = (Ok (mkResponse 429 false (AuthFlows.msg_wait (Some k))
                         (AuthFlows.wait_fields (Some k))), w1)
    /\ AuthFlows.resendOTP (runtime_at 39000%Z "t" []) "alice@example.com"
                           "patient" "login" w1
       = (Ok (mkResponse 429 false (AuthFlows.msg_wait (Some k))
                         (AuthFlows.wait_fields (Some k))), w1).
Proof.
  apply (login_again_within_a_minute_is_limited
           (runtime_at 9000%Z "t" []) (runtime_at 39000%Z "t" [])
           (world_of db_alice) "alice@example.com" "Str0ng!Pw" "patient" alice);
    try reflexivity.
  - now right.
  - intros o [].
  - cbn. lia.
Defined.

Lemma verifyOTP_login_run env w req email otp role rec u :
  role = "doctor" \/ role = "patient" ->
  OTP.findOne_unverified email "login" (db w) = Some rec ->
  OTP.isExpired env rec = false ->
  OTP.canAttempt rec = true ->
  o_otp rec = otp ->
  find (AuthController.has_email email)
       (AuthController.collection (AuthController.doctorOrPatient role) (db w))
  = Some u ->
  String.eqb (clientIp req) "" = false ->
  token_free (jwt_sign env) (sessions (db w)) = true ->
  (forall o, fails env (OtpSave o) = false) ->
  (forall c i, fails env (UserSave c i) = false) ->
  fails env (SessionUpdateMany (u_id u) (Utils.userTypeOfRole role)) = false ->
  fails env (SessionInsert (jwt_sign env)) = false ->
  exists w',
    AuthController.verifyOTP env req email otp role "login" w
    = (Ok (mkResponse 200 true "Login successful" []), w')
    /\ sessions (db w')
       = map (enforce env (u_id u) (Utils.userTypeOfRole role)) (sessions (db w))
         ++ [issued_session env w (u_id u) role req]
    /\ cookies w' = cookies w ++ [token_cookie env]
    /\ otps (db w') = OTP.replace_doc (OTP.set_verified true rec) (otps (db w))
    /\ AuthController.collection (AuthController.doctorOrPatient role) (db w')
       = AuthController.replace_user
           (AuthController.set_lastLogin (now env) u)
           (AuthController.collection (AuthController.doctorOrPatient role)
                                      (db w)).
Proof.
  intros Hrole Hrec Hexp Hcan Hotp Hfind Hip Hfree Hok Hus Hf1 Hf2.
  unfold AuthController.verifyOTP, tryCatch. unfold bind at 1.
  rewrite (verifyOTP_success_run env w email otp "login" rec
             Hrec Hexp Hcan Hotp (Hok _)).
  cbn [OTP.success negb]. unfold bind at 1, getDb. cbv beta iota.
  cbn [db].
  assert (Hcoll : forall f,
             AuthController.collection (AuthController.doctorOrPatient role)
                                       (with_otps f (db w))
             = AuthController.collection (AuthController.doctorOrPatient role)
                                         (db w))
    by (intros f; destruct (AuthController.doctorOrPatient role), (db w);
        reflexivity).
  rewrite Hcoll, Hfind.
  cbn [String.eqb Ascii.eqb Bool.eqb].
  unfold bind at 1.
  assert (Hsave : forall w0,
             AuthController.saveUser
               env (AuthController.doctorOrPatient role)
               (AuthController.set_lastLogin (now env) u) w0
             = (Ok tt,
                mkWorld
                  (match AuthController.doctorOrPatient role with
                   | Doctor => with_doctors
                   | _ => with_patients
                   end
                     (AuthController.replace_user
                        (AuthController.set_lastLogin (now env) u)) (db w0))
                  (journal w0
                   ++ [Wrote (UserSave (match AuthController.doctorOrPatient role
                                        with Doctor => Doctor | _ => Patient end)
                                       (u_id u))])
                  (cookies w0))).
  { intros w0. unfold AuthController.saveUser, AuthController.save, write.
    destruct (AuthController.doctorOrPatient role); now rewrite Hus. }
  rewrite Hsave. unfold bind at 1.
  match goal with
  | |- context [Utils.generateToken env ?i ?r ?q ?w0] =>
      rewrite (generateToken_run env w0 i r req Hip)
  end.
  2:{ cbn [db]. destruct (AuthController.doctorOrPatient role), (db w); exact Hfree. }
  2: exact Hf1.
  2: exact Hf2.
  rewrite bind_logAuthEvent. unfold ret. eexists. split; [reflexivity|].
  rewrite logged_sessions, logged_cookies, logged_otps, logged_collection.
  cbn [db cookies].
  unfold issued_session.
  destruct Hrole as [-> | ->]; destruct w as [[? ? ? ? ? ?] ? ?]; cbn;
    repeat split.
Qed.

Lemma token_free_enforced_none env env' userId userType token l :
  token_free token l = true ->
  find (Session.authenticates env' token) (map (enforce env userId userType) l)
  = None.
Proof.
  intros Hfree. apply find_none_all. intros s Hs.
  apply in_map_iff in Hs as [x [<- Hx]].
  unfold Session.authenticates. rewrite enforce_token.
  pose proof (token_free_not_in token _ x Hfree Hx) as Hne.
  apply String.eqb_neq in Hne. now rewrite Hne.
Qed.

Lemma after_createOTP_rest env w email role purpose :
  sessions (db (after_createOTP env w email role purpose)) = sessions (db w)
  /\ cookies (after_createOTP env w email role purpose) = cookies w
  /\ forall c,
      AuthController.collection c (db (after_createOTP env w email role purpose))
      = AuthController.collection c (db w).
Proof.
  unfold after_createOTP. cbn. destruct (db w).
  split; [reflexivity|]. split; [reflexivity|]. now intros [].
Qed.

(** The answer of [verifyOTP] to the right login code does not depend
    on the session step: the code is consumed, [lastLogin] is stamped
    and the cookie is set, whether or not a session gets stored. *)
Lemma verifyOTP_login_answer env w req email otp role rec u :
  OTP.findOne_unverified email "login" (db w) = Some rec ->
  OTP.isExpired env rec = false ->
  OTP.canAttempt rec = true ->
  o_otp rec = otp ->
  find (AuthController.has_email email)
       (AuthController.collection (AuthController.doctorOrPatient role) (db w))
  = Some u ->
  (forall o, fails env (OtpSave o) = false) ->
  (forall c i, fails env (UserSave c i) = false) ->
  exists w',
    AuthController.verifyOTP env req email otp role "login" w
    = (Ok (mkResponse 200 true "Login successful" []), w')
    /\ cookies w' = cookies w ++ [token_cookie env]
    /\ otps (db w') = OTP.replace_doc (OTP.set_verified true rec) (otps (db w))
    /\ AuthController.collection (AuthController.doctorOrPatient role) (db w')
       = AuthController.replace_user
           (AuthController.set_lastLogin (now env) u)
           (AuthController.collection (AuthController.doctorOrPatient role)
                                      (db w)).
Proof.
  intros Hrec Hexp Hcan Hotp Hfind Hok Hus.
  unfold AuthController.verifyOTP, tryCatch. unfold bind at 1.
  rewrite (verifyOTP_success_run env w email otp "login" rec
             Hrec Hexp Hcan Hotp (Hok _)).
  cbn [OTP.success negb]. unfold bind at 1, getDb. cbv beta iota.
  cbn [db].
  assert (Hcoll : forall f,
             AuthController.collection (AuthController.doctorOrPatient role)
                                       (with_otps f (db w))
             = AuthController.collection (AuthController.doctorOrPatient role)
                                         (db w))
    by (intros f; destruct (AuthController.doctorOrPatient role), (db w);
        reflexivity).
  rewrite Hcoll, Hfind.
  cbn [String.eqb Ascii.eqb Bool.eqb].
  unfold bind at 1.
  assert (Hsave : forall w0,
             AuthController.saveUser
               env (AuthController.doctorOrPatient role)
               (AuthController.set_lastLogin (now env) u) w0
             = (Ok tt,
                mkWorld
                  (match AuthController.doctorOrPatient role with
                   | Doctor => with_doctors
                   | _ => with_patients
                   end
                     (AuthController.replace_user
                        (AuthController.set_lastLogin (now env) u)) (db w0))
                  (journal w0
                   ++ [Wrote (UserSave (match AuthController.doctorOrPatient role
                                        with Doctor => Doctor | _ => Patient end)
                                       (u_id u))])
                  (cookies w0))).
  { intros w0. unfold AuthController.saveUser, AuthController.save, write.
    destruct (AuthController.doctorOrPatient role); now rewrite Hus. }
  rewrite Hsave. unfold bind at 1.
  match goal with
  | |- context [Utils.generateToken env ?i ?r ?q ?w0] =>
      destruct (generateToken_total env w0 i r q) as [w1 [Hgen [Hck _]]];
      pose proof (generateToken_frame env w0 i r q) as Hframe;
      rewrite Hgen in *
  end.
  cbn [snd db cookies] in Hframe, Hck.
  destruct Hframe as (Hd & Hp & _ & Ho & _).
  rewrite bind_logAuthEvent. unfold ret. eexists. split; [reflexivity|].
  rewrite logged_cookies, logged_otps, logged_collection.
  split; [exact Hck|]. split.
  - rewrite Ho. destruct (AuthController.doctorOrPatient role), (db w);
      reflexivity.
  - destruct (AuthController.doctorOrPatient role) eqn:R;
      cbn [AuthController.collection];
      rewrite ?Hd, ?Hp; destruct (db w); reflexivity.
Qed.

(** X21.  The two steps of a login: after [login] has accepted the
    password and sent a code, [verifyOTP] with that code within ten
    minutes answers 200 "Login successful", consumes the code and sets
    the cookie to the token [jwt.sign] returned, provided [jwt.sign]
    returns and the store accepts the writes of the code and the save
    of the account.  A session comes
    with it when the session step of [generateToken] goes through,
    that is when the request shows a client address, the token is not
    yet in the collection and the two session writes are accepted:
    then a session of the account is stored under the new token and
    authenticates from then on for seven days. *)
Theorem login_then_code_opens_a_session :
  forall rt env1 w req email password role u,
    role = "doctor" \/ role = "patient" ->
    find (AuthController.has_email email)
         (AuthController.collection (AuthController.doctorOrPatient role) (db w))
    = Some u ->
    u_isEmailVerified u = true ->
    u_isActive u = true ->
    bcrypt_compare password (u_password u) = true ->
    (forall o, In o (otps (db w)) -> OTP.any_for email "login" o = true ->
               (o_createdAt o + 60000 <= now (rt_env rt))%Z) ->
    fails (rt_env rt) (OtpDeleteMany email "login") = false ->
    fails (rt_env rt) (OtpInsert email "login") = false ->
    (forall o, fails env1 (OtpSave o) = false) ->
    (forall c i, fails env1 (UserSave c i) = false) ->
    (now env1 <= now (rt_env rt) + 600000)%Z ->
    exists w1 w2,
      AuthFlows.login rt email password role w
      = (Ok (mkResponse 200 true AuthFlows.msg_otp_sent
                        [("email", u_email u); ("requiresOTP", "true")]), w1)
      /\ AuthController.verifyOTP env1 req email (random_otp (rt_env rt)) role
                                  "login" w1
         = (Ok (mkResponse 200 true "Login successful" []), w2)
      /\ cookies w2 = cookies w ++ [token_cookie env1]
      /\ filter (OTP.unverified_for email "login") (otps (db w2)) = []
      /\ (String.eqb (clientIp req) "" = false ->
          token_free (jwt_sign env1) (sessions (db w)) = true ->
          fails env1 (SessionUpdateMany (u_id u) (Utils.userTypeOfRole role))
          = false ->
          fails env1 (SessionInsert (jwt_sign env1)) = false ->
          exists s,
            (forall env2,
                (now env2 < now env1 + Utils.seven_days)%Z ->
                Session.findByToken env2 (jwt_sign env1) w2 = (Ok (Some s), w2))
            /\ s_userId s = u_id u
            /\ s_userType s = Utils.userTypeOfRole role).
Proof.
  intros rt env1 w req email password role u Hrole Hfind Hver Hact Hpw Hold
         Hf1 Hf2 Hok Hus Ht.
  rewrite (login_sent_run rt w email password role u Hrole Hfind Hver Hact Hpw);
    [|apply checkRateLimit_allowed; exact Hold|exact Hf1|exact Hf2].
  set (w1 := logged _ _ _).
  destruct (after_createOTP_rest (rt_env rt) w email role "login")
    as [Hs0 [Hc0 Hcoll0]].
  assert (Hotps : otps (db w1)
                  = otps (db (after_createOTP (rt_env rt) w email role "login")))
    by apply logged_otps.
  assert (Hsess : sessions (db w1) = sessions (db w))
    by (unfold w1; now rewrite logged_sessions).
  assert (Hcook : cookies w1 = cookies w)
    by (unfold w1; now rewrite logged_cookies).
  assert (Hfind1 : find (AuthController.has_email email)
                        (AuthController.collection
                           (AuthController.doctorOrPatient role) (db w1))
                   = Some u)
    by (unfold w1; now rewrite logged_collection, Hcoll0).
  assert (Hrec : OTP.findOne_unverified email "login" (db w1)
                 = Some (issued_otp (rt_env rt) w email role "login")).
  { unfold OTP.findOne_unverified. rewrite Hotps.
    now rewrite after_createOTP_pending. }
  assert (Hexp : OTP.isExpired env1 (issued_otp (rt_env rt) w email role "login")
                 = false).
  { unfold OTP.isExpired, issued_otp. cbn. apply Z.ltb_ge. lia. }
  destruct (verifyOTP_login_answer env1 w1 req email (random_otp (rt_env rt))
              role (issued_otp (rt_env rt) w email role "login") u
              Hrec Hexp eq_refl eq_refl Hfind1 Hok Hus)
    as [w2 [Hrun [Hc2 [Ho2 _]]]].
  exists w1, w2.
  split; [reflexivity|]. split; [exact Hrun|].
  split; [now rewrite Hc2, Hcook|].
  split.
  { rewrite Ho2. apply sole_pending_consumed. rewrite Hotps.
    apply after_createOTP_pending. }
  intros Hip Hfree Hu1 Hu2.
  destruct (verifyOTP_login_run env1 w1 req email (random_otp (rt_env rt)) role
              (issued_otp (rt_env rt) w email role "login") u
              Hrole Hrec Hexp eq_refl eq_refl Hfind1 Hip)
    as [w2' [Hrun' [Hs2 _]]]; auto.
  { now rewrite Hsess. }
  rewrite Hrun in Hrun'. injection Hrun' as <-.
  exists (issued_session env1 w1 (u_id u) role req).
  split; [|split; reflexivity].
  intros env2 Hlife. unfold Session.findByToken, bind, getDb, ret.
  rewrite Hs2.
  rewrite (find_app_last _ _ (issued_session env1 w1 (u_id u) role req));
    [reflexivity| |].
  - apply token_free_enforced_none. now rewrite Hsess.
  - unfold Session.authenticates. cbn. rewrite String.eqb_refl. cbn.
    now apply Z.ltb_lt.
Qed.

Lemma login_then_code_opens_a_session_witness :
  exists w1 w2,
    AuthFlows.login (runtime_at 9000%Z "t" []) "alice@example.com" "Str0ng!Pw"
                    "patient" (world_of db_one_session)
    = (Ok (mkResponse 200 true AuthFlows.msg_otp_sent
                      [("email", "alice@example.com"); ("requiresOTP", "true")]),
       w1)
    /\ AuthController.verifyOTP (env_at 12000%Z "jwt-2") chrome_on_linux
                                "alice@example.com" "482913" "patient" "login" w1
       = (Ok (mkResponse 200 true "Login successful" []), w2)
    /\ cookies w2 = [token_cookie (env_at 12000%Z "jwt-2")]
    /\ filter (OTP.unverified_for "alice@example.com" "login") (otps (db w2))
       = []
    /\ exists s,
        (forall env2,
            (now env2 < 12000 + Utils.seven_days)%Z ->
            Session.findByToken env2 "jwt-2" w2 = (Ok (Some s), w2))
        /\ s_userId s = 1
        /\ s_userType s = Patient.
Proof.
  destruct (login_then_code_opens_a_session
              (runtime_at 9000%Z "t" []) (env_at 12000%Z "jwt-2")
              (world_of db_one_session) chrome_on_linux "alice@example.com"
              "Str0ng!Pw" "patient" alice)
    as [w1 [w2 [H1 [H2 [H3 [H4 H5]]]]]]; try reflexivity.
  - now right.
  - intros o [].
  - cbn. lia.
  - exists w1, w2. split; [exact H1|]. split; [exact H2|].
    split; [exact H3|]. split; [exact H4|].
    apply H5; reflexivity.
Defined.

(* ------------------------------------------------------------------ *)
(** * Registration *)

Lemma verifyOTP_registration_run env w req email otp role rec u :
  OTP.findOne_unverified email "registration" (db w) = Some rec ->
  OTP.isExpired env rec = false ->
  OTP.canAttempt rec = true ->
  o_otp rec = otp ->
  find (AuthController.has_email email)
       (AuthController.collection (AuthController.doctorOrPatient role) (db w))
  = Some u ->
  (forall op, fails env op = false) ->
  exists w',
    AuthController.verifyOTP env req email otp role "registration" w
    = (Ok (mkResponse 200 true
                      "Email verified successfully! You can now login." []), w')
    /\ AuthController.collection (AuthController.doctorOrPatient role) (db w')
       = AuthController.replace_user
           (AuthController.set_emailVerified (now env) u)
           (AuthController.collection (AuthController.doctorOrPatient role)
                                      (db w))
    /\ otps (db w') = OTP.replace_doc (OTP.set_verified true rec) (otps (db w))
    /\ sessions (db w') = sessions (db w)
    /\ cookies w' = cookies w.
Proof.
  intros Hrec Hexp Hcan Hotp Hfind Hok.
  unfold AuthController.verifyOTP, tryCatch. unfold bind at 1.
  rewrite (verifyOTP_success_run env w email otp "registration" rec
             Hrec Hexp Hcan Hotp (Hok _)).
  cbn [OTP.success negb]. unfold bind at 1, getDb. cbv beta iota.
  cbn [db].
  assert (Hcoll : forall f,
             AuthController.collection (AuthController.doctorOrPatient role)
                                       (with_otps f (db w))
             = AuthController.collection (AuthController.doctorOrPatient role)
                                         (db w))
    by (intros f; destruct (AuthController.doctorOrPatient role), (db w);
        reflexivity).
  rewrite Hcoll, Hfind.
  cbn [String.eqb Ascii.eqb Bool.eqb].
  unfold bind at 1.
  unfold AuthController.saveUser, AuthController.save, write.
  destruct (AuthController.doctorOrPatient role) eqn:R; rewrite Hok;
    rewrite bind_logAuthEvent; unfold ret; eexists; (split; [reflexivity|]);
    rewrite logged_collection, logged_sessions, logged_cookies, logged_otps;
    cbn [db cookies]; rewrite ?R; destruct (db w); cbn; repeat split.
Qed.

Lemma bcrypt_compare_same rounds password :
  bcrypt_compare password (Bcrypt rounds password) = true.
Proof. apply String.eqb_refl. Qed.

(* ------------------------------------------------------------------ *)
(** * Codes sent again *)

Lemma resendOTP_sent_run rt w email role purpose u :
  role = "doctor" \/ role = "patient" ->
  OTP.in_enum purpose OTP.purpose_enum = true ->
  find (AuthController.has_email email)
       (AuthController.collection (AuthController.doctorOrPatient role) (db w))
  = Some u ->
  OTPRate.checkRateLimit (rt_env rt) email purpose w
  = (Ok (OTPRate.mkRateLimit true None), w) ->
  fails (rt_env rt) (OtpDeleteMany email purpose) = false ->
  fails (rt_env rt) (OtpInsert email purpose) = false ->
  AuthFlows.resendOTP rt email role purpose w
  = (Ok (mkResponse 200 true "New OTP sent to your email"
                    [("email", u_email u)]),
     logged (rt_env rt)
            (mkAuthLog (Some (u_id u))
                       (Some (AuthController.doctorOrPatient role))
                       email "otp_resend" true None)
            (after_createOTP (rt_env rt) w email role purpose)).
Proof.
  intros Hrole Hpurpose Hfind Hrate Hf1 Hf2.
  unfold AuthFlows.resendOTP, tryCatch.
  unfold bind at 1, getDb. cbv beta iota. rewrite Hfind.
  unfold bind at 1. rewrite Hrate. cbn [OTPRate.allowed negb].
  unfold bind at 1.
  rewrite (createOTP_run (rt_env rt) w email role purpose
             (role_in_enum role Hrole) Hpurpose Hf1 Hf2).
  now rewrite bind_logAuthEvent.
Qed.

(** X22.  The tests of [login] are not repeated on the way of a code
    sent again.  Take a doctor or patient account that [login] refuses
    whatever the password, because its address is not verified (400)
    or because it is suspended (403).  [resendOTP] with purpose
    [login] asks for no password and reads neither flag: when the
    address has no login code younger than a minute and the store
    accepts the writes of the code and the save of the account, it
    issues a login code, and [verifyOTP] with that code within ten
    minutes answers 200 "Login successful" and sets the cookie to the
    token [jwt.sign] returned, the account being as unverified or
    suspended as before.  When the session step goes through (client
    address shown, token not yet in the collection, session writes
    accepted) a session of the account is stored and authenticates for
    seven days. *)
Theorem resent_code_logs_in_account_that_login_refuses :
  forall rt env1 w req email password role u,
    role = "doctor" \/ role = "patient" ->
    find (AuthController.has_email email)
         (AuthController.collection (AuthController.doctorOrPatient role) (db w))
    = Some u ->
    u_isEmailVerified u = false \/ u_isActive u = false ->
    (forall o, In o (otps (db w)) -> OTP.any_for email "login" o = true ->
               (o_createdAt o + 60000 <= now (rt_env rt))%Z) ->
    fails (rt_env rt) (OtpDeleteMany email "login") = false ->
    fails (rt_env rt) (OtpInsert email "login") = false ->
    (forall o, fails env1 (OtpSave o) = false) ->
    (forall c i, fails env1 (UserSave c i) = false) ->
    (now env1 <= now (rt_env rt) + 600000)%Z ->
    (exists refusal w0,
        AuthFlows.login rt email password role w = (Ok refusal, w0)
        /\ status refusal = (if u_isEmailVerified u then 403 else 400)
        /\ success refusal = false
        /\ same_trust_state w w0)
    /\ exists w1 w2 u',
        AuthFlows.resendOTP rt email role "login" w
        = (Ok (mkResponse 200 true "New OTP sent to your email"
                          [("email", u_email u)]), w1)
        /\ AuthController.verifyOTP env1 req email (random_otp (rt_env rt))
                                    role "login" w1
           = (Ok (mkResponse 200 true "Login successful" []), w2)
        /\ cookies w2 = cookies w ++ [token_cookie env1]
        /\ find (AuthController.has_email email)
                (AuthController.collection
                   (AuthController.doctorOrPatient role) (db w2)) = Some u'
        /\ u_id u' = u_id u
        /\ u_isEmailVerified u' = u_isEmailVerified u
        /\ u_isActive u' = u_isActive u
        /\ (String.eqb (clientIp req) "" = false ->
            token_free (jwt_sign env1) (sessions (db w)) = true ->
            fails env1 (SessionUpdateMany (u_id u) (Utils.userTypeOfRole role))
            = false ->
            fails env1 (SessionInsert (jwt_sign env1)) = false ->
            exists s,
              (forall env2,
                  (now env2 < now env1 + Utils.seven_days)%Z ->
                  Session.findByToken env2 (jwt_sign env1) w2
                  = (Ok (Some s), w2))
              /\ s_userId s = u_id u
              /\ s_userType s = Utils.userTypeOfRole role).
Proof.
  intros rt env1 w req email password role u Hrole Hfind Hflag Hold
         Hf1 Hf2 Hok Hus Ht.
  split.
  { destruct (u_isEmailVerified u) eqn:Hver.
    - destruct Hflag as [Hflag|Hact]; [discriminate|].
      rewrite (login_suspended_run rt w email password role u Hfind Hver Hact).
      do 2 eexists. split; [reflexivity|]. cbn [status success].
      repeat split; apply logged_same_trust_state.
    - rewrite (login_unverified_run rt w email password role u Hfind Hver).
      do 2 eexists. split; [reflexivity|]. cbn [status success].
      repeat split; apply logged_same_trust_state. }
  rewrite (resendOTP_sent_run rt w email role "login" u Hrole eq_refl Hfind);
    [|apply checkRateLimit_allowed; exact Hold|exact Hf1|exact Hf2].
  set (w1 := logged _ _ _).
  destruct (after_createOTP_rest (rt_env rt) w email role "login")
    as [Hs0 [Hc0 Hcoll0]].
  assert (Hotps : otps (db w1)
                  = otps (db (after_createOTP (rt_env rt) w email role "login")))
    by apply logged_otps.
  assert (Hsess : sessions (db w1) = sessions (db w))
    by (unfold w1; now rewrite logged_sessions).
  assert (Hcook : cookies w1 = cookies w)
    by (unfold w1; now rewrite logged_cookies).
  assert (Hfind1 : find (AuthController.has_email email)
                        (AuthController.collection
                           (AuthController.doctorOrPatient role) (db w1))
                   = Some u)
    by (unfold w1; now rewrite logged_collection, Hcoll0).
  assert (Hrec : OTP.findOne_unverified email "login" (db w1)
                 = Some (issued_otp (rt_env rt) w email role "login")).
  { unfold OTP.findOne_unverified. rewrite Hotps.
    now rewrite after_createOTP_pending. }
  assert (Hexp : OTP.isExpired env1 (issued_otp (rt_env rt) w email role "login")
                 = false).
  { unfold OTP.isExpired, issued_otp. cbn. apply Z.ltb_ge. lia. }
  destruct (verifyOTP_login_answer env1 w1 req email (random_otp (rt_env rt))
              role (issued_otp (rt_env rt) w email role "login") u
              Hrec Hexp eq_refl eq_refl Hfind1 Hok Hus)
    as [w2 [Hrun [Hc2 [_ Hcoll2]]]].
  exists w1, w2, (AuthController.set_lastLogin (now env1) u).
  split; [reflexivity|]. split; [exact Hrun|].
  split; [now rewrite Hc2, Hcook|].
  split.
  { rewrite Hcoll2. apply find_replace_user with (u := u);
      [exact Hfind1|reflexivity|].
    apply find_some in Hfind as [_ He]. now apply String.eqb_eq in He. }
  split; [reflexivity|]. split; [reflexivity|]. split; [reflexivity|].
  intros Hip Hfree Hu1 Hu2.
  destruct (verifyOTP_login_run env1 w1 req email (random_otp (rt_env rt)) role
              (issued_otp (rt_env rt) w email role "login") u
              Hrole Hrec Hexp eq_refl eq_refl Hfind1 Hip)
    as [w2' [Hrun' [Hs2 _]]]; auto.
  { now rewrite Hsess. }
  rewrite Hrun in Hrun'. injection Hrun' as <-.
  exists (issued_session env1 w1 (u_id u) role req).
  split; [|split; reflexivity].
  intros env2 Hlife. unfold Session.findByToken, bind, getDb, ret.
  rewrite Hs2.
  rewrite (find_app_last _ _ (issued_session env1 w1 (u_id u) role req));
    [reflexivity| |].
  - apply token_free_enforced_none. now rewrite Hsess.
  - unfold Session.authenticates. cbn. rewrite String.eqb_refl. cbn.
    now apply Z.ltb_lt.
Qed.

(** Carol is suspended.  Her login is refused with the right password,
    and a code sent again lets her in on a new device. *)
Lemma resent_code_logs_in_account_that_login_refuses_witness :
  (exists refusal w0,
      AuthFlows.login (runtime_at 9000%Z "t" []) "carol@example.com"
                      "C4rol!Pw" "patient" (world_of db_two_users)
      = (Ok refusal, w0)
      /\ status refusal = 403
      /\ success refusal = false
      /\ same_trust_state (world_of db_two_users) w0)
  /\ exists w1 w2 u',
      AuthFlows.resendOTP (runtime_at 9000%Z "t" []) "carol@example.com"
                          "patient" "login" (world_of db_two_users)
      = (Ok (mkResponse 200 true "New OTP sent to your email"
                        [("email", "carol@example.com")]), w1)
      /\ AuthController.verifyOTP (env_at 12000%Z "jwt-c2") chrome_on_linux
                                  "carol@example.com" "482913" "patient"
                                  "login" w1
         = (Ok (mkResponse 200 true "Login successful" []), w2)
      /\ cookies w2 = [token_cookie (env_at 12000%Z "jwt-c2")]
      /\ find (AuthController.has_email "carol@example.com")
              (patients (db w2)) = Some u'
      /\ u_isActive u' = false
      /\ exists s,
          (forall env2,
              (now env2 < 12000 + Utils.seven_days)%Z ->
              Session.findByToken env2 "jwt-c2" w2 = (Ok (Some s), w2))
          /\ s_userId s = 5
          /\ s_userType s = Patient.
Proof.
  destruct (resent_code_logs_in_account_that_login_refuses
              (runtime_at 9000%Z "t" []) (env_at 12000%Z "jwt-c2")
              (world_of db_two_users) chrome_on_linux "carol@example.com"
              "C4rol!Pw" "patient" carol_suspended)
    as [Hrefused [w1 [w2 [u' [H1 [H2 [H3 [H4 [_ [_ [H5 H6]]]]]]]]]]];
    try reflexivity.
  - now right.
  - now right.
  - intros o [].
  - cbn. lia.
  - split; [exact Hrefused|].
    exists w1, w2, u'. split; [exact H1|]. split; [exact H2|].
    split; [exact H3|]. split; [exact H4|]. split; [exact H5|].
    apply H6; reflexivity.
Defined.

(* ------------------------------------------------------------------ *)
(** * Administrator login *)

(** X23.  [adminLogin] asks for no code: with the right password of an
    active administrator, [jwt.sign] returning and the store accepting
    the save of the account, it stamps [lastlogin], sets the cookie to
    the token [jwt.sign] returned and answers 200 in one request,
    leaving the OTP collection as it is.  When the session step of
    [generateToken] goes through (the request shows a client address,
    the token is not yet in the collection, the two session writes are
    accepted) the session is stored in the same request, filed under
    the user type [generateToken] derives from the stored role, which
    is [Admin] for ["super_admin"] and [Patient] for ["admin"]. *)
Theorem adminLogin_opens_session_without_code :
  forall rt w req email password a,
    String.eqb email "" = false ->
    String.eqb password "" = false ->
    find (fun x => String.eqb (a_email x) email) (admins (db w)) = Some a ->
    a_isActive a = true ->
    bcrypt_compare password (a_password a) = true ->
    fails (rt_env rt) (UserSave Admin (a_id a)) = false ->
    exists w',
      AuthFlows.adminLogin rt req email password w
      = (Ok (mkResponse 200 true "Login successful" []), w')
      /\ otps (db w') = otps (db w)
      /\ cookies w' = cookies w ++ [token_cookie (rt_env rt)]
      /\ admins (db w')
         = AuthController.replace_admin
             (AuthFlows.set_admin_lastlogin (now (rt_env rt)) a) (admins (db w))
      /\ (String.eqb (clientIp req) "" = false ->
          token_free (jwt_sign (rt_env rt)) (sessions (db w)) = true ->
          fails (rt_env rt)
                (SessionUpdateMany (a_id a) (Utils.userTypeOfRole (a_role a)))
          = false ->
          fails (rt_env rt) (SessionInsert (jwt_sign (rt_env rt))) = false ->
          exists s,
            Session.findByToken (rt_env rt) (jwt_sign (rt_env rt)) w'
            = (Ok (Some s), w')
            /\ s_userId s = a_id a
            /\ s_userType s = Utils.userTypeOfRole (a_role a)
            /\ (a_role a = "super_admin" -> s_userType s = Admin)
            /\ (a_role a = "admin" -> s_userType s = Patient)).
Proof.
  intros rt w req email password a Hem Hpw Hfind Hact Hcmp Hus.
  unfold AuthFlows.adminLogin, tryCatch. rewrite Hem, Hpw. cbn [orb].
  unfold bind at 1, getDb. cbv beta iota. rewrite Hfind, Hact, Hcmp.
  cbn [negb]. unfold bind at 1. rewrite save_run.
  cbn [AuthController.acc_model AuthController.acc_id
       AuthFlows.set_admin_lastlogin a_id].
  rewrite Hus.
  rewrite bind_logAuthEvent. unfold bind at 1.
  match goal with
  | |- context [Utils.generateToken ?e ?i ?r ?q ?w0] =>
      set (w1 := w0);
      destruct (generateToken_total e w1 i r q) as [w2 [Hgen [Hck _]]];
      pose proof (generateToken_frame e w1 i r q) as Hframe
  end.
  rewrite Hgen in Hframe |- *. cbn [snd] in Hframe.
  destruct Hframe as (_ & _ & Ha & Ho & _).
  assert (Hs1 : sessions (db w1) = sessions (db w))
    by (unfold w1; rewrite logged_sessions; cbn; now destruct (db w)).
  unfold ret. exists w2.
  split; [reflexivity|].
  split.
  { rewrite Ho. unfold w1. rewrite logged_otps. cbn. now destruct (db w). }
  split; [rewrite Hck; unfold w1; now rewrite logged_cookies|].
  split.
  { rewrite Ha. unfold w1.
    match goal with
    | |- admins (db (logged ?e ?l ?w0)) = _ =>
        destruct (logged_same_trust_state e l w0) as [_ [_ [Ha1 _]]]
    end.
    rewrite Ha1. cbn. now destruct (db w). }
  intros Hip Hfree Hf1 Hf2.
  assert (Hfree1 : token_free (jwt_sign (rt_env rt)) (sessions (db w1)) = true)
    by now rewrite Hs1.
  rewrite (generateToken_run (rt_env rt) w1 (a_id a) (a_role a) req Hip)
    in Hgen; [|exact Hfree1|exact Hf1|exact Hf2].
  injection Hgen as <-.
  exists (issued_session (rt_env rt) w1 (a_id a) (a_role a) req).
  split.
  { assert (Hss : forall f d, sessions (with_sessions f d) = f (sessions d))
      by (intros f []; reflexivity).
    unfold Session.findByToken, bind, getDb, ret. cbn [db].
    rewrite Hss.
    rewrite (find_app_last _ _ (issued_session (rt_env rt) w1 (a_id a)
                                               (a_role a) req));
      [reflexivity| |].
    - apply token_free_enforced_none. exact Hfree1.
    - unfold Session.authenticates. cbn. rewrite String.eqb_refl. cbn.
      apply Z.ltb_lt. unfold Utils.seven_days. lia. }
  split; [reflexivity|]. split; [reflexivity|].
  split; intros Hr; cbn; now rewrite Hr.
Qed.

Lemma adminLogin_opens_session_without_code_witness :
  exists w',
    AuthFlows.adminLogin (runtime_at 9000%Z "jwt-ops" []) chrome_on_linux
                         "ops@hc.io" "0ps!Passw" (world_of db_admins)
    = (Ok (mkResponse 200 true "Login successful" []), w')
    /\ otps (db w') = []
    /\ cookies w' = [token_cookie (env_at 9000%Z "jwt-ops")]
    /\ admins (db w')
       = [root_admin; AuthFlows.set_admin_lastlogin 9000%Z ops_admin]
    /\ exists s,
        Session.findByToken (env_at 9000%Z "jwt-ops") "jwt-ops" w'
        = (Ok (Some s), w')
        /\ s_userId s = 2
        /\ s_userType s = Patient
        /\ ("admin" = "super_admin" -> s_userType s = Admin)
        /\ ("admin" = "admin" -> s_userType s = Patient).
Proof.
  destruct (adminLogin_opens_session_without_code
              (runtime_at 9000%Z "jwt-ops" []) (world_of db_admins)
              chrome_on_linux "ops@hc.io" "0ps!Passw" ops_admin)
    as [w' [H1 [H2 [H3 [H4 H5]]]]]; try reflexivity.
  exists w'. split; [exact H1|]. split; [exact H2|]. split; [exact H3|].
  split; [exact H4|]. apply H5; reflexivity.
Defined.

(* ------------------------------------------------------------------ *)
(** * Changing the password *)

Lemma findById_replace_user l u u' :
  AuthFlows.findById (u_id u') l = Some u ->
  AuthFlows.findById (u_id u') (AuthController.replace_user u' l) = Some u'.
Proof.
  unfold AuthFlows.findById, AuthController.replace_user.
  induction l as [|x l IH]; cbn; [discriminate|].
  destruct (Nat.eqb (u_id x) (u_id u')) eqn:E.
  - intros _. cbn. now rewrite Nat.eqb_refl.
  - intros Hf. cbn. rewrite E. now apply IH.
Qed.

Lemma findAdminById_replace_admin l a a' :
  AuthFlows.findAdminById (a_id a') l = Some a ->
  AuthFlows.findAdminById (a_id a') (AuthController.replace_admin a' l) = Some a'.
Proof.
  unfold AuthFlows.findAdminById, AuthController.replace_admin.
  induction l as [|x l IH]; cbn; [discriminate|].
  destruct (Nat.eqb (a_id x) (a_id a')) eqn:E.
  - intros _. cbn. now rewrite Nat.eqb_refl.
  - intros Hf. cbn. rewrite E. now apply IH.
Qed.

Lemma findAccountById_model c id d x :
  AuthFlows.findAccountById c id d = Some x -> AuthController.acc_model x = c.
Proof.
  unfold AuthFlows.findAccountById.
  destruct c;
    match goal with
    | |- option_map _ ?o = _ -> _ => destruct o; cbn; [|discriminate]
    end; now intros [= <-].
Qed.

Lemma findAccountById_changed c id d x p t :
  AuthFlows.findAccountById c id d = Some x ->
  AuthFlows.findAccountById c id (save_db (AuthFlows.change_password p t x) d)
  = Some (AuthFlows.change_password p t x).
Proof.
  intros Hfind.
  pose proof (findAccountById_id c id d x Hfind) as Hid. subst id.
  unfold AuthFlows.findAccountById in *.
  destruct c.
  - destruct (AuthFlows.findById (AuthController.acc_id x) (doctors d))
      as [u|] eqn:E; [|discriminate].
    injection Hfind as <-. destruct d as [ds ps ad ot ss al].
    exact (f_equal (option_map DoctorAcc)
             (findById_replace_user
                ds u (mkUser (u_id u) (u_name u) (u_email u) (Bcrypt 14 p)
                             (u_isEmailVerified u) (u_emailVerifiedAt u)
                             (u_passwordResetToken u)
                             (u_passwordResetExpires u) (Some t)
                             (u_passwordResetCount u)
                             (u_passwordResetUsedAt u) (u_isActive u)
                             (u_lastLogin u) (u_lastLogout u)) E)).
  - destruct (AuthFlows.findById (AuthController.acc_id x) (patients d))
      as [u|] eqn:E; [|discriminate].
    injection Hfind as <-. destruct d as [ds ps ad ot ss al].
    exact (f_equal (option_map PatientAcc)
             (findById_replace_user
                ps u (mkUser (u_id u) (u_name u) (u_email u) (Bcrypt 12 p)
                             (u_isEmailVerified u) (u_emailVerifiedAt u)
                             (u_passwordResetToken u)
                             (u_passwordResetExpires u) (Some t)
                             (u_passwordResetCount u)
                             (u_passwordResetUsedAt u) (u_isActive u)
                             (u_lastLogin u) (u_lastLogout u)) E)).
  - destruct (AuthFlows.findAdminById (AuthController.acc_id x) (admins d))
      as [a|] eqn:E; [|discriminate].
    injection Hfind as <-. destruct d as [ds ps ad ot ss al].
    exact (f_equal (option_map AdminAcc)
             (findAdminById_replace_admin
                ad a (mkAdmin (a_id a) (a_name a) (a_email a) (Bcrypt 12 p)
                              (a_role a) (a_isActive a) (a_lastlogin a)
                              (a_lastLogout a)) E)).
Qed.

Lemma save_db_rest x d :
  sessions (save_db x d) = sessions d /\ otps (save_db x d) = otps d.
Proof. destruct x, d; now split. Qed.

(** X24.  A successful [changePassword] replaces the password and
    nothing else that matters for access: the account then accepts the
    new password and no longer the old one, its count of used password
    resets is what it was, and sessions, codes and cookies are
    untouched, so every device that was logged in stays logged in. *)
Theorem changePassword_keeps_sessions_and_reset_count :
  forall rt w userId role currentPassword newPassword user,
    AuthFlows.findAccountById (AuthController.getUserModel role) userId (db w)
    = Some user ->
    AuthFlows.comparePassword user currentPassword = true ->
    AuthFlows.comparePassword user newPassword = false ->
    fails (rt_env rt)
          (UserSave (AuthController.getUserModel role) userId) = false ->
    exists w' user',
      AuthFlows.changePassword rt userId role currentPassword newPassword w
      = (Ok (mkResponse 200 true "Password changed successfully" []), w')
      /\ AuthFlows.findAccountById (AuthController.getUserModel role) userId
                                   (db w') = Some user'
      /\ AuthFlows.comparePassword user' newPassword = true
      /\ AuthFlows.comparePassword user' currentPassword = false
      /\ AuthController.acc_passwordResetCount user'
         = AuthController.acc_passwordResetCount user
      /\ sessions (db w') = sessions (db w)
      /\ otps (db w') = otps (db w)
      /\ cookies w' = cookies w.
Proof.
  intros rt w userId role currentPassword newPassword user Hfind Hcur Hnew Hf.
  pose proof (findAccountById_id _ _ _ _ Hfind) as Hid.
  pose proof (findAccountById_model _ _ _ _ Hfind) as Hmodel.
  unfold AuthFlows.changePassword, tryCatch.
  unfold bind at 1, getDb. cbv beta iota. rewrite Hfind, Hcur, Hnew.
  cbn [negb]. unfold bind at 1. rewrite save_run.
  assert (Hm' : AuthController.acc_model
                  (AuthFlows.change_password newPassword (now (rt_env rt)) user)
                = AuthController.getUserModel role)
    by (rewrite <- Hmodel; now destruct user).
  assert (Hi' : AuthController.acc_id
                  (AuthFlows.change_password newPassword (now (rt_env rt)) user)
                = userId)
    by (rewrite <- Hid; now destruct user).
  rewrite Hm', Hi', Hf. rewrite bind_logAuthEvent. unfold ret.
  eexists _, (AuthFlows.change_password newPassword (now (rt_env rt)) user).
  split; [reflexivity|].
  destruct (logged_same_trust_state
              (rt_env rt)
              (mkAuthLog (Some (AuthController.acc_id user))
                         (Some (AuthController.getUserType role))
                         (AuthController.acc_email user) "password_change"
                         true None)
              (mkWorld (save_db (AuthFlows.change_password
                                   newPassword (now (rt_env rt)) user) (db w))
                       (journal w
                        ++ [Wrote (UserSave (AuthController.getUserModel role)
                                            userId)])
                       (cookies w)))
    as [Hd [Hp [Ha [Ho [Hs Hc]]]]].
  cbn [db cookies] in *.
  destruct (save_db_rest (AuthFlows.change_password
                            newPassword (now (rt_env rt)) user) (db w))
    as [Hs0 Ho0].
  split.
  { rewrite <- (findAccountById_changed _ _ _ _ newPassword (now (rt_env rt))
                                        Hfind).
    unfold AuthFlows.findAccountById.
    destruct (AuthController.getUserModel role); now rewrite ?Hd, ?Hp, ?Ha. }
  split; [destruct user; cbn; apply String.eqb_refl|].
  split.
  { assert (String.eqb currentPassword newPassword = false) as Hne.
    { destruct (String.eqb currentPassword newPassword) eqn:E; [|reflexivity].
      apply String.eqb_eq in E. subst. congruence. }
    destruct user; cbn; exact Hne. }
  split; [now destruct user|].
  split; [now rewrite Hs|]. split; [now rewrite Ho|exact Hc].
Qed.

Lemma changePassword_keeps_sessions_and_reset_count_witness :
  exists w' user',
    AuthFlows.changePassword (runtime_at 9000%Z "t" []) 1 "patient"
                             "Str0ng!Pw" "N3w!Passw" (world_of db_two_users)
    = (Ok (mkResponse 200 true "Password changed successfully" []), w')
    /\ AuthFlows.findAccountById Patient 1 (db w') = Some user'
    /\ AuthFlows.comparePassword user' "N3w!Passw" = true
    /\ AuthFlows.comparePassword user' "Str0ng!Pw" = false
    /\ AuthController.acc_passwordResetCount user' = Some 0
    /\ sessions (db w') = sessions db_two_users
    /\ otps (db w') = []
    /\ cookies w' = [].
Proof.
  apply (changePassword_keeps_sessions_and_reset_count
           (runtime_at 9000%Z "t" []) (world_of db_two_users) 1 "patient"
           "Str0ng!Pw" "N3w!Passw" (PatientAcc alice)); reflexivity.
Defined.



(* ------------------------------------------------------------------ *)
(** * Requesting a password reset *)

Lemma forgotPassword_sent_exact env w email role user :
  role = "doctor" \/ role = "patient" ->
  AuthController.findOne (AuthController.getUserModel role) email (db w)
  = Some user ->
  AuthController.resetLimitReached user = false ->
  (forall op, fails env op = false) ->
  exists w',
    AuthController.forgotPassword env email role w
    = (Ok (mkResponse 200 true AuthController.msg_reset_sent
                      [("email", AuthController.acc_email user)]), w')
    /\ otps (db w')
       = filter (fun o => negb (OTP.any_for email "password-reset" o))
                (otps (db w))
         ++ [reset_code env w email role]
    /\ (doctors (db w'), patients (db w'), admins (db w'), sessions (db w'),
        cookies w')
       = (doctors (db w), patients (db w), admins (db w), sessions (db w),
          cookies w).
Proof.
  intros Hrole Huser Hlim Hok.
  unfold AuthController.forgotPassword, tryCatch.
  unfold bind at 1. unfold getDb at 1. cbv beta iota. rewrite Huser, Hlim.
  unfold bind at 1. unfold OTP.deleteMany, write at 1. rewrite Hok.
  cbv beta iota. unfold bind at 1. unfold OTP.create.
  assert (OTP.in_enum role OTP.role_enum = true) as ->
      by (destruct Hrole as [-> | ->]; reflexivity).
  cbn [OTP.in_enum OTP.purpose_enum existsb String.eqb Ascii.eqb Bool.eqb
       andb orb].
  unfold bind at 1. unfold getDb at 1. cbv beta iota.
  unfold bind at 1. unfold write at 1. rewrite Hok. unfold ret at 1 2.
  cbv beta iota. rewrite bind_logAuthEvent. unfold ret.
  eexists. split; [reflexivity|].
  rewrite logged_otps, logged_sessions, logged_cookies.
  match goal with
  | |- context [logged ?e ?l ?w0] =>
      destruct (logged_same_trust_state e l w0) as [Hd [Hp [Ha _]]]
  end.
  rewrite Hd, Hp, Ha. unfold reset_code. cbn [db cookies].
  destruct (db w). cbn. split; reflexivity.
Qed.

(** X26.  [forgotPassword] is not rate limited: a second request for
    the same account is answered 200 however soon it follows the
    first, and it replaces the first code, so that afterwards the
    address has exactly one password-reset record, the one of the
    second request, and a [resetPassword] with the first code finds no
    matching record, however the address is written in its body. *)
Theorem forgotPassword_repeats_without_waiting :
  forall env1 env2 w email role user,
    role = "doctor" \/ role = "patient" ->
    AuthController.findOne (AuthController.getUserModel role) email (db w)
    = Some user ->
    AuthController.resetLimitReached user = false ->
    (forall op, fails env1 op = false) ->
    (forall op, fails env2 op = false) ->
    exists w1 w2 code2,
      AuthController.forgotPassword env1 email role w
      = (Ok (mkResponse 200 true AuthController.msg_reset_sent
                        [("email", AuthController.acc_email user)]), w1)
      /\ AuthController.forgotPassword env2 email role w1
         = (Ok (mkResponse 200 true AuthController.msg_reset_sent
                           [("email", AuthController.acc_email user)]), w2)
      /\ filter (OTP.any_for email "password-reset") (otps (db w2)) = [code2]
      /\ o_otp code2 = random_otp env2
      /\ o_createdAt code2 = now env2
      /\ (random_otp env1 <> random_otp env2 ->
          forall sent : string,
            apply_setters LowercaseTrim sent = email ->
            find (AuthController.reset_otp_matches sent (random_otp env1))
                 (otps (db w2)) = None).
Proof.
  intros env1 env2 w email role user Hrole Huser Hlim Hok1 Hok2.
  destruct (forgotPassword_sent_exact env1 w email role user
              Hrole Huser Hlim Hok1) as [w1 [Hrun1 [Hotps1 Hrest1]]].
  injection Hrest1 as Hd Hp Ha Hs Hc.
  assert (Huser1 : AuthController.findOne (AuthController.getUserModel role)
                                          email (db w1) = Some user).
  { rewrite <- Huser. unfold AuthController.findOne.
    destruct (AuthController.getUserModel role); now rewrite ?Hd, ?Hp, ?Ha. }
  destruct (forgotPassword_sent_exact env2 w1 email role user
              Hrole Huser1 Hlim Hok2) as [w2 [Hrun2 [Hotps2 _]]].
  assert (Hany : OTP.any_for email "password-reset"
                             (reset_code env2 w1 email role) = true)
    by (unfold OTP.any_for, reset_code; cbn; now rewrite String.eqb_refl).
  assert (Hfilter : filter (OTP.any_for email "password-reset") (otps (db w2))
                    = [reset_code env2 w1 email role]).
  { rewrite Hotps2, filter_app, filter_negb_none. cbn [app filter].
    now rewrite Hany. }
  exists w1, w2, (reset_code env2 w1 email role).
  split; [exact Hrun1|]. split; [exact Hrun2|]. split; [exact Hfilter|].
  split; [reflexivity|]. split; [reflexivity|].
  intros Hne sent Hsent. apply find_none_all. intros o Ho.
  unfold AuthController.reset_otp_matches, selects.
  rewrite Hsent. cbn [apply_setters].
  destruct (OTP.any_for email "password-reset" o) eqn:E.
  - assert (In o [reset_code env2 w1 email role]) as [<-|[]]
        by (rewrite <- Hfilter; apply filter_In; now split).
    unfold reset_code. cbn [o_otp o_email o_purpose o_verified].
    apply not_eq_sym, String.eqb_neq in Hne. rewrite Hne.
    now rewrite ?andb_false_r, ?andb_false_l.
  - unfold OTP.any_for in E.
    destruct (String.eqb (o_email o) email); cbn in *; [|reflexivity].
    rewrite E. now rewrite ?andb_false_r, ?andb_false_l.
Qed.

Lemma forgotPassword_repeats_without_waiting_witness :
  exists w1 w2 code2,
    AuthController.forgotPassword (env_with_code 9000%Z "111111")
                                  "alice@example.com" "patient"
                                  (world_of db_alice)
    = (Ok (mkResponse 200 true AuthController.msg_reset_sent
                      [("email", "alice@example.com")]), w1)
    /\ AuthController.forgotPassword (env_with_code 9000%Z "222222")
                                     "alice@example.com" "patient" w1
       = (Ok (mkResponse 200 true AuthController.msg_reset_sent
                         [("email", "alice@example.com")]), w2)
    /\ filter (OTP.any_for "alice@example.com" "password-reset") (otps (db w2))
       = [code2]
    /\ o_otp code2 = "222222"
    /\ o_createdAt code2 = 9000%Z
    /\ ("111111" <> "222222" ->
        forall sent : string,
          apply_setters LowercaseTrim sent = "alice@example.com" ->
          find (AuthController.reset_otp_matches sent "111111")
               (otps (db w2)) = None).
Proof.
  apply (forgotPassword_repeats_without_waiting
           (env_with_code 9000%Z "111111") (env_with_code 9000%Z "222222")
           (world_of db_alice) "alice@example.com" "patient" (PatientAcc alice));
    try reflexivity.
  now right.
Defined.

(* ------------------------------------------------------------------ *)
(** * What is read from the request *)

Lemma generateToken_no_address_run env w userId role r :
  String.eqb (clientIp r) "" = true ->
  fails env (SessionUpdateMany userId (Utils.userTypeOfRole role)) = false ->
  Utils.generateToken env userId role (Some r) w
  = (Ok (jwt_sign env),
     mkWorld
       (with_sessions (map (enforce env userId (Utils.userTypeOfRole role)))
                      (db w))
       (journal w
        ++ [Wrote (SessionUpdateMany userId (Utils.userTypeOfRole role))]
        ++ [Failed (SessionInsert (jwt_sign env))])
       (cookies w ++ [token_cookie env])).
Proof.
  intros Hip Hf.
  unfold Utils.generateToken, Utils.generateToken_signed, tryCatch, bind, set_cookie, ret.
  cbn [db journal cookies].
  change (fun s : SessionDoc =>
            if Session.active_of userId (Utils.userTypeOfRole role) s
            then Session.deactivate (Some Session.revoked_by_enforcement)
                                    (now env) s
            else s)
    with (enforce env userId (Utils.userTypeOfRole role)).
  rewrite (enforceSingleDevice_run env _ userId (Utils.userTypeOfRole role) Hf).
  unfold Session.createSession, bind, getDb, reject, record_event.
  cbn [Session.sd_ipAddress Session.sd_token db journal cookies].
  rewrite Hip. unfold token_cookie. cbn [db journal cookies].
  now rewrite <- app_assoc.
Qed.

(** X27.  [getClientIp] takes the first entry of a non-empty
    [x-forwarded-for] header and nothing else; when that entry is
    blank the address is the empty string, and a login made through
    [generateToken] then sets the cookie and revokes the user's earlier
    sessions but stores no session for the new token, which therefore
    authenticates at no time. *)
Theorem blank_forwarded_address_leaves_no_session :
  forall env w userId role raw h,
    h_x_forwarded_for raw = Some h ->
    String.eqb h "" = false ->
    RequestInfo.trim (RequestInfo.before_comma h) = "" ->
    fails env (SessionUpdateMany userId (Utils.userTypeOfRole role)) = false ->
    token_free (jwt_sign env) (sessions (db w)) = true ->
    exists w',
      RequestInfo.getClientIp raw = ""
      /\ Utils.generateToken env userId role (Some (RequestInfo.toRequest raw)) w
         = (Ok (jwt_sign env), w')
      /\ cookies w' = cookies w ++ [token_cookie env]
      /\ (forall s, In s (sessions (db w')) ->
                    Session.active_of userId (Utils.userTypeOfRole role) s = false)
      /\ (forall env', Session.findByToken env' (jwt_sign env) w' = (Ok None, w')).
Proof.
  intros env w userId role raw h Hh Hne Hblank Hf Hfree.
  assert (Hip : RequestInfo.getClientIp raw = "").
  { unfold RequestInfo.getClientIp. rewrite Hh. cbn [truthy]. rewrite Hne.
    cbn [negb RequestInfo.or_else]. now rewrite Hne. }
  rewrite (generateToken_no_address_run env w userId role
             (RequestInfo.toRequest raw));
    [|cbn [RequestInfo.toRequest clientIp]; now rewrite Hip|exact Hf].
  eexists. split; [exact Hip|]. split; [reflexivity|].
  cbn [db sessions with_sessions cookies]. split; [reflexivity|]. split.
  - intros s Hs.
    replace (sessions (with_sessions
                         (map (enforce env userId (Utils.userTypeOfRole role)))
                         (db w)))
      with (map (enforce env userId (Utils.userTypeOfRole role))
                (sessions (db w))) in Hs by now destruct (db w).
    apply in_map_iff in Hs as [x [<- _]]. apply enforce_inactive.
  - intros env'. unfold Session.findByToken, bind, getDb, ret. cbn [db].
    replace (sessions (with_sessions
                         (map (enforce env userId (Utils.userTypeOfRole role)))
                         (db w)))
      with (map (enforce env userId (Utils.userTypeOfRole role))
                (sessions (db w))) by now destruct (db w).
    now rewrite token_free_enforced_none.
Qed.

Lemma blank_forwarded_address_leaves_no_session_witness :
  exists w',
    RequestInfo.getClientIp blank_forwarded = ""
    /\ Utils.generateToken (env_at 9000%Z "jwt-2") 1 "patient"
                           (Some (RequestInfo.toRequest blank_forwarded))
                           (world_of db_one_session)
       = (Ok "jwt-2", w')
    /\ cookies w' = [token_cookie (env_at 9000%Z "jwt-2")]
    /\ (forall s, In s (sessions (db w')) ->
                  Session.active_of 1 Patient s = false)
    /\ (forall env', Session.findByToken env' "jwt-2" w' = (Ok None, w')).
Proof.
  apply (blank_forwarded_address_leaves_no_session
           (env_at 9000%Z "jwt-2") (world_of db_one_session) 1 "patient"
           blank_forwarded " , 10.0.0.1"); reflexivity.
Defined.

(** X28.  [parseUserAgent] reports the first name its chain of tests
    reaches, so a later name can never be reported for a user agent
    that also contains an earlier key word: never Android when the
    string mentions linux, never iOS when it mentions mac, and never
    Safari, Firefox or Opera when it mentions chrome. *)
Theorem parseUserAgent_reports_first_match :
  forall ua,
    let low := RequestInfo.toLowerCase ua in
    let info := RequestInfo.parseUserAgent ua in
    (RequestInfo.includes "linux" low = true -> os info <> "Android")
    /\ (RequestInfo.includes "mac" low = true -> os info <> "iOS")
    /\ (RequestInfo.includes "chrome" low = true ->
        browser info <> "Safari" /\ browser info <> "Firefox"
        /\ browser info <> "Opera").
Proof.
  intros ua low info. subst info. unfold RequestInfo.parseUserAgent.
  fold low.
  destruct (String.eqb ua "" || String.eqb ua "unknown").
  { cbn. intuition discriminate. }
  cbn [os browser]. split; [|split].
  - intros ->. destruct (RequestInfo.includes "win" low);
      [discriminate|]. destruct (RequestInfo.includes "mac" low); discriminate.
  - intros ->. destruct (RequestInfo.includes "win" low); discriminate.
  - intros ->. destruct (RequestInfo.includes "edg/" low);
      repeat split; discriminate.
Qed.

Lemma parseUserAgent_reports_first_match_witness :
  RequestInfo.parseUserAgent ua_android_chrome = mkDevice "Chrome" "Linux" "Mobile"
  /\ RequestInfo.parseUserAgent ua_iphone_safari = mkDevice "Safari" "macOS" "Mobile"
  /\ RequestInfo.parseUserAgent ua_opera_windows = mkDevice "Chrome" "Windows" "Desktop"
  /\ os (RequestInfo.parseUserAgent ua_android_chrome) <> "Android"
  /\ os (RequestInfo.parseUserAgent ua_iphone_safari) <> "iOS"
  /\ browser (RequestInfo.parseUserAgent ua_opera_windows) <> "Opera".
Proof.
  split; [vm_compute; reflexivity|]. split; [vm_compute; reflexivity|].
  split; [vm_compute; reflexivity|].
  split; [apply (parseUserAgent_reports_first_match ua_android_chrome);
          vm_compute; reflexivity|].
  split; [apply (parseUserAgent_reports_first_match ua_iphone_safari);
          vm_compute; reflexivity|].
  apply (parseUserAgent_reports_first_match ua_opera_windows).
  vm_compute; reflexivity.
Defined.

(* ------------------------------------------------------------------ *)
(** * The session list *)

Lemma div_twice a b c : (0 < b)%Z -> (0 < c)%Z -> (a / b / c = a / (b * c))%Z.
Proof. intros Hb Hc. apply Z.div_div; lia. Qed.

(** X29.  The session method [getDuration] and the controller's
    [calculateDuration] print the same text for any session that is at
    least a minute old; for a younger one the first prints
    ["0 minute ago"] and the second ["Just now"]. *)
Theorem durations_agree_from_one_minute_on :
  forall rt s,
    (0 <= now (rt_env rt) - s_createdAt s)%Z ->
    ((60000 <= now (rt_env rt) - s_createdAt s)%Z ->
     SessionStatics.getDuration rt s
     = SessionController.calculateDuration rt (s_createdAt s))
    /\ ((now (rt_env rt) - s_createdAt s < 60000)%Z ->
        SessionStatics.getDuration rt s = "0 minute ago"
        /\ SessionController.calculateDuration rt (s_createdAt s) = "Just now").
Proof.
  intros rt s Hpos.
  unfold SessionStatics.getDuration, SessionController.calculateDuration.
  set (d := (now (rt_env rt) - s_createdAt s)%Z) in *.
  assert (Hmin : (d / 1000 / 60 = d / (1000 * 60))%Z)
    by (apply div_twice; lia).
  assert (Hhour : (d / 1000 / 60 / 60 = d / (1000 * 60 * 60))%Z).
  { rewrite Hmin. rewrite div_twice by lia. f_equal. }
  rewrite Hhour, Hmin. split.
  - intros Hold.
    destruct (0 <? d / (1000 * 60 * 60) / 24)%Z; [reflexivity|].
    destruct (0 <? d / (1000 * 60 * 60))%Z; [reflexivity|].
    assert ((0 <? d / (1000 * 60))%Z = true) as ->; [|reflexivity].
    apply Z.ltb_lt. apply Z.div_str_pos. lia.
  - intros Hyoung.
    assert (Hm0 : (d / (1000 * 60) = 0)%Z) by (apply Z.div_small; lia).
    assert (Hh0 : (d / (1000 * 60 * 60) = 0)%Z) by (apply Z.div_small; lia).
    rewrite Hh0, Hm0. split; reflexivity.
Qed.

Lemma durations_agree_from_one_minute_on_witness :
  SessionStatics.getDuration (runtime_at 7201000%Z "t" []) live_session
  = SessionController.calculateDuration (runtime_at 7201000%Z "t" [])
                                        (s_createdAt live_session)
  /\ SessionStatics.getDuration (runtime_at 7201000%Z "t" []) live_session
     = "2 hours ago"
  /\ SessionStatics.getDuration (runtime_at 31000%Z "t" []) live_session
     = "0 minute ago"
  /\ SessionController.calculateDuration (runtime_at 31000%Z "t" [])
                                         (s_createdAt live_session)
     = "Just now".
Proof.
  destruct (durations_agree_from_one_minute_on
              (runtime_at 7201000%Z "t" []) live_session)
    as [Hsame _]; [cbn; lia|].
  destruct (durations_agree_from_one_minute_on
              (runtime_at 31000%Z "t" []) live_session)
    as [_ Hyoung]; [cbn; lia|].
  split; [apply Hsame; cbn; lia|].
  split; [vm_compute; reflexivity|].
  apply Hyoung. cbn. lia.
Defined.

Lemma update_first_app_last p f l x :
  (forall y, In y l -> p y = false) -> p x = true ->
  SessionStatics.update_first p f (l ++ [x]) = l ++ [f x].
Proof.
  intros Hl Hx. induction l as [|a l IH]; cbn.
  - now rewrite Hx.
  - rewrite (Hl a) by now left. rewrite IH; [reflexivity|].
    intros y Hy. apply Hl. now right.
Qed.

(** X30.  Right after a login whose session step went through, take a
    request for the session list that carries the new cookie, made
    before the session expires, [jwt.verify] accepting the token for
    the id and role it was signed for and the account being there.  It
    passes [protect], which stamps the session with the time of the
    request unless the store refuses that write, and gets exactly one
    entry:
    the session just created, with the device and address of the login
    request, flagged as the current one.  [GET /sessions/current]
    shows that same session.  The stamp of [protect] on [lastActivity]
    and [updatedAt] is the only write of either request: the handlers
    write nothing. *)
Theorem session_list_after_login_shows_one_current_session :
  forall env rt w userId role r user,
    String.eqb (clientIp r) "" = false ->
    String.eqb (jwt_sign env) "" = false ->
    token_free (jwt_sign env) (sessions (db w)) = true ->
    fails env (SessionUpdateMany userId (Utils.userTypeOfRole role)) = false ->
    fails env (SessionInsert (jwt_sign env)) = false ->
    (now (rt_env rt) < now env + Utils.seven_days)%Z ->
    AuthMiddleware.verifyToken rt (jwt_sign env) = Some (userId, role) ->
    account_for role userId (db w) = Some (Some user) ->
    let seen := if rt_session_fails rt (TouchByToken (jwt_sign env))
                then now env else now (rt_env rt) in
    exists w1 w2,
      Utils.generateToken env userId role (Some r) w = (Ok (jwt_sign env), w1)
      /\ SessionRoutes.get_sessions rt (Some (jwt_sign env)) w1
         = (Ok (Next [mkSessionView
                        (fresh_id (map s_id (sessions (db w))))
                        (userAgentInfo r) (clientIp r) seen (now env)
                        (now env + Utils.seven_days)%Z (Some true)
                        (SessionController.calculateDuration rt (now env))]),
            w2)
      /\ SessionRoutes.get_current rt (Some (jwt_sign env)) w1
         = (Ok (Next (mkSessionView
                        (fresh_id (map s_id (sessions (db w))))
                        (userAgentInfo r) (clientIp r) seen (now env)
                        (now env + Utils.seven_days)%Z None
                        (SessionController.calculateDuration rt (now env)))),
            w2)
      /\ map session_core (sessions (db w2))
         = map session_core (sessions (db w1))
      /\ (doctors (db w2), patients (db w2), admins (db w2), otps (db w2),
          authlogs (db w2), journal w2, cookies w2)
         = (doctors (db w1), patients (db w1), admins (db w1), otps (db w1),
            authlogs (db w1), journal w1, cookies w1).
Proof.
  intros env rt w userId role r user Hip Htok Hfree Hf1 Hf2 Hlife Hjwt Hacc seen.
  rewrite (generateToken_run env w userId role r Hip Hfree Hf1 Hf2).
  set (issued := issued_session env w userId role r).
  set (enforced := map (enforce env userId (Utils.userTypeOfRole role))
                       (sessions (db w))).
  set (w1 := mkWorld _ _ _).
  assert (Hs1 : sessions (db w1) = enforced ++ [issued])
    by (unfold w1; cbn; now destruct (db w)).
  assert (Hauth : Session.authenticates (rt_env rt) (jwt_sign env) issued = true).
  { unfold Session.authenticates, issued, issued_session. cbn.
    rewrite String.eqb_refl. cbn. now apply Z.ltb_lt. }
  assert (Hfind1 : find (Session.authenticates (rt_env rt) (jwt_sign env))
                        (sessions (db w1)) = Some issued).
  { rewrite Hs1. apply find_app_last; [|exact Hauth].
    now apply token_free_enforced_none. }
  assert (Hacc1 : account_for role userId (db w1) = Some (Some user))
    by (unfold w1; cbn [db]; now rewrite account_for_sessions).
  clearbody w1.
  pose proof (protect_run rt (jwt_sign env) w1 userId role user Htok Hjwt Hacc1)
    as Hprot.
  rewrite Hfind1 in Hprot.
  destruct (updateActivity_frame rt (jwt_sign env) w1)
    as [w2 [Hupd [Hcore Hrest]]].
  rewrite Hupd in Hprot. cbn [snd] in Hprot.
  set (issued' := mkSession (s_id issued) (s_userId issued) (s_userType issued)
                            (s_token issued) (s_deviceInfo issued)
                            (s_ipAddress issued) seen (s_expiresAt issued)
                            (s_isActive issued) (s_revokedReason issued)
                            (s_createdAt issued) seen).
  assert (Hs2 : sessions (db w2) = enforced ++ [issued']).
  { revert Hupd.
    unfold SessionStatics.updateActivity, tryCatch, session_write, ret.
    unfold issued', seen.
    destruct (rt_session_fails rt (TouchByToken (jwt_sign env))).
    - intros [= <-]. exact Hs1.
    - intros [= <-]. cbn [db].
      assert (Hss : forall f d, sessions (with_sessions f d) = f (sessions d))
        by (intros f []; reflexivity).
      rewrite Hss, Hs1. apply update_first_app_last.
      + intros y Hy. unfold enforced in Hy.
        apply in_map_iff in Hy as [x [<- Hx]].
        unfold SessionStatics.active_token. rewrite enforce_token.
        pose proof (token_free_not_in _ _ x Hfree Hx) as Hne.
        apply String.eqb_neq in Hne. now rewrite Hne.
      + unfold SessionStatics.active_token, issued, issued_session. cbn.
        now rewrite String.eqb_refl. }
  assert (Hauth' : Session.authenticates (rt_env rt) (jwt_sign env) issued'
                   = true) by exact Hauth.
  assert (Huid : AuthController.acc_id user = userId)
    by (eapply account_for_id; eauto).
  exists w1, w2.
  split; [reflexivity|]. split; [|split; [|split; [exact Hcore|exact Hrest]]].
  - unfold SessionRoutes.get_sessions, SessionRoutes.behind_protect.
    unfold bind at 1. rewrite Hprot. cbv beta iota.
    cbn [au_user au_userRole]. rewrite Huid.
    unfold bind at 1.
    unfold SessionController.getSessions, SessionStatics.getUserSessions,
      bind, getDb, ret, Session.liveSessions.
    rewrite Hs2. unfold enforced.
    rewrite filter_app, enforce_clears_live. cbn [app filter].
    assert (Session.live_of (rt_env rt) userId (Utils.userTypeOfRole role)
                            issued' = true) as ->.
    { unfold Session.live_of, Session.active_of, issued', issued, issued_session.
      cbn. rewrite Nat.eqb_refl, UserType_eqb_refl. cbn.
      now apply Z.ltb_lt. }
    cbn. now rewrite String.eqb_refl.
  - unfold SessionRoutes.get_current, SessionRoutes.behind_protect.
    unfold bind at 1. rewrite Hprot. cbv beta iota.
    unfold SessionController.getCurrentSession. cbn [truthy]. rewrite Htok.
    cbn [negb]. unfold bind, Session.findByToken, bind, getDb, ret.
    rewrite Hs2.
    rewrite (find_app_last _ _ issued'); [reflexivity| |exact Hauth'].
    now apply token_free_enforced_none.
Qed.

(** Alice looks at her sessions two minutes after her second login. *)
Lemma session_list_after_login_shows_one_current_session_witness :
  exists w1 w2,
    Utils.generateToken (env_at 9000%Z "jwt-2") 1 "patient"
                        (Some chrome_on_linux) (world_of db_one_session)
    = (Ok "jwt-2", w1)
    /\ SessionRoutes.get_sessions
         (runtime_at 129000%Z "t" [("jwt-2", alice_claims)]) (Some "jwt-2") w1
       = (Ok (Next [mkSessionView 2 (mkDevice "Chrome" "Linux" "Desktop")
                                  "203.0.113.7" 129000%Z 9000%Z 604809000%Z
                                  (Some true) "2 minutes ago"]),
          w2)
    /\ SessionRoutes.get_current
         (runtime_at 129000%Z "t" [("jwt-2", alice_claims)]) (Some "jwt-2") w1
       = (Ok (Next (mkSessionView 2 (mkDevice "Chrome" "Linux" "Desktop")
                                  "203.0.113.7" 129000%Z 9000%Z 604809000%Z
                                  None "2 minutes ago")),
          w2)
    /\ map session_core (sessions (db w2))
       = map session_core (sessions (db w1))
    /\ (doctors (db w2), patients (db w2), admins (db w2), otps (db w2),
        authlogs (db w2), journal w2, cookies w2)
       = (doctors (db w1), patients (db w1), admins (db w1), otps (db w1),
          authlogs (db w1), journal w1, cookies w1).
Proof.
  apply (session_list_after_login_shows_one_current_session
           (env_at 9000%Z "jwt-2")
           (runtime_at 129000%Z "t" [("jwt-2", alice_claims)])
           (world_of db_one_session) 1 "patient" chrome_on_linux
           (PatientAcc alice));
    reflexivity.
Defined.
